(** * zoom_batch_downloader.py: a shallow embedding and its properties

    The script enumerates cloud recordings through a REST client, filters
    them, and stores the matching files in a directory tree.  The embedding
    follows the functions of [zoom_batch_downloader.py] one by one:

    - [Dates]: the date arithmetic of [main] and of [get_meeting_uuids];
    - [Py]: the string and path primitives of Python that the script uses;
    - [Os]: the file system calls, over a finite map from paths to nodes;
    - section [Fetcher]: [get_meeting_uuids] and [get_meetings];
    - section [Downloader]: [create_path], [download_recording_file],
      [download_recordings_from_meetings] and [download_recordings];
    - section [Silence]: the log parser of [process_videos].

    A run is a function from the state (file system, console and actions,
    skipped-meetings list) to a result or an exception and the new state.
    The modules [utils], [zoom_client] and [config] are imported by the script
    and are not part of it: the configuration is a record, and the helpers are
    parameters of the functions that call them or, where the script depends
    on what they do, models that say what they are modelled from ([Models]
    holds those that only the concrete runs need).  The properties come after
    the definitions. *)

From Stdlib Require Import ZArith List Bool Lia Ascii.
From Stdlib Require Import Floats.
From Equations Require Import Equations.
From stdpp Require Import base option list gmap strings pretty.

Set Default Proof Using "Type".

(** ** The configuration ([import config as CONFIG]) *)

Record Config := {
  OUTPUT_PATH : string;
  CHECK_FRIDAY_WEEKENDS : bool;
  TOPICS : list string;
  RECORDING_FILE_TYPES : list string;
  INCLUDE_PARTICIPANT_AUDIO : bool;
  USE_MEETING_TOPIC_NAME : bool;
  GROUP_BY_USER : bool;
  GROUP_BY_TOPIC : bool;
  GROUP_BY_RECORDING : bool;
  (* megabytes; taken as an integer *)
  MIN_FILE_SIZE : Z;
  (* bytes *)
  FILE_SIZE_MISMATCH_TOLERANCE : Z;
  MINIMUM_FREE_DISK : Z;
  VERBOSE_OUTPUT : bool
}.

(** ** Dates

    [main] builds [from_date] and [to_date] with
    [datetime.datetime(year, month, day)], that is at midnight, and every
    later operation adds whole days.  Such a value is represented by its
    proleptic Gregorian ordinal ([toordinal()], day 1 is 0001-01-01), an
    integer, and [datetime.timedelta(days=n)] by [n].  A sum that leaves the
    days [datetime] can hold, 0001-01-01 to 9999-12-31, raises
    [OverflowError]: it is [None] here. *)

Module Dates.
Local Open Scope Z_scope.

Definition date := Z.

(** [datetime._is_leap], [_days_before_year], [_days_in_month],
    [_days_before_month] and [_ymd2ord] of the Python library. *)
Definition is_leap (year : Z) : bool :=
  (year mod 4 =? 0) && (negb (year mod 100 =? 0) || (year mod 400 =? 0)).

Definition days_before_year (year : Z) : Z :=
  let y := year - 1 in y * 365 + y / 4 - y / 100 + y / 400.

Definition days_in_month (year month : Z) : Z :=
  if (month =? 2) && is_leap year then 29
  else nth (Z.to_nat month) [0; 31; 28; 31; 30; 31; 30; 31; 31; 30; 31; 30; 31] 0.

Definition days_before_month (year month : Z) : Z :=
  nth (Z.to_nat month) [0; 0; 31; 59; 90; 120; 151; 181; 212; 243; 273; 304; 334] 0
  + (if (2 <? month) && is_leap year then 1 else 0).

Definition ymd2ord (year month day : Z) : date :=
  days_before_year year + days_before_month year month + day.

(** [datetime.weekday()]: Monday is 0, Friday is 4. *)
Definition weekday (d : date) : Z := (d + 6) mod 7.

(** The ordinal of [datetime.max], 9999-12-31, and the days [datetime] can
    hold. *)
Definition max_ordinal : Z := 3652059.

Definition in_range (d : Z) : bool := (1 <=? d) && (d <=? max_ordinal).

(** [d + datetime.timedelta(days=n)] *)
Definition add_days (d : date) (n : Z) : option date :=
  if in_range (d + n) then Some (d + n) else None.

(** Lines 67-69 of [main]:
<<
    if CONFIG.CHECK_FRIDAY_WEEKENDS and from_date.weekday() == 4:
        to_date += datetime.timedelta(days=2)
>>
    The function gives the value of [to_date] after these lines. *)
Definition main_to_date (CONFIG : Config) (from_date to_date : date) : option date :=
  if CHECK_FRIDAY_WEEKENDS CONFIG && (weekday from_date =? 4)
  then add_days to_date 2
  else Some to_date.

(** [datetime._ord2ymd] of the Python library. *)
Definition ord2ymd (n : date) : Z * Z * Z :=
  let n := n - 1 in
  let n400 := n / 146097 in let n := n mod 146097 in
  let year := n400 * 400 + 1 in
  let n100 := n / 36524 in let n := n mod 36524 in
  let n4 := n / 1461 in let n := n mod 1461 in
  let n1 := n / 365 in let n := n mod 365 in
  let year := year + n100 * 100 + n4 * 4 + n1 in
  if (n1 =? 4) || (n100 =? 4) then (year - 1, 12, 31)
  else
    let leapyear := (n1 =? 3) && (negb (n4 =? 24) || (n100 =? 3)) in
    let month := Z.shiftr (n + 50) 5 in
    let preceding :=
      nth (Z.to_nat month) [0; 0; 31; 59; 90; 120; 151; 181; 212; 243; 273; 304; 334] 0
      + (if (2 <? month) && leapyear then 1 else 0) in
    if n <? preceding then
      let month := month - 1 in
      let preceding :=
        preceding
        - (nth (Z.to_nat month) [0; 31; 28; 31; 30; 31; 30; 31; 31; 30; 31; 30; 31] 0
           + (if (month =? 2) && leapyear then 1 else 0)) in
      (year, month, n - preceding + 1)
    else (year, month, n - preceding + 1).

(** A number written with at least [width] digits, zeros in front. *)
Definition zero_pad (width : nat) (n : Z) : string :=
  let s := pretty n in
  String.concat "" (repeat "0" (width - String.length s)) +:+ s.

(** [date_to_str] (line 170): [date.strftime('%Y-%m-%d')].  For a year
    before 1000 the C library decides whether [%Y] puts zeros in front:
    the properties that state a formatted date are for the years 1000 to
    9999, where it does not matter. *)
Definition date_to_str (d : date) : string :=
  let '(year, month, day) := ord2ymd d in
  zero_pad 4 year +:+ "-" +:+ zero_pad 2 month +:+ "-" +:+ zero_pad 2 day.

(** The loop of [get_meeting_uuids] (lines 176-196), as far as the dates go:
<<
    local_start_date = start_date
    delta = datetime.timedelta(days=29)
    while local_start_date <= end_date:
        local_end_date = min(local_start_date + delta, end_date)
        ... query the window [local_start_date, local_end_date] ...
        local_start_date = local_end_date + datetime.timedelta(days=1)
>>
    [scan_windows local_start_date end_date] is the list of the windows
    [(local_start_date, local_end_date)] the loop queries, in order, when the
    loop ends, and [None] when one of its two sums raises [OverflowError]. *)
Definition delta : Z := 29.

Equations scan_windows (local_start_date end_date : date) : option (list (date * date))
  by wf (Z.to_nat (end_date - local_start_date + 1)) lt :=
scan_windows local_start_date end_date with Z_le_dec local_start_date end_date := {
  | left _ =>
      if in_range (local_start_date + delta) then
        let local_end_date := Z.min (local_start_date + delta) end_date in
        if in_range (local_end_date + 1) then
          option_map (cons (local_start_date, local_end_date))
                     (scan_windows (local_end_date + 1) end_date)
        else None
      else None
  | right _ => Some [] }.
Next Obligation. unfold delta. lia. Qed.

(** A day lies in a window when it is between its two ends, both included. *)
Definition in_window (d : date) (w : date * date) : bool :=
  (fst w <=? d) && (d <=? snd w).

(** The number of windows of [ws] that hold the day [d]. *)
Definition windows_holding (d : date) (ws : list (date * date)) : nat :=
  length (List.filter (in_window d) ws).

(** The number of days of a window, both ends counted. *)
Definition window_days (w : date * date) : Z := snd w - fst w + 1.

(** Each window starts the day after the one before it ends. *)
Fixpoint consecutive (ws : list (date * date)) : Prop :=
  match ws with
  | w1 :: ((w2 :: _) as rest) => fst w2 = snd w1 + 1 /\ consecutive rest
  | _ => True
  end.

End Dates.

(** ** Python's string and path primitives

    Strings are byte strings here: [lower] and [strip] act on the ASCII
    letters and the ASCII white space, as Python does on ASCII text. *)

Module Py.
Local Open Scope Z_scope.

(** [sub in s] for two strings. *)
Fixpoint contains (sub s : string) : bool :=
  String.prefix sub s ||
  match s with
  | EmptyString => false
  | String _ s' => contains sub s'
  end.

(** [x in l] for a list (or set) of strings. *)
Definition member (x : string) (l : list string) : bool :=
  bool_decide (x ∈ l).

(** [s.split(sep)] for a separator of one character: never empty. *)
Fixpoint split (sep : ascii) (s : string) : list string :=
  match s with
  | EmptyString => [EmptyString]
  | String c s' =>
      if Ascii.eqb c sep then EmptyString :: split sep s'
      else match split sep s' with
           | p :: ps => String c p :: ps
           | [] => [String c EmptyString]
           end
  end.

(** [l[1]]: an [IndexError] is [None]. *)
Definition item1 (l : list string) : option string := l !! 1%nat.

Definition is_space (c : ascii) : bool :=
  let n := Z.of_nat (nat_of_ascii c) in
  ((9 <=? n) && (n <=? 13)) || ((28 <=? n) && (n <=? 32)).

Fixpoint lstrip (s : string) : string :=
  match s with
  | String c s' => if is_space c then lstrip s' else s
  | EmptyString => EmptyString
  end.

(** [s.strip()] *)
Definition strip (s : string) : string :=
  String.rev (lstrip (String.rev (lstrip s))).

Definition lower_char (c : ascii) : ascii :=
  let n := nat_of_ascii c in
  if (65 <=? Z.of_nat n) && (Z.of_nat n <=? 90) then ascii_of_nat (n + 32) else c.

(** [s.lower()] *)
Fixpoint lower (s : string) : string :=
  match s with
  | EmptyString => EmptyString
  | String c s' => String (lower_char c) (lower s')
  end.

(** The characters of the class of the pattern of line 270: backslash,
    slash, star, question mark, colon, double quote, angle brackets, bar. *)
Definition unsafe_char (c : ascii) : bool :=
  bool_decide (nat_of_ascii c ∈ [92; 47; 42; 63; 58; 34; 60; 62; 124]%nat).

(** [re.sub(pattern, "", s)] for that class. *)
Fixpoint strip_unsafe (s : string) : string :=
  match s with
  | EmptyString => EmptyString
  | String c s' => if unsafe_char c then strip_unsafe s' else String c (strip_unsafe s')
  end.

Definition ends_with_sep (s : string) : bool :=
  match String.rev s with
  | String c _ => Ascii.eqb c "/"
  | EmptyString => false
  end.

(** [os.path.join(a, b)] of [posixpath]. *)
Definition path_join (a b : string) : string :=
  if String.prefix "/" b then b
  else if String.eqb a "" || ends_with_sep a then a +:+ b
  else a +:+ "/" +:+ b.

(** [s.rfind(c)]: the last index of [c] in [s], [-1] when there is none. *)
Fixpoint rfind_from (c : ascii) (s : string) (i found : Z) : Z :=
  match s with
  | EmptyString => found
  | String a s' => rfind_from c s' (i + 1) (if Ascii.eqb a c then i else found)
  end.

Definition rfind (c : ascii) (s : string) : Z := rfind_from c s 0 (-1).

(** [s[i:]] and [s[:i]] for [0 <= i]. *)
Definition slice_from (i : Z) (s : string) : string :=
  String.substring (Z.to_nat i) (String.length s - Z.to_nat i) s.

Definition slice_to (i : Z) (s : string) : string :=
  String.substring 0 (Z.to_nat i) s.

(** [os.path.splitext(p)] ([genericpath._splitext] with [sep = "/"] and
    [extsep = "."]): the extension starts at the last dot of the last
    component, unless only dots come before it there. *)
Definition splitext (p : string) : string * string :=
  let sepIndex := rfind "/" p in
  let dotIndex := rfind "." p in
  if (sepIndex <? dotIndex)
     && existsb
          (fun k => match String.get k p with
                    | Some c => negb (Ascii.eqb c ".")
                    | None => false
                    end)
          (seq (Z.to_nat (sepIndex + 1)) (Z.to_nat (dotIndex - (sepIndex + 1))))
  then (slice_to dotIndex p, slice_from dotIndex p)
  else (p, EmptyString).

(** [s.rstrip("/")] *)
Fixpoint rstrip_sep (s : string) : string :=
  match s with
  | EmptyString => EmptyString
  | String c s' =>
      let r := rstrip_sep s' in
      if String.eqb r "" && Ascii.eqb c "/" then EmptyString else String c r
  end.

(** [s == "/" * len(s)] *)
Definition only_seps (s : string) : bool := String.eqb (rstrip_sep s) "".

(** [os.path.split(p)] of [posixpath]: what comes before the last separator,
    without its trailing separators unless it has nothing else, and what
    comes after it. *)
Definition path_split (p : string) : string * string :=
  let i := rfind "/" p + 1 in
  let head := slice_to i p in
  let tail := slice_from i p in
  let head :=
    if negb (String.eqb head "") && negb (only_seps head) then rstrip_sep head else head in
  (head, tail).

(** [s[-8:]]: the last eight characters, or all of [s] when it is shorter. *)
Definition last8 (s : string) : string :=
  slice_from (Z.of_nat (String.length s) - 8) s.

(** [str(n)] for an integer, as an f-string renders it. *)
Definition str_nat (n : nat) : string := pretty n.
Definition str_Z (n : Z) : string := pretty n.

End Py.

(** ** The data the script handles

    A recording file and a meeting are JSON objects (Python dicts).  The keys
    the script tests for, or reads with [get], are optional fields; the keys
    it reads with [d[key]] without a test are plain fields. *)

Record RecordingFile := {
  id : string;
  file_type : string;
  file_extension : option string;
  file_name : option string;
  file_size : option Z;
  download_url : string;
  recording_start : string;
  recording_type : option string
}.

(** [meeting.get('recording_files') or []]: a missing key, [None] and the
    empty list are all the empty list. *)
Record Meeting := {
  topic : string;
  recording_files : list RecordingFile;
  participant_audio_files : list RecordingFile
}.

(** A page of the recordings listing: [page['meetings']], each entry with its
    ['uuid'] and, when present, its ['topic']. *)
Definition Page := list (string * option string).

(** What [client.get(url)] does: it returns the JSON object, or raises an
    exception whose [str] is the given text. *)
Inductive response :=
| Json (meeting : Meeting)
| Failure (text : string).

(** What streaming a download URL to a file does: all the [n] bytes the
    server sent were written, or the transfer broke after [n] bytes. *)
Inductive transfer :=
| Complete (n : Z)
| Broken (n : Z).

(** The API client ([zoom_client], outside the script): the pages of a
    listing, the answer to a request, the token that [do_with_token] hands
    out, and what the download of a URL yields.  A failure of [paginate],
    which ends the run, is not modelled. *)
Record zoom_client := {
  paginate : string -> list Page;
  get : string -> response;
  access_token : string;
  stream : string -> transfer
}.

(** Exceptions.  [FileExistsError], [NotADirectoryError] and
    [FileNotFoundError] are the errors of [os.mkdir], with the path it was
    called on; [OSError] stands for the error of another file system call. *)
Inductive exn :=
| KeyError (key : string)
| IndexError
| ValueError (text : string)
| OverflowError
| OSError (path : string)
| FileExistsError (path : string)
| NotADirectoryError (path : string)
| FileNotFoundError (path : string)
| Exception (text : string).

Inductive result (A : Type) :=
| Ok (a : A)
| Raise (e : exn).
Arguments Ok {A} a.
Arguments Raise {A} e.

(** ** The state of a run

    The file system is a finite map from the paths the script names to what
    is there: a file of some size, or a directory.  A path is the string the
    script builds, relative to the current directory when it does not start
    with a separator; links and the names [.] and [..] are outside the model.
    [out] is what the downloader has printed and
    done so far, the latest event last: a line printed, a file removed, a
    wait for disk space, a network transfer of a URL to a path started, a
    file renamed. *)

Inductive node :=
| File (size : Z)
| Dir.

Inductive event :=
| Printed (line : string)
| Removed (path : string)
| Waited (file_size : Z)
| Transfer (url path : string)
| Renamed (src dst : string).

Record World := {
  fs : gmap string node;
  out : list event;
  SKIPPED_MEETINGS : list string
}.

(** A computation that reads and changes the state and returns or raises. *)
Definition M (A : Type) : Type := World -> result A * World.

Definition ret {A} (a : A) : M A := fun w => (Ok a, w).
Definition raise {A} (e : exn) : M A := fun w => (Raise e, w).
Definition bind {A B} (m : M A) (k : A -> M B) : M B :=
  fun w => match m w with
           | (Ok a, w') => k a w'
           | (Raise e, w') => (Raise e, w')
           end.

Global Instance M_ret : MRet M := @ret.
Global Instance M_bind : MBind M := fun A B k m => bind m k.

(** The state after the events [events] and with the file system [f]. *)
Definition logged (events : list event) (w : World) : World :=
  {| fs := fs w; out := out w ++ events; SKIPPED_MEETINGS := SKIPPED_MEETINGS w |}.

Definition with_fs (f : gmap string node) (w : World) : World :=
  {| fs := f; out := out w; SKIPPED_MEETINGS := SKIPPED_MEETINGS w |}.

(** The events of a kind among [events]: the lines that report a declined
    file (they start with the word Skipping), the transfers started, and the
    files renamed into place. *)
Definition is_skip (e : event) : bool :=
  match e with Printed line => String.prefix "Skipping" line | _ => false end.

Definition is_transfer (e : event) : bool :=
  match e with Transfer _ _ => true | _ => false end.

Definition is_rename (e : event) : bool :=
  match e with Renamed _ _ => true | _ => false end.

Definition count (kind : event -> bool) (events : list event) : Z :=
  Z.of_nat (length (List.filter kind events)).

(** [for x in l: acc = body x acc], stopping at the first exception. *)
Fixpoint for_each {A B} (body : A -> B -> M B) (l : list A) (acc : B) : M B :=
  match l with
  | [] => ret acc
  | x :: l' => bind (body x acc) (for_each body l')
  end.

(** *** The operating system *)

Module Os.

Definition emit (e : event) : M unit :=
  fun w => (Ok tt, {| fs := fs w; out := out w ++ [e]; SKIPPED_MEETINGS := SKIPPED_MEETINGS w |}).

Definition set_fs (f : gmap string node -> gmap string node) : M unit :=
  fun w => (Ok tt, {| fs := f (fs w); out := out w; SKIPPED_MEETINGS := SKIPPED_MEETINGS w |}).

Definition print (line : string) : M unit := emit (Printed line).

(** [os.path.exists(path)], for the path of a file as the script joins it. *)
Definition path_exists (path : string) : M bool :=
  fun w => (Ok (bool_decide (is_Some (fs w !! path))), w).

(** [os.path.getsize(path)]; [dir_size] is the size the system reports for a
    directory. *)
Definition getsize (dir_size : Z) (path : string) : M Z :=
  fun w => match fs w !! path with
           | Some (File n) => (Ok n, w)
           | Some Dir => (Ok dir_size, w)
           | None => (Raise (OSError path), w)
           end.

(** [os.remove(path)]: removes a file, raises on a directory or on nothing. *)
Definition remove (path : string) : M unit :=
  fun w => match fs w !! path with
           | Some (File _) => (set_fs (delete path);; emit (Removed path)) w
           | _ => (Raise (OSError path), w)
           end.

(** [os.rename(src, dst)], as on POSIX: [dst] is replaced when it is a file. *)
Definition rename (src dst : string) : M unit :=
  fun w => match fs w !! src, fs w !! dst with
           | Some (File n), (Some (File _) | None) =>
               (set_fs (fun f => <[dst := File n]> (delete src f));;
                emit (Renamed src dst)) w
           | _, _ => (Raise (OSError src), w)
           end.

(** The entry that the path of a directory names: separators at its end do
    not count, and a path of separators only is the root. *)
Definition entry_path (path : string) : string :=
  if Py.only_seps path then path else Py.rstrip_sep path.

(** What is at the path of a directory: nothing at the empty path, a
    directory at the root. *)
Definition node_at (f : gmap string node) (path : string) : option node :=
  if String.eqb path "" then None
  else if Py.only_seps path then Some Dir
  else f !! Py.rstrip_sep path.

(** [os.path.exists(path)] and [os.path.isdir(path)] for the path of a
    directory. *)
Definition exists_at (path : string) : M bool :=
  fun w => (Ok (bool_decide (is_Some (node_at (fs w) path))), w).

Definition isdir (path : string) : M bool :=
  fun w => (Ok (match node_at (fs w) path with Some Dir => true | _ => false end), w).

(** [try: m except Exception as e: handler e] *)
Definition try_except {A} (m : M A) (handler : exn -> M A) : M A :=
  fun w => match m w with
           | (Raise e, w') => handler e w'
           | run => run
           end.

(** [os.mkdir(name)]: the entry must be new and its parent a directory; a
    name with no parent part is made in the current directory. *)
Definition mkdir (name : string) : M unit :=
  fun w =>
    if String.eqb name "" then (Raise (FileNotFoundError name), w)
    else
      match node_at (fs w) name with
      | Some _ => (Raise (FileExistsError name), w)
      | None =>
          let parent := fst (Py.path_split (entry_path name)) in
          match (if String.eqb parent "" then Some Dir else node_at (fs w) parent) with
          | Some Dir => set_fs (insert (entry_path name) Dir) w
          | Some (File _) => (Raise (NotADirectoryError name), w)
          | None => (Raise (FileNotFoundError name), w)
          end
      end.

(** [os.makedirs(name, exist_ok=True)] of the Python library:
<<
    head, tail = path.split(name)
    if not tail:
        head, tail = path.split(head)
    if head and tail and not path.exists(head):
        try:
            makedirs(head, exist_ok=exist_ok)
        except FileExistsError:
            pass
    try:
        mkdir(name, mode)
    except OSError:
        if not exist_ok or not path.isdir(name):
            raise
>>
    The two calls of [path.split] give the head and the tail of the name
    without the separators at its end.  The test for a tail [.] is left out
    with the names [.] and [..].  Each call is for a shorter name than the one
    before: [fuel] bounds the depth of the calls, and the length of the name
    is enough ([makedirs_from_spec]). *)
Fixpoint makedirs_from (fuel : nat) (name : string) {struct fuel} : M unit :=
  let '(head, tail) := Py.path_split (entry_path name) in
  (if negb (String.eqb head "") && negb (String.eqb tail "") then
     found ← exists_at head;
     if found : bool then mret tt
     else
       match fuel with
       | S fuel' =>
           try_except (makedirs_from fuel' head)
             (fun e => match e with FileExistsError _ => mret tt | _ => raise e end)
       | O => raise (Exception "RecursionError")
       end
   else mret tt);;
  try_except (mkdir name)
    (fun e => is_dir ← isdir name; if is_dir : bool then mret tt else raise e).

Definition makedirs (name : string) : M unit := makedirs_from (String.length name) name.

(** Writing [n] bytes to [path] (created or truncated first). *)
Definition write_file (path : string) (n : Z) : M unit :=
  fun w => match fs w !! path with
           | Some Dir => (Raise (OSError path), w)
           | _ => set_fs (insert path (File n)) w
           end.

End Os.

(** ** Scanning: [get_meeting_uuids] and [get_meetings] *)

Definition lift {A} (r : result A) : M A := fun w => (r, w).

Section Fetcher.
Variable client : zoom_client.
(** [utils.double_encode], outside the script. *)
Variable double_encode : string -> string.

(** The body of the loop of [get_meeting_uuids] for one window (lines
    185-194): the pages of the window's listing, every meeting of every page
    with its uuid and its topic (['Unknown Topic'] when it has none), the
    whole chunk reversed. *)
Definition recordings_url (user_email : string) (w : Dates.date * Dates.date) : string :=
  "https://api.zoom.us/v2/users/" +:+ user_email +:+ "/recordings?from="
  +:+ Dates.date_to_str (fst w) +:+ "&to=" +:+ Dates.date_to_str (snd w).

Definition window_chunk (user_email : string) (w : Dates.date * Dates.date)
  : list (string * string) :=
  let data_chunk :=
    concat (map (map (fun m : string * option string =>
                        (fst m, default "Unknown Topic" (snd m))))
                (paginate client (recordings_url user_email w))) in
  rev data_chunk.

(** [get_meeting_uuids] (lines 173-198): the windows of [Dates.scan_windows]
    in order, the chunk of each appended to [meeting_data_list]; an
    [OverflowError] of the date arithmetic ends the loop and the function.
    The progress bar is not part of the state. *)
Definition get_meeting_uuids (user_email : string) (start_date end_date : Dates.date)
  : M (list (string * string)) :=
  Os.print "Scanning for recorded meetings:";;
  match Dates.scan_windows start_date end_date with
  | Some windows => mret (concat (map (window_chunk user_email) windows))
  | None => raise OverflowError
  end.

Definition skipped_append (item : string) : M unit :=
  fun w => (Ok tt, {| fs := fs w; out := out w;
                      SKIPPED_MEETINGS := SKIPPED_MEETINGS w ++ [item] |}).

Definition meeting_url (meeting_uuid : string) : string :=
  "https://api.zoom.us/v2/meetings/" +:+ double_encode meeting_uuid +:+ "/recordings".

Definition still_processing (meeting_topic : string) : string :=
  "Meeting: '" +:+ meeting_topic +:+ "' (Still Processing)".

Definition not_found (meeting_topic : string) : string :=
  "Meeting: '" +:+ meeting_topic +:+ "' (Not Found / 404)".

(** The body of the loop of [get_meetings] (lines 206-220). *)
Definition get_meetings_body (ref : string * string) (meetings : list Meeting)
  : M (list Meeting) :=
  let '(meeting_uuid, meeting_topic) := ref in
  match get client (meeting_url meeting_uuid) with
  | Json meeting => mret (meetings ++ [meeting])
  | Failure e =>
      if Py.contains "3301" e then
        skipped_append (still_processing meeting_topic);; mret meetings
      else if Py.contains "404" e then
        skipped_append (not_found meeting_topic);; mret meetings
      else raise (Exception e)
  end.

(** [get_meetings] (lines 200-222). *)
Definition get_meetings (meeting_data : list (string * string)) : M (list Meeting) :=
  match meeting_data with
  | [] => mret []
  | _ :: _ =>
      Os.print "Scanning for recordings:";;
      for_each get_meetings_body meeting_data []
  end.

(** The three outcomes of fetching one meeting reference, in the words of
    the specification: the record, an entry for the skipped-meetings report,
    or a fatal error.  The test for the code 3301 comes first. *)
Inductive outcome :=
| Fetched (meeting : Meeting)
| Reported (item : string)
| Fatal (text : string).

Definition outcome_of (ref : string * string) : outcome :=
  match get client (meeting_url (fst ref)) with
  | Json meeting => Fetched meeting
  | Failure e =>
      if Py.contains "3301" e then Reported (still_processing (snd ref))
      else if Py.contains "404" e then Reported (not_found (snd ref))
      else Fatal e
  end.

(** The records, and the report entries, of a list of outcomes, in order. *)
Definition fetched (os : list outcome) : list Meeting :=
  omap (fun o => match o with Fetched m => Some m | _ => None end) os.

Definition reported (os : list outcome) : list string :=
  omap (fun o => match o with Reported i => Some i | _ => None end) os.

(** The outcomes before the first fatal one, and that one's text. *)
Fixpoint until_fatal (os : list outcome) : list outcome * option string :=
  match os with
  | [] => ([], None)
  | Fatal e :: _ => ([], Some e)
  | o :: rest => let '(before, e) := until_fatal rest in (o :: before, e)
  end.

Definition report (items : list string) (w : World) : World :=
  {| fs := fs w; out := out w; SKIPPED_MEETINGS := SKIPPED_MEETINGS w ++ items |}.

End Fetcher.

(** ** Storing: [download_recordings_from_meetings] and [download_recording_file] *)

Section Downloader.
Local Open Scope Z_scope.
Variable CONFIG : Config.
Variable client : zoom_client.
(** [utils.slugify], outside the script. *)
Variable slugify : string -> string.
(** The size the system reports for a directory. *)
Variable dir_size : Z.

(** [create_path] (lines 315-324). *)
Definition create_path (host_folder file_name topic recording_name : string) : M string :=
  let folder_path := host_folder in
  let folder_path :=
    if GROUP_BY_TOPIC CONFIG then Py.path_join folder_path topic else folder_path in
  let folder_path :=
    if GROUP_BY_RECORDING CONFIG then Py.path_join folder_path recording_name
    else folder_path in
  Os.makedirs folder_path;;
  mret (Py.path_join folder_path file_name).

(** [f'{base_name}_{i}{ext}'] *)
Definition suffixed (base_name : string) (i : nat) (ext : string) : string :=
  base_name +:+ "_" +:+ Py.str_nat i +:+ ext.

(** The loop of lines 286-289, over what [os.path.exists] answers for the
    [i]-th candidate:
<<
        i = 1
        while os.path.exists(os.path.join(host_folder, f'{base_name}_{i}{ext}')):
            i += 1
>>
    [first_free taken fuel i] runs at most [fuel] tests from [i] on. *)
Fixpoint first_free (taken : nat -> bool) (fuel i : nat) : nat :=
  match fuel with
  | O => i
  | S fuel' => if taken i then first_free taken fuel' (S i) else i
  end.

Definition candidate_taken (f : gmap string node) (host_folder base_name ext : string)
  (i : nat) : bool :=
  bool_decide (is_Some (f !! Py.path_join host_folder (suffixed base_name i ext))).

(** The value of [i] when the loop ends.  One test more than the file system
    has entries is enough for the loop to end by itself
    ([first_free_stops]). *)
Definition probe (host_folder base_name ext : string) : M nat :=
  fun w => (Ok (first_free (candidate_taken (fs w) host_folder base_name ext)
                           (S (size (fs w))) 1), w).

(** Modelled from the spec: [utils.wait_for_disk_space] ([utils.py] is not
    part of the source), which blocks until the free space at the output
    root exceeds the file size by the configured margin.  The free space is
    not part of the state: the wait is recorded and returns. *)
Definition wait_for_disk_space (file_size : Z) : M unit :=
  Os.emit (Waited file_size).

(** Modelled from the spec: [utils.download_with_progress] ([utils.py] is not
    part of the source), which streams the URL to [output_path] and verifies
    the transferred size against the expected size within the tolerance; a
    mismatch, like a broken transfer, raises.  What was written stays at
    [output_path]. *)
Definition download_with_progress (url output_path : string)
  (expected_size size_tolerance : Z) : M unit :=
  Os.emit (Transfer url output_path);;
  match stream client url with
  | Complete n =>
      Os.write_file output_path n;;
      if Z.abs (n - expected_size) <=? size_tolerance then mret tt
      else raise (Exception "size mismatch")
  | Broken n =>
      Os.write_file output_path n;;
      raise (Exception "transfer failed")
  end.

(** Modelled from the spec: [client.do_with_token] ([zoom_client.py] is not
    part of the source), which hands the bearer token to its argument. *)
Definition do_with_token {A} (f : string -> M A) : M A := f (access_token client).

(** Lines 270-291 of [download_recording_file]: the name is cleaned, a file
    below the minimum size is reported and declined ([None]: the function
    returns [False] at line 275), and otherwise the destination is resolved:
    the file name, with a suffix when the first path is taken, and its path. *)
Definition resolve_destination (download_url host_folder file_name : string)
  (file_size : Z) (topic : string) : M (option (string * string)) :=
  let file_name := Py.strip_unsafe file_name in
  if file_size <? MIN_FILE_SIZE CONFIG * 1024 * 1024 then
    Os.print ("Skipping: " +:+ file_name +:+ " (size is less than "
              +:+ Py.str_Z (MIN_FILE_SIZE CONFIG) +:+ " MB)");;
    mret None
  else
    (if VERBOSE_OUTPUT CONFIG
     then Os.print "";; Os.print ("URL: " +:+ download_url)
     else mret tt);;
    file_path ← create_path host_folder file_name topic file_name;
    taken ← Os.path_exists file_path;
    if taken : bool then
      let '(base_name, ext) := Py.splitext file_name in
      i ← probe host_folder base_name ext;
      let file_name := suffixed base_name i ext in
      file_path ← create_path host_folder file_name topic file_name;
      mret (Some (file_name, file_path))
    else mret (Some (file_name, file_path)).

(** Lines 300-313 of [download_recording_file]: the transfer to the
    temporary sibling path, and the renaming. *)
Definition fetch (download_url file_name file_path : string) (file_size : Z) : M bool :=
  Os.print ("Downloading: " +:+ file_name);;
  wait_for_disk_space file_size;;
  let tmp_file_path := file_path +:+ ".tmp" in
  do_with_token (fun t =>
    download_with_progress (download_url +:+ "?access_token=" +:+ t) tmp_file_path
      file_size (FILE_SIZE_MISMATCH_TOLERANCE CONFIG));;
  Os.rename tmp_file_path file_path;;
  mret true.

(** Lines 293-313 of [download_recording_file], from the resolved
    [file_name] and [file_path] on. *)
Definition store (download_url file_name file_path : string) (file_size : Z) : M bool :=
  present ← Os.path_exists file_path;
  existing_size ← (if present : bool then Os.getsize dir_size file_path else mret 0);
  if present && (Z.abs (existing_size - file_size) <=? FILE_SIZE_MISMATCH_TOLERANCE CONFIG)
  then
    Os.print ("Skipping existing file: " +:+ file_name);;
    mret false
  else
    (if present
     then Os.print ("Deleting corrupt file: " +:+ file_name);; Os.remove file_path
     else mret tt);;
    fetch download_url file_name file_path file_size.

(** [download_recording_file] (lines 268-313). *)
Definition download_recording_file (download_url host_folder file_name : string)
  (file_size : Z) (topic : string) : M bool :=
  destination ← resolve_destination download_url host_folder file_name file_size topic;
  match destination with
  | None => mret false
  | Some (file_name, file_path) => store download_url file_name file_path file_size
  end.

(** The running totals [(file_count, total_size, skipped_count)]. *)
Definition Counts : Type := Z * Z * Z.

(** Line 228: the meeting passes the topic filter. *)
Definition topic_selected (meeting : Meeting) : bool :=
  negb (negb (bool_decide (TOPICS CONFIG = []))
        && negb (Py.member (topic meeting) (TOPICS CONFIG))
        && negb (Py.member (slugify (topic meeting)) (TOPICS CONFIG))).

(** Line 238: the recording file passes the file type filter. *)
Definition type_selected (recording_file : RecordingFile) : bool :=
  negb (negb (bool_decide (RECORDING_FILE_TYPES CONFIG = []))
        && negb (Py.member (file_type recording_file) (RECORDING_FILE_TYPES CONFIG))).

(** Line 242: the extension, lower case. *)
Definition extension (recording_file : RecordingFile) : result string :=
  match file_extension recording_file with
  | Some e =>
      if negb (String.eqb e "") then Ok (Py.lower e)
      else match file_name recording_file with
           | Some n => Ok (Py.lower (snd (Py.splitext n)))
           | None => Raise (KeyError "file_name")
           end
  | None =>
      match file_name recording_file with
      | Some n => Ok (Py.lower (snd (Py.splitext n)))
      | None => Raise (KeyError "file_name")
      end
  end.

(** Lines 244-255: the topic handed on and the file name, in the two naming
    modes. *)
Definition naming (meeting : Meeting) (recording_file : RecordingFile) (ext : string)
  : string * string :=
  if USE_MEETING_TOPIC_NAME CONFIG then
    let topic := topic meeting in
    (topic, topic +:+ "." +:+ ext)
  else
    let topic := slugify (topic meeting) in
    let recording_name := slugify (topic +:+ "__" +:+ recording_start recording_file) in
    let file_id := id recording_file in
    let file_name_suffix :=
      match file_name recording_file with
      | Some n => fst (Py.splitext n) +:+ "__"
      | None => ""
      end in
    let recording_type_suffix :=
      match recording_type recording_file with
      | Some t => t +:+ "__"
      | None => ""
      end in
    (topic,
     slugify (recording_name +:+ "__" +:+ recording_type_suffix +:+ file_name_suffix
              +:+ Py.last8 file_id) +:+ "." +:+ ext).

(** Lines 259-263: the totals after the downloader has answered. *)
Definition tally (downloaded : bool) (file_size : Z) (c : Counts) : Counts :=
  let '(file_count, total_size, skipped_count) := c in
  if downloaded then (file_count + 1, total_size + file_size, skipped_count)
  else (file_count, total_size, skipped_count + 1).

(** The body of the inner loop (lines 235-263). *)
Definition recording_file_body (meeting : Meeting) (host_folder : string)
  (recording_file : RecordingFile) (c : Counts) : M Counts :=
  match file_size recording_file with
  | None => mret c
  | Some size =>
      if negb (type_selected recording_file) then mret c
      else
        let url := download_url recording_file in
        ext ← lift (extension recording_file);
        let '(topic, file_name) := naming meeting recording_file ext in
        let file_size := size in
        downloaded ← download_recording_file url host_folder file_name file_size topic;
        mret (tally downloaded file_size c)
  end.

(** The body of the outer loop (lines 228-263). *)
Definition meeting_body (host_folder : string) (meeting : Meeting) (c : Counts) : M Counts :=
  if negb (topic_selected meeting) then mret c
  else
    let recording_files := recording_files meeting in
    let participant_audio_files :=
      if INCLUDE_PARTICIPANT_AUDIO CONFIG then participant_audio_files meeting else [] in
    for_each (recording_file_body meeting host_folder)
             (recording_files ++ participant_audio_files) c.

(** [download_recordings_from_meetings] (lines 224-265). *)
Definition download_recordings_from_meetings (meetings : list Meeting) (host_folder : string)
  : M Counts :=
  for_each (meeting_body host_folder) meetings (0, 0, 0).

(** The lines [resolve_destination] prints: the URL lines before it creates
    the folders, or the report of a file below the minimum size. *)
Definition verbose_lines (download_url : string) : list event :=
  if VERBOSE_OUTPUT CONFIG then [Printed ""; Printed ("URL: " +:+ download_url)] else [].

Definition too_small_line (file_name : string) : event :=
  Printed ("Skipping: " +:+ Py.strip_unsafe file_name +:+ " (size is less than "
           +:+ Py.str_Z (MIN_FILE_SIZE CONFIG) +:+ " MB)").

(** What the totals gain between two states of a run. *)
Definition file_count_of (c : Counts) : Z := fst (fst c).
Definition total_size_of (c : Counts) : Z := snd (fst c).
Definition skipped_count_of (c : Counts) : Z := snd c.

(** [get_user_host_folder] (lines 164-168). *)
Definition get_user_host_folder (user_email : string) : string :=
  if GROUP_BY_USER CONFIG then Py.path_join (OUTPUT_PATH CONFIG) user_email
  else OUTPUT_PATH CONFIG.

(** [get_user_description] (lines 161-162); a user without a name has the
    empty name. *)
Definition get_user_description (user_email user_name : string) : string :=
  if negb (String.eqb user_name "") then user_email +:+ " (" +:+ user_name +:+ ")"
  else user_email.

(** The body of the loop of [download_recordings] (lines 138-157). *)
Definition user_body (double_encode : string -> string) (from_date to_date : Dates.date)
  (user : string * string) (c : Counts) : M Counts :=
  let '(user_email, user_name) := user in
  let user_description := get_user_description user_email user_name in
  let user_host_folder := get_user_host_folder user_email in
  Os.print ("Downloading recordings from user " +:+ user_description
            +:+ " - Starting at " +:+ Dates.date_to_str from_date
            +:+ " and up to " +:+ Dates.date_to_str to_date +:+ " (inclusive).");;
  meeting_data ← get_meeting_uuids client user_email from_date to_date;
  meetings ← get_meetings client double_encode meeting_data;
  '(user_file_count, user_total_size, user_skipped_count) ←
    download_recordings_from_meetings meetings user_host_folder;
  Os.print "######################################################################";;
  Os.print "";;
  let '(file_count, total_size, skipped_count) := c in
  mret (file_count + user_file_count, total_size + user_total_size,
        skipped_count + user_skipped_count).

(** [download_recordings] (lines 134-159). *)
Definition download_recordings (double_encode : string -> string)
  (users : list (string * string)) (from_date to_date : Dates.date) : M Counts :=
  for_each (user_body double_encode from_date to_date) users (0, 0, 0).

End Downloader.

(** The events of a call that answered: exactly one report of a declined
    file and no renaming when the answer is False, one renaming and no such
    report when it is True. *)
Definition answered (r : result bool) (events : list event) : Prop :=
  match r with
  | Ok false => count is_skip events = 1%Z /\ count is_rename events = 0%Z
                /\ count is_transfer events = 0%Z
  | Ok true => count is_skip events = 0%Z /\ count is_rename events = 1%Z
  | Raise _ => True
  end.

(** The totals and the events move together. *)
Definition in_step (c : Counts) (w : World) (c' : Counts) (w' : World) : Prop :=
  exists events,
    out w' = out w ++ events
    /\ skipped_count_of c' = (skipped_count_of c + count is_skip events)%Z
    /\ file_count_of c' = (file_count_of c + count is_rename events)%Z.

(** ** Post-processing: the log parser of [process_videos] *)

Section Silence.
(** The numbers are Python's floats: [float] is the built-in [float(text)]
    ([None] for the [ValueError] it raises) and [gt a b] is [a > b]. *)
Context {F : Type}.
Variable float : string -> option F.
Variable gt : F -> F -> bool.

(** [{"start": start, "end": end, "name": ""}] *)
Record CutSegment := { start : F; end_ : F; name : string }.

(** The variables of the loop: [cut_segments], [start] and [end]. *)
Definition ParseState : Type := list CutSegment * option F * option F.

(** The body of the loop over the lines of the log (lines 366-374). *)
Definition parse_line (line : string) (st : ParseState) : result ParseState :=
  let '(cut_segments, start, end_) := st in
  if Py.contains "[silencedetect @" line then
    if Py.contains "silence_start" line then
      match Py.item1 (Py.split ":" line) with
      | None => Raise IndexError
      | Some text =>
          match float (Py.strip text) with
          | None => Raise (ValueError (Py.strip text))
          | Some v => Ok (cut_segments, Some v, end_)
          end
      end
    else if Py.contains "silence_end" line then
      match Py.item1 (Py.split ":" line) with
      | None => Raise IndexError
      | Some text =>
          let text := Py.strip (hd EmptyString (Py.split "|" text)) in
          match float text with
          | None => Raise (ValueError text)
          | Some e =>
              match start with
              | Some s =>
                  if gt e s
                  then Ok (cut_segments ++ [{| start := s; end_ := e; name := "" |}],
                           None, None)
                  else Ok (cut_segments, Some s, Some e)
              | None => Ok (cut_segments, None, Some e)
              end
          end
      end
    else Ok st
  else Ok st.

Fixpoint parse_lines (lines : list string) (st : ParseState) : result ParseState :=
  match lines with
  | [] => Ok st
  | line :: rest =>
      match parse_line line st with
      | Ok st' => parse_lines rest st'
      | Raise e => Raise e
      end
  end.

(** Lines 361-374: the cut segments of a log, given as its lines. *)
Definition cut_segments_of (lines : list string) : result (list CutSegment) :=
  match parse_lines lines ([], None, None) with
  | Ok (cut_segments, _, _) => Ok cut_segments
  | Raise e => Raise e
  end.

(** A line that sets [start] to [v], and one that reads the end [v]. *)
Definition start_line (line : string) (v : F) : Prop :=
  Py.contains "[silencedetect @" line = true
  /\ Py.contains "silence_start" line = true
  /\ exists text, Py.item1 (Py.split ":" line) = Some text /\ float (Py.strip text) = Some v.

Definition end_line (line : string) (v : F) : Prop :=
  Py.contains "[silencedetect @" line = true
  /\ Py.contains "silence_start" line = false
  /\ Py.contains "silence_end" line = true
  /\ exists text, Py.item1 (Py.split ":" line) = Some text
       /\ float (Py.strip (hd EmptyString (Py.split "|" text))) = Some v.

(** A cut segment of a log pairs the number of a start line with the number
    of a later end line, greater than it, and has the empty name. *)
Definition paired (lines : list string) (seg : CutSegment) : Prop :=
  name seg = EmptyString
  /\ gt (end_ seg) (start seg) = true
  /\ exists (i j : nat) l1 l2,
       (i < j)%nat /\ lines !! i = Some l1 /\ lines !! j = Some l2
       /\ start_line l1 (start seg) /\ end_line l2 (end_ seg).

(** The value of [start], when it is set, was read from a start line. *)
Definition pending (lines : list string) (start : option F) : Prop :=
  match start with
  | None => True
  | Some v => exists (i : nat) l, lines !! i = Some l /\ start_line l v
  end.

(** What holds of the variables of the loop after the lines [done]. *)
Definition parse_inv (done : list string) (st : ParseState) : Prop :=
  let '(cut_segments, start, _) := st in
  (forall seg, seg ∈ cut_segments -> paired done seg)
  /\ pending done start.

End Silence.
Arguments CutSegment F : clear implicits.
Arguments ParseState F : clear implicits.

(** ** Models of what lies outside the script, for concrete runs *)

Module Models.
Local Open Scope Z_scope.

Definition is_word_char (c : ascii) : bool :=
  let n := Z.of_nat (nat_of_ascii c) in
  ((48 <=? n) && (n <=? 57)) || ((65 <=? n) && (n <=? 90))
  || ((97 <=? n) && (n <=? 122)) || (n =? 95).

Definition is_separator (c : ascii) : bool := Py.is_space c || Ascii.eqb c "-".

Fixpoint keep_slug_chars (s : string) : string :=
  match s with
  | EmptyString => EmptyString
  | String c s' =>
      if is_word_char c || is_separator c then String c (keep_slug_chars s')
      else keep_slug_chars s'
  end.

Fixpoint unify_separators (in_run : bool) (s : string) : string :=
  match s with
  | EmptyString => EmptyString
  | String c s' =>
      if is_separator c
      then if in_run then unify_separators true s'
           else String "-" (unify_separators true s')
      else String c (unify_separators false s')
  end.

Fixpoint lstrip_dashes (s : string) : string :=
  match s with
  | String c s' => if Ascii.eqb c "-" || Ascii.eqb c "_" then lstrip_dashes s' else s
  | EmptyString => EmptyString
  end.

(** Modelled from the spec: [utils.slugify] ([utils.py] is not part of the
    source), the normalized, lowercase, separator-unified form of a free
    text: lower case, only letters, digits, underscores and separators kept,
    every run of white space and hyphens turned into one hyphen, no hyphen or
    underscore at either end. *)
Definition slugify (value : string) : string :=
  let value := unify_separators false (keep_slug_chars (Py.lower value)) in
  String.rev (lstrip_dashes (String.rev (lstrip_dashes value))).

(** Modelled from the spec: [utils.double_encode] ([utils.py] is not part of
    the source); the spec says nothing of it, so the uuid is left as it is. *)
Definition double_encode (s : string) : string := s.

Definition digit_of (c : ascii) : option Z :=
  let n := Z.of_nat (nat_of_ascii c) in
  if (48 <=? n) && (n <=? 57) then Some (n - 48) else None.

(** The digits of [s] read as a number after [acc]; [None] when a character
    is not a digit. *)
Fixpoint read_digits (s : string) (acc : Z) : option Z :=
  match s with
  | EmptyString => Some acc
  | String c s' =>
      match digit_of c with
      | Some d => read_digits s' (acc * 10 + d)
      | None => None
      end
  end.

(** Python's [float(text)] on the plain decimal numerals [digits.digits],
    with an optional sign: the binary64 number nearest to the quotient of the
    digits by the power of ten.  The other texts [float] reads (exponents,
    [inf], [nan], underscores, surrounding blanks) are outside this model and
    are [None] like a text that is no number. *)
Definition float_of_decimal (text : string) : option PrimFloat.float :=
  let '(negative, body) :=
    match text with
    | String "-" rest => (true, rest)
    | String "+" rest => (false, rest)
    | _ => (false, text)
    end in
  match Py.split "." body with
  | [int_part] =>
      if String.eqb int_part "" then None
      else match read_digits int_part 0 with
           | Some n =>
               let x := SF2Prim (binary_normalize prec emax n 0 false) in
               Some (if negative then PrimFloat.opp x else x)
           | None => None
           end
  | [int_part; frac_part] =>
      if String.eqb int_part "" && String.eqb frac_part "" then None
      else match read_digits (int_part +:+ frac_part) 0 with
           | Some n =>
               let q :=
                 SFdiv prec emax
                   (match n with
                    | Zpos p => S754_finite false p 0
                    | _ => S754_zero false
                    end)
                   (S754_finite false (Z.to_pos (10 ^ Z.of_nat (String.length frac_part))) 0) in
               let x := SF2Prim q in
               Some (if negative then PrimFloat.opp x else x)
           | None => None
           end
  | _ => None
  end.


(** A configuration for the concrete runs: no filter, no grouping, names from
    the meeting topic, files of any size, sizes compared exactly. *)
Definition plain_config : Config := {|
  OUTPUT_PATH := "out";
  CHECK_FRIDAY_WEEKENDS := true;
  TOPICS := [];
  RECORDING_FILE_TYPES := [];
  INCLUDE_PARTICIPANT_AUDIO := false;
  USE_MEETING_TOPIC_NAME := true;
  GROUP_BY_USER := false;
  GROUP_BY_TOPIC := false;
  GROUP_BY_RECORDING := false;
  MIN_FILE_SIZE := 0;
  FILE_SIZE_MISMATCH_TOLERANCE := 0;
  MINIMUM_FREE_DISK := 0;
  VERBOSE_OUTPUT := false
|}.


(** A run that starts with an empty output folder and an empty report. *)
Definition empty_world : World := {| fs := ∅; out := []; SKIPPED_MEETINGS := [] |}.

(** A client whose every request fails with the given text. *)
Definition failing_client (text : string) : zoom_client := {|
  paginate := fun _ => [];
  get := fun _ => Failure text;
  access_token := "token";
  stream := fun _ => Broken 0
|}.


(** The configuration of a run: the two filters, the grouping by topic and
    by recording, the minimum size and the tolerance; the rest as in
    [plain_config]. *)
Definition config (topics types : list string) (by_topic by_recording : bool)
  (min_file_size tolerance : Z) : Config := {|
  OUTPUT_PATH := "out";
  CHECK_FRIDAY_WEEKENDS := true;
  TOPICS := topics;
  RECORDING_FILE_TYPES := types;
  INCLUDE_PARTICIPANT_AUDIO := false;
  USE_MEETING_TOPIC_NAME := true;
  GROUP_BY_USER := false;
  GROUP_BY_TOPIC := by_topic;
  GROUP_BY_RECORDING := by_recording;
  MIN_FILE_SIZE := min_file_size;
  FILE_SIZE_MISMATCH_TOLERANCE := tolerance;
  MINIMUM_FREE_DISK := 0;
  VERBOSE_OUTPUT := false
|}.

(** A client that sends [n] bytes, all of them, for every download. *)
Definition serving_client (n : Z) : zoom_client := {|
  paginate := fun _ => [];
  get := fun _ => Failure "unused";
  access_token := "token";
  stream := fun _ => Complete n
|}.

(** A recording file of the given id, type and size, with the extension MP4. *)
Definition recording (file_id type : string) (size : Z) : RecordingFile := {|
  id := file_id;
  file_type := type;
  file_extension := Some "MP4";
  file_name := None;
  file_size := Some size;
  download_url := "https://zoom.us/rec/" +:+ file_id;
  recording_start := "2024-03-01T10:00:00Z";
  recording_type := None
|}.

Definition meeting_of (topic : string) (files : list RecordingFile) : Meeting := {|
  topic := topic;
  recording_files := files;
  participant_audio_files := []
|}.

(** The paths of a file system with what is there, in order. *)
Definition listing (w : World) : list (string * node) := map_to_list (fs w).


(** Python's [a > b] on floats. *)
Definition float_gt (a b : PrimFloat.float) : bool := PrimFloat.ltb b a.

Definition newline : string := String (ascii_of_nat 10) EmptyString.

(** The two lines of a silence-detection log that report one silence from
    1.0 to 4.5, as the tool writes them. *)
Definition silence_log : list string :=
  [ "[silencedetect @ 0x55d0c8e4a2c0] silence_start: 1.0" +:+ newline;
    "[silencedetect @ 0x55d0c8e4a2c0] silence_end: 4.5 | silence_duration: 3.5" +:+ newline ].


(** The files of one meeting in topic-name mode: every file of the meeting
    Standup with the extension MP4 gets the name Standup.mp4.  [standups n]
    is the meeting with [n] such files of 100 bytes each. *)
Definition standups (n : nat) : Meeting :=
  meeting_of "Standup"
    (map (fun k => recording ("file" +:+ Py.str_nat k) "MP4" 100) (seq 1 n)).

(** The run of [download_recordings_from_meetings] on that meeting from an
    empty output folder, with every transfer complete and of 100 bytes. *)
Definition standup_run (CONFIG : Config) (n : nat) : result Counts * World :=
  download_recordings_from_meetings CONFIG (serving_client 100) slugify 4096
    [standups n] "out" empty_world.

(** Grouping by topic, no filter. *)
Definition by_topic_config : Config := config [] [] true false 0 0.

End Models.

(** ** More of the script

    The rest of [main], the progress estimate of [get_meeting_uuids], and
    [process_videos] with the files it writes and removes. *)

(** The date settings of the configuration.  [START_DAY] and [END_DAY] may be
    unset ([None]) or [0]; both count as false in [CONFIG.START_DAY or 1]. *)
Record DateSettings := {
  USE_EXACT_DATE : bool;
  START_YEAR : Z;
  START_MONTH : Z;
  START_DAY : option Z;
  END_YEAR : Z;
  END_MONTH : Z;
  END_DAY : option Z
}.

Section MainDates.
Local Open Scope Z_scope.

(** [datetime.datetime(year, month, day)]: the date at midnight, or the
    [ValueError] of the constructor for a year outside 1..9999, a month
    outside 1..12 or a day the month does not have. *)
Definition datetime (year month day : Z) : result Dates.date :=
  if (1 <=? year) && (year <=? 9999) && (1 <=? month) && (month <=? 12)
     && (1 <=? day) && (day <=? Dates.days_in_month year month)
  then Ok (Dates.ymd2ord year month day)
  else Raise (ValueError "date out of range").

(** [calendar.monthrange(year, month)[1]]: the number of days of the month,
    or the error of a month outside 1..12. *)
Definition monthrange_days (year month : Z) : result Z :=
  if (1 <=? month) && (month <=? 12) then Ok (Dates.days_in_month year month)
  else Raise (ValueError "bad month number").

(** [x or default] for a day number. *)
Definition day_or (day : option Z) (default : Z) : Z :=
  match day with
  | Some d => if d =? 0 then default else d
  | None => default
  end.

(** Lines 54-65 of [main]: the range asked for, before the Friday rule.
    [year], [month] and [day] are the three numbers read from the console in
    the exact date mode. *)
Definition requested_range (D : DateSettings) (year month day : Z)
  : result (Dates.date * Dates.date) :=
  if USE_EXACT_DATE D then
    match datetime year month day with
    | Ok from_date => Ok (from_date, from_date)
    | Raise e => Raise e
    end
  else
    match datetime (START_YEAR D) (START_MONTH D) (day_or (START_DAY D) 1) with
    | Raise e => Raise e
    | Ok from_date =>
        match (match END_DAY D with
               | Some d => if d =? 0 then monthrange_days (END_YEAR D) (END_MONTH D)
                           else Ok d
               | None => monthrange_days (END_YEAR D) (END_MONTH D)
               end) with
        | Raise e => Raise e
        | Ok end_day =>
            match datetime (END_YEAR D) (END_MONTH D) end_day with
            | Ok to_date => Ok (from_date, to_date)
            | Raise e => Raise e
            end
        end
    end.

(** Lines 54-69 of [main]: the range handed to [download_recordings]. *)
Definition main_range (CONFIG : Config) (D : DateSettings) (year month day : Z)
  : result (Dates.date * Dates.date) :=
  match requested_range D year month day with
  | Ok (from_date, to_date) =>
      match Dates.main_to_date CONFIG from_date to_date with
      | Some to_date => Ok (from_date, to_date)
      | None => Raise OverflowError
      end
  | Raise e => Raise e
  end.

(** The month after [month] of [year]. *)
Definition next_month (year month : Z) : Z * Z :=
  if month =? 12 then (year + 1, 1) else (year, month + 1).

(** Line 180 of [get_meeting_uuids], the total of the progress bar:
    [math.ceil((end_date - start_date) / datetime.timedelta(days=30))].  The
    quotient of two whole numbers of days by true division is rounded up; the
    rounding of the float quotient cannot reach the next integer for the
    dates of [datetime]. *)
Definition estimated_iterations (start_date end_date : Dates.date) : Z :=
  - ((- (end_date - start_date)) / 30).

End MainDates.


(** A day setting that is left out: [None] or [0]. *)
Definition unset (day : option Z) : Prop := day = None \/ day = Some 0%Z.

(** The settings of a range of whole months, from the first to the second:
    no exact date, no day given. *)
Definition month_settings (start_year start_month end_year end_month : Z) : DateSettings := {|
  USE_EXACT_DATE := false;
  START_YEAR := start_year;
  START_MONTH := start_month;
  START_DAY := None;
  END_YEAR := end_year;
  END_MONTH := end_month;
  END_DAY := Some 0%Z
|}.


(** The bytes a run waited disk space for: the sum of the sizes of its
    [Waited] events. *)
Fixpoint waited_total (events : list event) : Z :=
  match events with
  | [] => 0%Z
  | Waited n :: rest => (n + waited_total rest)%Z
  | _ :: rest => waited_total rest
  end.

(** What one call of the downloader for a file of [size] bytes adds to the
    events, by its answer. *)
Definition settled (r : result bool) (size : Z) (events : list event) : Prop :=
  match r with
  | Ok true =>
      count is_transfer events = 1%Z /\ count is_rename events = 1%Z
      /\ count is_skip events = 0%Z /\ waited_total events = size
  | Ok false =>
      count is_transfer events = 0%Z /\ count is_rename events = 0%Z
      /\ count is_skip events = 1%Z /\ waited_total events = 0%Z
  | Raise _ => True
  end.

(** The totals account for the events between two states: every transfer
    started was renamed into place and counted, with its size, and every
    declined file was counted as skipped. *)
Definition accounted (c : Counts) (w : World) (c' : Counts) (w' : World) : Prop :=
  exists events items,
    out w' = out w ++ events
    /\ SKIPPED_MEETINGS w' = SKIPPED_MEETINGS w ++ items
    /\ file_count_of c' = (file_count_of c + count is_rename events)%Z
    /\ count is_transfer events = count is_rename events
    /\ skipped_count_of c' = (skipped_count_of c + count is_skip events)%Z
    /\ total_size_of c' = (total_size_of c + waited_total events)%Z.


(** A client with one meeting, Standup, of two files of 100 bytes, listed in
    every window and sent complete. *)
Definition standup_client : zoom_client := {|
  paginate := fun _ => [[("uuid1", Some "Standup")]];
  get := fun _ => Json (Models.standups 2);
  access_token := "token";
  stream := fun _ => Complete 100
|}.

(** The file system [f'] keeps whatever [f] holds and has no file that [f]
    does not have: it differs from [f] by new directories at most. *)
Definition grows (f f' : gmap string node) : Prop :=
  (forall p x, f !! p = Some x -> f' !! p = Some x)
  /\ (forall p n, f' !! p = Some (File n) -> f !! p = Some (File n)).

(** What [os.makedirs(name, exist_ok=True)] leaves behind when it returns:
    a directory at [name], and something where the part of [name] before its
    last component points. *)
Definition made (name : string) (f : gmap string node) : Prop :=
  Os.node_at f name = Some Dir
  /\ (fst (Py.path_split (Os.entry_path name)) <> "" ->
      snd (Py.path_split (Os.entry_path name)) <> "" ->
      is_Some (Os.node_at f (fst (Py.path_split (Os.entry_path name))))).

(** The errors of [os.makedirs] in a file system [f]: those of a call of
    [os.mkdir] that finds a file at its path, a file where the parent of its
    path should be, or nothing there. *)
Definition mkdir_error (e : exn) (f : gmap string node) : Prop :=
  exists path,
    (e = FileExistsError path /\ exists k, Os.node_at f path = Some (File k))
    \/ (e = NotADirectoryError path
        /\ exists k, Os.node_at f (fst (Py.path_split (Os.entry_path path))) = Some (File k))
    \/ e = FileNotFoundError path.

(** The paths a call of the downloader may write or remove: the resolved
    destination and its temporary sibling, when a destination is resolved. *)
Definition touched (destination : result (option (string * string))) : list string :=
  match destination with
  | Ok (Some (_, file_path)) => [file_path; file_path +:+ ".tmp"]
  | _ => []
  end.

(** A name is safe when it has none of the characters that line 270 removes;
    in particular it has no path separator. *)
Definition safe (s : string) : Prop :=
  forall c, In c (String.list_ascii_of_string s) -> Py.unsafe_char c = false.

(** The folder of [create_path] (lines 316-321). *)
Definition destination_folder (CONFIG : Config) (host_folder topic recording_name : string)
  : string :=
  let folder_path := host_folder in
  let folder_path :=
    if GROUP_BY_TOPIC CONFIG then Py.path_join folder_path topic else folder_path in
  if GROUP_BY_RECORDING CONFIG then Py.path_join folder_path recording_name
  else folder_path.



(** A recording file that has a size but neither an extension nor a name. *)
Definition nameless_recording : RecordingFile := {|
  id := "file0";
  file_type := "MP4";
  file_extension := None;
  file_name := None;
  file_size := Some 100%Z;
  download_url := "https://zoom.us/rec/file0";
  recording_start := "2024-03-01T10:00:00Z";
  recording_type := None
|}.


(** The lines the parser of [process_videos] acts on: a line with the tag of
    the silence detector and the start marker, or with the tag and the end
    marker and no start marker (line 369 is an [elif]). *)
Definition tagged (line : string) : bool := Py.contains "[silencedetect @" line.

Definition is_start_marker (line : string) : bool :=
  tagged line && Py.contains "silence_start" line.

Definition is_end_marker (line : string) : bool :=
  tagged line && negb (Py.contains "silence_start" line) && Py.contains "silence_end" line.

(** A marker line is readable when its number can be read: the text after
    the first colon (up to a bar, for an end) is a number for [float]. *)
Definition readable {F : Type} (float : string -> option F) (line : string) : Prop :=
  (is_start_marker line = true -> exists v, start_line float line v)
  /\ (is_end_marker line = true -> exists v, end_line float line v).

(** ** The silence detection of [process_videos] (lines 326-391) *)

(** The two values of the configuration that line 345 formats into the
    command: each is the text the f-string gives for it. *)
Record SilenceSettings := {
  NOISE : string;
  DURATION : string
}.

(** [s.endswith(suffix)] *)
Fixpoint endswith (suffix s : string) : bool :=
  String.eqb suffix s
  || match s with
     | EmptyString => false
     | String _ s' => endswith suffix s'
     end.

(** The test of line 335, on the file name in lower case. *)
Definition is_video (filename : string) : bool :=
  existsb (fun extension => endswith extension (Py.lower filename))
    [".mp4"; ".avi"; ".mkv"; ".flv"; ".mov"].

(** [s] without the prefix [p], when it starts with it. *)
Fixpoint remove_prefix (p s : string) : option string :=
  match p, s with
  | EmptyString, _ => Some s
  | String a p', String b s' => if Ascii.eqb a b then remove_prefix p' s' else None
  | String _ _, EmptyString => None
  end.

(** The name under which [path] is an entry of [folder]: what follows the
    folder and its separator, when that is a name with no separator. *)
Definition entry_of (folder path : string) : option string :=
  match remove_prefix (Py.path_join folder "") path with
  | Some name =>
      if String.eqb name "" || Py.contains "/" name then None else Some name
  | None => None
  end.

Definition listing (folder : string) (files : gmap string node) : list string :=
  omap (entry_of folder) (map fst (map_to_list files)).

(** [os.listdir(folder)]: the names of the entries of a directory, in the
    order of the file system; raises on anything else. *)
Definition listdir (folder : string) : M (list string) :=
  fun w => match fs w !! folder with
           | Some Dir => (Ok (listing folder (fs w)), w)
           | _ => (Raise (OSError folder), w)
           end.

(** The lines of a text file opened for reading (line 365), as the iteration
    of line 366 gives them: a line ends after a line feed, a carriage return
    or the two in a row, each given as one line feed; the text after the last
    of them is a line when it is not empty. *)
Fixpoint file_lines_from (line : string) (after_return : bool) (text : string)
  : list string :=
  match text with
  | EmptyString => if String.eqb line "" then [] else [line]
  | String c rest =>
      if Ascii.eqb c (ascii_of_nat 10) then
        if after_return then file_lines_from "" false rest
        else (line +:+ String (ascii_of_nat 10) "") :: file_lines_from "" false rest
      else if Ascii.eqb c (ascii_of_nat 13) then
        (line +:+ String (ascii_of_nat 10) "") :: file_lines_from "" true rest
      else file_lines_from (line +:+ String c "") false rest
  end.

Definition file_lines (text : string) : list string := file_lines_from "" false text.

Section Videos.
Context {F : Type}.
Variable CONFIG : Config.
Variable SETTINGS : SilenceSettings.
Variables (float : string -> option F) (gt : F -> F -> bool).
(** [subprocess.check_output(command, shell=True).decode("utf-8")]: the
    output of the command, with the seconds the clock of lines 348 and 351
    measures around it; raises when the command fails or its output does not
    decode. *)
Variable check_output : string -> result (string * F).
(** The seconds of the total: the [0] of line 328, [+=] and the text an
    f-string gives. *)
Variables (zero : F) (add : F -> F -> F) (str : F -> string).
(** The number of bytes [json.dump] of line 384 writes for a file name and
    its cut segments. *)
Variable llc_size : string -> list (CutSegment F) -> Z.

Definition input_file (filename : string) : string :=
  Py.path_join (OUTPUT_PATH CONFIG) filename.

Definition output_file (filename : string) : string :=
  Py.path_join (OUTPUT_PATH CONFIG) (fst (Py.splitext filename) +:+ "-proj.llc").

Definition log_file (filename : string) : string :=
  Py.path_join (OUTPUT_PATH CONFIG) (fst (Py.splitext filename) +:+ ".txt").

Definition command (filename : string) : string :=
  let quote := String (ascii_of_nat 34) "" in
  "ffmpeg -hide_banner -vn -i " +:+ quote +:+ input_file filename +:+ quote
  +:+ " -af silencedetect=noise=" +:+ NOISE SETTINGS +:+ "dB:d=" +:+ DURATION SETTINGS
  +:+ " -f null - 2>&1".

(** The body of the loop of line 334 for one entry of the folder. *)
Definition process_video (filename : string) (total_time_spent : F) : M F :=
  if is_video filename then
    Os.print ("Processing " +:+ filename +:+ "...");;
    run ← lift (check_output (command filename));
    let output := fst run in
    let time_spent := snd run in
    let total_time_spent := add total_time_spent time_spent in
    Os.print ("Time spent on silent audio detection: " +:+ str time_spent +:+ " seconds");;
    Os.write_file (log_file filename) (Z.of_nat (String.length output));;
    cut_segments ← lift (cut_segments_of float gt (file_lines output));
    Os.write_file (output_file filename) (llc_size filename cut_segments);;
    Os.remove (log_file filename);;
    Os.print ("Finished processing " +:+ filename +:+ ".");;
    ret total_time_spent
  else ret total_time_spent.

Definition process_videos : M unit :=
  let input_output_folder := OUTPUT_PATH CONFIG in
  Os.print ("Processing videos in " +:+ input_output_folder +:+ "...");;
  filenames ← listdir input_output_folder;
  total_time_spent ← for_each process_video filenames zero;
  Os.print ("Finished processing videos in " +:+ input_output_folder +:+ ".");;
  Os.print ("Total time spent on processing videos: " +:+ str total_time_spent
            +:+ " seconds").

End Videos.

(** The last character of a text. *)
Fixpoint last_char (s : string) : option ascii :=
  match s with
  | EmptyString => None
  | String c EmptyString => Some c
  | String _ s' => last_char s'
  end.

(** A run of the silence detection: the output folder holds the video
    Standup.mp4, a text file of the same name, and the same video once more
    in the folder of its topic; the detector is run with a noise level of
    -30 dB and a duration of half a second, takes 2.5 seconds on every video
    and writes [output]. *)
Definition detector_settings : SilenceSettings := {| NOISE := "-30"; DURATION := "0.5" |}.

Definition video_world : World := {|
  fs := {[ "out" := Dir;
           "out/Standup.mp4" := File 100;
           "out/Standup.txt" := File 7;
           "out/Standup" := Dir;
           "out/Standup/Standup.mp4" := File 100 ]};
  out := [];
  SKIPPED_MEETINGS := []
|}.

Definition detector (output : string) (command : string)
  : result (string * PrimFloat.float) :=
  Ok (output, 2.5%float).

Definition detection_run (output : string) : result unit * World :=
  process_videos Models.plain_config detector_settings Models.float_of_decimal
    Models.float_gt (detector output) 0%float PrimFloat.add (fun _ => "2.5")
    (fun _ cut_segments => (64 + 48 * Z.of_nat (length cut_segments))%Z) video_world.

(** The output of the detector for one silence, and one cut short after the
    start marker. *)
Definition silence_output : string := String.concat "" Models.silence_log.

Definition cut_short_output : string := "[silencedetect @ 0x55d0c8e4a2c0] silence_start".

(** * Properties *)

(** ** The windows of [get_meeting_uuids] and the end date of [main] *)

Section DatesFacts.
Import Dates.
Local Open Scope Z_scope.

Lemma scan_windows_unfold (s e : date) :
  scan_windows s e =
  if decide (s <= e)
  then
    if in_range (s + delta) then
      if in_range (Z.min (s + delta) e + 1) then
        option_map (cons (s, Z.min (s + delta) e)) (scan_windows (Z.min (s + delta) e + 1) e)
      else None
    else None
  else Some [].
Proof.
  rewrite scan_windows_equation_1. simpl.
  destruct (Z_le_dec s e); destruct (decide (s <= e)); try lia; reflexivity.
Qed.

Lemma scan_windows_empty (s e : date) : e < s -> scan_windows s e = Some [].
Proof.
  intros H. rewrite scan_windows_unfold. destruct (decide (s <= e)); [lia | reflexivity].
Qed.

(** Induction on the number of days left, the measure of the loop. *)
Lemma scan_windows_ind (P : date -> date -> Prop) :
  (forall s e, e < s -> P s e) ->
  (forall s e, s <= e -> P (Z.min (s + delta) e + 1) e -> P s e) ->
  forall s e, P s e.
Proof.
  intros Hstop Hstep s e.
  remember (Z.to_nat (e - s + 1)) as n eqn:Hn.
  revert s Hn. induction (lt_wf n) as [n _ IH]. intros s Hn.
  destruct (Z_le_dec s e) as [Hle | Hgt]; [| apply Hstop; lia].
  apply Hstep; [exact Hle |].
  eapply IH; [| reflexivity]. unfold delta. lia.
Qed.

(** One turn of the loop that ends: its window, and the rest of the loop. *)
Lemma scan_windows_step (s e : date) ws :
  s <= e -> scan_windows s e = Some ws ->
  exists rest,
    ws = (s, Z.min (s + delta) e) :: rest
    /\ scan_windows (Z.min (s + delta) e + 1) e = Some rest.
Proof.
  intros Hle. rewrite scan_windows_unfold. destruct (decide (s <= e)); [| lia].
  destruct (in_range (s + delta)); [| discriminate].
  destruct (in_range (Z.min (s + delta) e + 1)); [| discriminate].
  destruct (scan_windows (Z.min (s + delta) e + 1) e) as [rest |]; [| discriminate].
  intros [= <-]. exists rest. split; reflexivity.
Qed.

Lemma scan_windows_done (s e : date) ws : e < s -> scan_windows s e = Some ws -> ws = [].
Proof. intros H. rewrite scan_windows_empty by exact H. intros [= <-]. reflexivity. Qed.

Lemma scan_windows_bounds (s e : date) ws w :
  scan_windows s e = Some ws ->
  In w ws -> s <= fst w /\ fst w <= snd w /\ snd w <= e /\ window_days w <= 30.
Proof.
  revert ws w. pattern s, e. apply scan_windows_ind; clear s e.
  - intros s e H ws w Hws. rewrite (scan_windows_done _ _ _ H Hws). intros [].
  - intros s e Hle IH ws w Hws.
    destruct (scan_windows_step _ _ _ Hle Hws) as (rest & -> & Hrest).
    intros [<- | Hin].
    + unfold window_days, delta. simpl. lia.
    + specialize (IH rest w Hrest Hin). unfold delta in *. lia.
Qed.

Lemma scan_windows_head (s e : date) ws :
  s <= e -> scan_windows s e = Some ws -> exists w rest, ws = w :: rest /\ fst w = s.
Proof.
  intros Hle Hws. destruct (scan_windows_step _ _ _ Hle Hws) as (rest & -> & _).
  eexists _, _. split; reflexivity.
Qed.

Lemma scan_windows_consecutive (s e : date) ws :
  scan_windows s e = Some ws -> consecutive ws.
Proof.
  revert ws. pattern s, e. apply scan_windows_ind; clear s e.
  - intros s e H ws Hws. rewrite (scan_windows_done _ _ _ H Hws). exact I.
  - intros s e Hle IH ws Hws.
    destruct (scan_windows_step _ _ _ Hle Hws) as (rest & -> & Hrest).
    set (e' := Z.min (s + delta) e) in *.
    destruct (Z_le_dec (e' + 1) e) as [Hmore | Hdone].
    + destruct (scan_windows_head (e' + 1) e rest Hmore Hrest) as (w & rest' & -> & Hw).
      simpl. split; [exact Hw | exact (IH _ Hrest)].
    + assert (Hlt : e < e' + 1) by lia.
      rewrite (scan_windows_done _ _ _ Hlt Hrest). exact I.
Qed.

Lemma scan_windows_holding (s e d : date) ws :
  scan_windows s e = Some ws ->
  windows_holding d ws = if decide (s <= d <= e) then 1%nat else 0%nat.
Proof.
  revert ws. pattern s, e. apply scan_windows_ind; clear s e.
  - intros s e H ws Hws. rewrite (scan_windows_done _ _ _ H Hws).
    destruct (decide (s <= d <= e)); [lia | reflexivity].
  - intros s e Hle IH ws Hws.
    destruct (scan_windows_step _ _ _ Hle Hws) as (rest & -> & Hrest).
    set (e' := Z.min (s + delta) e) in *.
    specialize (IH rest Hrest).
    unfold windows_holding in *. simpl. unfold in_window at 1. simpl.
    assert (He' : s <= e' <= e) by (unfold e', delta; lia).
    destruct (Z.leb_spec s d), (Z.leb_spec d e'); simpl; rewrite IH;
      destruct (decide (e' + 1 <= d <= e)), (decide (s <= d <= e)); try lia; reflexivity.
Qed.

Lemma scan_windows_length (s e : date) ws :
  scan_windows s e = Some ws -> 30 < e - s + 1 -> (1 < length ws)%nat.
Proof.
  intros Hws H.
  assert (Hle : s <= e) by lia.
  destruct (scan_windows_step _ _ _ Hle Hws) as (rest & -> & Hrest).
  assert (Hmore : Z.min (s + delta) e + 1 <= e) by (unfold delta; lia).
  destruct (scan_windows_head _ _ _ Hmore Hrest) as (w & rest' & -> & _).
  simpl. lia.
Qed.

(** The loop ends without an overflow when the range lies in the days of
    [datetime] and ends 29 days or more before the last of them, that is on
    9999-12-02 at the latest. *)
Lemma scan_windows_returns (s e : date) :
  1 <= s -> e + delta <= max_ordinal -> exists ws, scan_windows s e = Some ws.
Proof.
  pattern s, e. apply scan_windows_ind; clear s e.
  - intros s e H _ _. exists []. apply scan_windows_empty, H.
  - intros s e Hle IH Hs He. rewrite scan_windows_unfold.
    destruct (decide (s <= e)); [| lia].
    assert (H1 : in_range (s + delta) = true).
    { unfold in_range, delta in *. apply andb_true_iff. split; apply Z.leb_le; lia. }
    assert (H2 : in_range (Z.min (s + delta) e + 1) = true).
    { unfold in_range, delta in *. apply andb_true_iff. split; apply Z.leb_le; lia. }
    rewrite H1, H2. destruct IH as [rest ->]; [unfold delta; lia | exact He |].
    eexists. reflexivity.
Qed.

(** A range that reaches the last day of [datetime] makes the loop raise:
    the sum of line 183 or, for the window that ends on that day, the sum of
    line 195 is out of range. *)
Lemma scan_windows_overflow (s e : date) :
  s <= e -> max_ordinal <= e -> scan_windows s e = None.
Proof.
  pattern s, e. apply scan_windows_ind; clear s e.
  - intros s e H Hle He. lia.
  - intros s e _ IH Hle He. rewrite scan_windows_unfold.
    destruct (decide (s <= e)); [| lia].
    destruct (in_range (s + delta)); [| reflexivity].
    destruct (in_range (Z.min (s + delta) e + 1)) eqn:Hnext; [| reflexivity].
    rewrite IH; [reflexivity | | exact He].
    unfold in_range in Hnext. apply andb_true_iff in Hnext. destruct Hnext as [_ Hnext].
    apply Z.leb_le in Hnext. lia.
Qed.

(** [get_meeting_uuids] prints its heading and then returns the chunks of
    the windows, or raises when the loop does. *)
Lemma get_meeting_uuids_run client user_email (s e : date) w :
  get_meeting_uuids client user_email s e w
  = (match scan_windows s e with
     | Some ws => Ok (concat (map (window_chunk client user_email) ws))
     | None => Raise OverflowError
     end, logged [Printed "Scanning for recorded meetings:"] w).
Proof.
  unfold get_meeting_uuids. destruct (scan_windows s e); reflexivity.
Qed.

(** The first day of a year that [date_to_str] writes with four digits
    without any zero in front. *)
Lemma year_1000 : ymd2ord 1000 1 1 = 364878.
Proof. reflexivity. Qed.

(** C2.  For every date range [[from_date, to_date]] with
    [from_date <= to_date] that starts on 1000-01-01 at the earliest and
    ends on 9999-12-02 at the latest, the
    enumerator queries the recordings listing of the user once for each of
    its windows, from the first day of the window to its last, and returns
    the meetings of these listings.  The windows are consecutive (each starts
    the day after the one before it ends), each spans at least one and at
    most 30 days with both ends counted, and every day lies in exactly one
    window when it is in the range and in no window when it is not: the
    windows cover the range with no gap and no overlap.  A range of more than
    30 days is queried in more than one window. *)
Theorem get_meeting_uuids_windows_partition (from_date to_date : date) :
  ymd2ord 1000 1 1 <= from_date -> from_date <= to_date ->
  to_date + 29 <= max_ordinal ->
  exists ws,
    scan_windows from_date to_date = Some ws
    /\ (forall client user_email w,
        let listing (window : date * date) :=
          paginate client
            ("https://api.zoom.us/v2/users/" +:+ user_email +:+ "/recordings?from="
             +:+ date_to_str (fst window) +:+ "&to=" +:+ date_to_str (snd window)) in
        let chunk window :=
          rev (concat (map (map (fun m : string * option string =>
                                   (fst m, default "Unknown Topic" (snd m))))
                           (listing window))) in
        get_meeting_uuids client user_email from_date to_date w
        = (Ok (concat (map chunk ws)), logged [Printed "Scanning for recorded meetings:"] w))
    /\ (exists w rest, ws = w :: rest /\ fst w = from_date)
    /\ consecutive ws
    /\ (forall w, In w ws -> 1 <= window_days w <= 30)
    /\ (forall d, windows_holding d ws = if decide (from_date <= d <= to_date) then 1%nat else 0%nat)
    /\ (30 < to_date - from_date + 1 -> (1 < length ws)%nat).
Proof.
  rewrite year_1000. intros Hfrom Hle Hto.
  assert (Hday : 1 <= from_date) by lia.
  destruct (scan_windows_returns from_date to_date Hday Hto) as [ws Hws].
  exists ws. split; [exact Hws |]. split; [| split; [| split; [| split; [| split]]]].
  - intros client user_email w. cbv zeta. rewrite get_meeting_uuids_run, Hws. reflexivity.
  - exact (scan_windows_head _ _ _ Hle Hws).
  - exact (scan_windows_consecutive _ _ _ Hws).
  - intros w Hin. apply (scan_windows_bounds _ _ _ _ Hws) in Hin.
    unfold window_days in *. lia.
  - intros d. exact (scan_windows_holding _ _ d _ Hws).
  - exact (scan_windows_length _ _ _ Hws).
Qed.

(** A range of 75 days, from 2024-01-01 to 2024-03-15. *)
Lemma get_meeting_uuids_windows_partition_witness :
  let from_date := ymd2ord 2024 1 1 in
  let to_date := ymd2ord 2024 3 15 in
  exists ws,
    (forall w,
        get_meeting_uuids standup_client "ann@example.org" from_date to_date w
        = (Ok [("uuid1", "Standup"); ("uuid1", "Standup"); ("uuid1", "Standup")],
           logged [Printed "Scanning for recorded meetings:"] w))
    /\ map (fun w => (date_to_str (fst w), date_to_str (snd w))) ws
       = [("2024-01-01", "2024-01-30"); ("2024-01-31", "2024-02-29");
          ("2024-03-01", "2024-03-15")]
    /\ consecutive ws
    /\ (forall d, windows_holding d ws = if decide (from_date <= d <= to_date) then 1%nat else 0%nat).
Proof.
  intros from_date to_date.
  destruct (get_meeting_uuids_windows_partition from_date to_date)
    as (ws & Hws & Hrun & _ & Hcons & _ & Hhold & _);
    [vm_compute; discriminate | vm_compute; discriminate | vm_compute; discriminate |].
  exists ws. split; [| split; [| split; [exact Hcons | exact Hhold]]].
  - intros w. rewrite (Hrun standup_client "ann@example.org" w).
    vm_compute in Hws. injection Hws as <-. reflexivity.
  - vm_compute in Hws. injection Hws as <-. vm_compute. reflexivity.
Defined.

End DatesFacts.

Section MainFacts.
Import Dates.
Local Open Scope Z_scope.

(** C7, as the specification states it, fails: 2024-03-01 is a Friday, and
    with the flag enabled the end date 2024-03-31 becomes 2024-04-02, two days
    later, and not 2024-04-01.  With the end date 9999-12-30 no day is added:
    the addition raises. *)
Lemma main_to_date_friday_is_not_one_day :
  let from_date := ymd2ord 2024 3 1 in
  let to_date := ymd2ord 2024 3 31 in
  CHECK_FRIDAY_WEEKENDS Models.plain_config = true
  /\ weekday from_date = 4
  /\ option_map date_to_str (main_to_date Models.plain_config from_date to_date)
     = Some "2024-04-02"
  /\ main_to_date Models.plain_config from_date to_date <> Some (to_date + 1)
  /\ main_to_date Models.plain_config from_date (ymd2ord 9999 12 30) = None.
Proof. vm_compute. repeat split; discriminate. Qed.

(** C7 (amended).  When the flag is enabled and the start date of the range
    falls on a Friday, two days are added to the end date; for every start
    date on another weekday, or with the flag disabled, the end date is
    unchanged.  The two days are added when the new end date is a day of
    [datetime], that is for an end date up to 9999-12-29; for the two days
    after it the addition raises [OverflowError]. *)
Theorem main_to_date_friday_two_days (CONFIG : Config) (from_date to_date : date) :
  (CHECK_FRIDAY_WEEKENDS CONFIG = true /\ weekday from_date = 4 ->
     1 <= to_date -> to_date + 2 <= max_ordinal ->
     main_to_date CONFIG from_date to_date = Some (to_date + 2))
  /\ (CHECK_FRIDAY_WEEKENDS CONFIG = true /\ weekday from_date = 4 ->
     max_ordinal < to_date + 2 ->
     main_to_date CONFIG from_date to_date = None)
  /\ (CHECK_FRIDAY_WEEKENDS CONFIG = false \/ weekday from_date <> 4 ->
     main_to_date CONFIG from_date to_date = Some to_date).
Proof.
  unfold main_to_date, add_days, in_range. split; [| split].
  - intros [-> ->] Hlow Hhigh. simpl.
    rewrite (proj2 (Z.leb_le 1 (to_date + 2))), (proj2 (Z.leb_le (to_date + 2) max_ordinal))
      by lia.
    reflexivity.
  - intros [-> ->] Hhigh. simpl.
    rewrite (proj2 (Z.leb_gt (to_date + 2) max_ordinal)) by lia.
    rewrite andb_false_r. reflexivity.
  - intros [-> | Hday]; [reflexivity |].
    destruct (Z.eqb_spec (weekday from_date) 4) as [Heq | _]; [contradiction |].
    rewrite andb_false_r. reflexivity.
Qed.

(** A range that starts on Friday 2024-03-01 and ends on 2024-03-31, or on
    9999-12-30, and one that starts on Monday 2024-03-04. *)
Lemma main_to_date_friday_two_days_witness :
  main_to_date Models.plain_config (ymd2ord 2024 3 1) (ymd2ord 2024 3 31)
  = Some (ymd2ord 2024 4 2)
  /\ main_to_date Models.plain_config (ymd2ord 2024 3 1) (ymd2ord 9999 12 30) = None
  /\ main_to_date Models.plain_config (ymd2ord 2024 3 4) (ymd2ord 2024 3 31)
     = Some (ymd2ord 2024 3 31).
Proof.
  assert (Hlow : 1 <= ymd2ord 2024 3 31) by (vm_compute; discriminate).
  assert (Hhigh : ymd2ord 2024 3 31 + 2 <= max_ordinal) by (vm_compute; discriminate).
  assert (Hover : max_ordinal < ymd2ord 9999 12 30 + 2) by reflexivity.
  assert (Hmonday : CHECK_FRIDAY_WEEKENDS Models.plain_config = false
                    \/ weekday (ymd2ord 2024 3 4) <> 4)
    by (right; vm_compute; discriminate).
  split; [| split].
  - exact (proj1 (main_to_date_friday_two_days Models.plain_config
                    (ymd2ord 2024 3 1) (ymd2ord 2024 3 31))
             (conj eq_refl eq_refl) Hlow Hhigh).
  - exact (proj1 (proj2 (main_to_date_friday_two_days Models.plain_config
                           (ymd2ord 2024 3 1) (ymd2ord 9999 12 30)))
             (conj eq_refl eq_refl) Hover).
  - exact (proj2 (proj2 (main_to_date_friday_two_days Models.plain_config
                           (ymd2ord 2024 3 4) (ymd2ord 2024 3 31)))
             Hmonday).
Defined.

End MainFacts.

(** ** The meeting fetcher *)

Section FetcherFacts.
Variable client : zoom_client.
Variable double_encode : string -> string.

Local Abbreviation body := (get_meetings_body client double_encode).
Local Abbreviation outcome := (outcome_of client double_encode).

Lemma for_each_cons {A B} (f : A -> B -> M B) x l acc w :
  for_each f (x :: l) acc w =
  match f x acc w with
  | (Ok acc', w') => for_each f l acc' w'
  | (Raise e, w') => (Raise e, w')
  end.
Proof. reflexivity. Qed.

(** One turn of the loop, by the outcome of the reference. *)
Lemma get_meetings_body_outcome ref meetings w :
  body ref meetings w =
  match outcome ref with
  | Fetched m => (Ok (meetings ++ [m]), w)
  | Reported item => (Ok meetings, report [item] w)
  | Fatal e => (Raise (Exception e), w)
  end.
Proof.
  destruct ref as [uuid topic]. unfold get_meetings_body, outcome_of. simpl.
  destruct (get client _) as [m | e]; [reflexivity |].
  destruct (Py.contains "3301" e); [reflexivity |].
  destruct (Py.contains "404" e); reflexivity.
Qed.

Lemma report_nil w : report [] w = w.
Proof. destruct w. unfold report. simpl. rewrite app_nil_r. reflexivity. Qed.

Lemma report_app items1 items2 w : report items2 (report items1 w) = report (items1 ++ items2) w.
Proof. unfold report. simpl. rewrite app_assoc. reflexivity. Qed.

(** The whole loop, from any list of meetings collected so far. *)
Lemma get_meetings_loop meeting_data meetings w :
  for_each body meeting_data meetings w =
  let '(before, fatal) := until_fatal (map outcome meeting_data) in
  (match fatal with
   | None => Ok (meetings ++ fetched before)
   | Some e => Raise (Exception e)
   end, report (reported before) w).
Proof.
  revert meetings w. induction meeting_data as [| ref rest IH]; intros meetings w.
  - simpl. rewrite app_nil_r, report_nil. reflexivity.
  - rewrite for_each_cons, get_meetings_body_outcome. simpl map. simpl until_fatal.
    destruct (outcome ref) as [m | item | e].
    + rewrite IH. destruct (until_fatal _) as [before fatal]. simpl.
      rewrite <- app_assoc. reflexivity.
    + rewrite IH. destruct (until_fatal _) as [before fatal]. simpl.
      rewrite report_app. reflexivity.
    + simpl. rewrite report_nil. reflexivity.
Qed.

(** [get_meetings] prints its heading, when there is a reference to fetch,
    and runs the loop. *)
Lemma get_meetings_run meeting_data w :
  get_meetings client double_encode meeting_data w =
  for_each body meeting_data []
    (match meeting_data with
     | [] => w
     | _ :: _ => logged [Printed "Scanning for recordings:"] w
     end).
Proof. destruct meeting_data; reflexivity. Qed.

(** C4 (amended).  Fetching the full record of a meeting reference has three
    outcomes: on success the record is appended to the output; on an error
    whose text contains 3301 the meeting is appended to the skipped-meetings
    report as Still Processing; on an error whose text contains 404 and not
    3301 it is appended as Not Found / 404; in both cases the enumeration
    goes on with the next reference.  Any other error is raised again and
    ends the enumeration: the records collected so far are lost, the report
    entries made so far stay.  The enumeration prints its heading first,
    when there is a reference to fetch. *)
Theorem get_meetings_three_outcomes (meeting_data : list (string * string)) (w : World) :
  (forall ref,
      match get client (meeting_url double_encode (fst ref)) with
      | Json meeting => outcome ref = Fetched meeting
      | Failure e =>
          (Py.contains "3301" e = true ->
             outcome ref = Reported ("Meeting: '" +:+ snd ref +:+ "' (Still Processing)"))
          /\ (Py.contains "3301" e = false -> Py.contains "404" e = true ->
             outcome ref = Reported ("Meeting: '" +:+ snd ref +:+ "' (Not Found / 404)"))
          /\ (Py.contains "3301" e = false -> Py.contains "404" e = false ->
             outcome ref = Fatal e)
      end)
  /\ get_meetings client double_encode meeting_data w =
     let '(before, fatal) := until_fatal (map outcome meeting_data) in
     (match fatal with
      | None => Ok (fetched before)
      | Some e => Raise (Exception e)
      end,
      report (reported before)
        (match meeting_data with
         | [] => w
         | _ :: _ => logged [Printed "Scanning for recordings:"] w
         end)).
Proof.
  split.
  - intros ref. unfold outcome_of, still_processing, not_found.
    destruct (get client _) as [m | e]; [reflexivity |].
    repeat split; intros; repeat match goal with H : _ = _ |- _ => rewrite H end; reflexivity.
  - rewrite get_meetings_run, get_meetings_loop. reflexivity.
Qed.

End FetcherFacts.

(** C4, as the specification states it, fails: an error text can contain
    both 404 and 3301, and the meeting is then reported as Still Processing
    and not as Not Found. *)
Lemma get_meetings_404_with_3301 :
  let text := "404 {code: 3301}" in
  Py.contains "404" text = true
  /\ get_meetings (Models.failing_client text) Models.double_encode
       [("uuid1", "Standup")] Models.empty_world
     = (Ok [],
        report ["Meeting: 'Standup' (Still Processing)"]
          (logged [Printed "Scanning for recordings:"] Models.empty_world))
  /\ SKIPPED_MEETINGS
       (snd (get_meetings (Models.failing_client text) Models.double_encode
               [("uuid1", "Standup")] Models.empty_world))
     <> ["Meeting: 'Standup' (Not Found / 404)"].
Proof. vm_compute. repeat split; discriminate. Qed.

(** ** Strings and the probing loop *)

Section StringFacts.

Lemma list_ascii_of_string_app (a b : string) :
  String.list_ascii_of_string (a +:+ b)
  = String.list_ascii_of_string a ++ String.list_ascii_of_string b.
Proof. induction a as [| c a IH]; simpl; [reflexivity | rewrite IH; reflexivity]. Qed.

Lemma list_ascii_of_string_inj (a b : string) :
  String.list_ascii_of_string a = String.list_ascii_of_string b -> a = b.
Proof.
  intros H.
  rewrite <- (String.string_of_list_ascii_of_string a),
          <- (String.string_of_list_ascii_of_string b), H.
  reflexivity.
Qed.

Lemma string_app_inv_tail (a b e : string) : a +:+ e = b +:+ e -> a = b.
Proof.
  intros H. apply list_ascii_of_string_inj.
  apply (f_equal String.list_ascii_of_string) in H.
  rewrite !list_ascii_of_string_app in H.
  exact (app_inv_tail _ _ _ H).
Qed.

Lemma string_app_inv_head (p a b : string) : p +:+ a = p +:+ b -> a = b.
Proof. induction p as [| c p IH]; simpl; [tauto | intros [= H]; auto]. Qed.

Lemma string_length_app (a b : string) :
  String.length (a +:+ b) = (String.length a + String.length b)%nat.
Proof. induction a as [| c a IH]; simpl; [reflexivity | rewrite IH; reflexivity]. Qed.

(** A path and its temporary sibling are two different paths. *)
Lemma tmp_path_neq (path : string) : path +:+ ".tmp" <> path.
Proof.
  intros H. apply (f_equal String.length) in H.
  rewrite string_length_app in H. simpl in H. lia.
Qed.

Lemma suffixed_inj (base_name ext : string) (i j : nat) :
  suffixed base_name i ext = suffixed base_name j ext -> i = j.
Proof.
  unfold suffixed, Py.str_nat. intros H.
  apply string_app_inv_head in H. apply (string_app_inv_head "_") in H.
  apply string_app_inv_tail in H.
  exact (pretty_nat_inj _ _ H).
Qed.

Lemma prefix_sep_cons (c : ascii) (s : string) :
  String.prefix "/" (String c s) = Ascii.eqb c "/".
Proof.
  destruct (Ascii.eqb_spec c "/") as [-> | Hne].
  - destruct s; reflexivity.
  - destruct (String.prefix "/" (String c s)) eqn:E; [| reflexivity].
    apply String.prefix_correct in E. simpl in E. congruence.
Qed.

Lemma prefix_sep_suffixed (base_name ext : string) (i j : nat) :
  String.prefix "/" (suffixed base_name i ext)
  = String.prefix "/" (suffixed base_name j ext).
Proof.
  unfold suffixed. destruct base_name as [| c b]; [reflexivity |].
  change (String c b +:+ "_" +:+ Py.str_nat i +:+ ext)
    with (String c (b +:+ "_" +:+ Py.str_nat i +:+ ext)).
  change (String c b +:+ "_" +:+ Py.str_nat j +:+ ext)
    with (String c (b +:+ "_" +:+ Py.str_nat j +:+ ext)).
  rewrite !prefix_sep_cons. reflexivity.
Qed.

(** The candidates of the probing loop are pairwise different paths. *)
Lemma candidate_path_inj (host_folder base_name ext : string) (i j : nat) :
  Py.path_join host_folder (suffixed base_name i ext)
  = Py.path_join host_folder (suffixed base_name j ext) -> i = j.
Proof.
  unfold Py.path_join. rewrite (prefix_sep_suffixed base_name ext i j).
  destruct (String.prefix "/" (suffixed base_name j ext)).
  - apply suffixed_inj.
  - destruct (_ || _); intros H.
    + apply string_app_inv_head in H. exact (suffixed_inj _ _ _ _ H).
    + apply string_app_inv_head in H. apply (string_app_inv_head "/") in H.
      exact (suffixed_inj _ _ _ _ H).
Qed.

End StringFacts.

Section ProbeFacts.

(** What the loop has seen when it ends: every index it passed is taken, and
    it stands on a free one unless the tests ran out. *)
Lemma first_free_spec (taken : nat -> bool) (fuel i : nat) :
  let r := first_free taken fuel i in
  (i <= r <= i + fuel)%nat
  /\ (forall j, (i <= j < r)%nat -> taken j = true)
  /\ (taken r = false \/ r = (i + fuel)%nat).
Proof.
  revert i. induction fuel as [| fuel IH]; intros i; simpl.
  - repeat split; lia.
  - destruct (taken i) eqn:Hi.
    + destruct (IH (S i)) as (Hr & Hall & Hend). repeat split; try lia.
      * intros j Hj. destruct (decide (j = i)) as [-> | Hne]; [exact Hi |].
        apply Hall. lia.
      * destruct Hend as [Hfree | Hout]; [left; exact Hfree | right; lia].
    + repeat split; try lia. left. exact Hi.
Qed.

(** No more of the pairwise different paths [key 1 .. key n] can be there
    than the file system has entries. *)
Lemma taken_keys_bound (f : gmap string node) (key : nat -> string) (n : nat) :
  (forall i j, key i = key j -> i = j) ->
  (forall j, (1 <= j < 1 + n)%nat -> is_Some (f !! key j)) ->
  (n <= size f)%nat.
Proof.
  intros Hinj Hall.
  assert (Hsub : (list_to_set (key <$> seq 1 n) : gset string) ⊆ dom f).
  { intros x Hx. apply elem_of_list_to_set, list_elem_of_fmap in Hx.
    destruct Hx as (j & -> & Hj). apply elem_of_seq in Hj.
    apply elem_of_dom, Hall. lia. }
  apply subseteq_size in Hsub.
  rewrite size_dom, size_list_to_set in Hsub.
  - rewrite length_fmap, length_seq in Hsub. exact Hsub.
  - apply NoDup_fmap_2_strong; [| apply NoDup_seq].
    intros i j _ _ H. exact (Hinj _ _ H).
Qed.

(** The probing loop stops by itself: the index it ends on is the first,
    from 1 on, whose candidate path in the host folder is not there. *)
Lemma first_free_stops (f : gmap string node) (host_folder base_name ext : string) :
  let i := first_free (candidate_taken f host_folder base_name ext) (S (size f)) 1 in
  (1 <= i)%nat
  /\ f !! Py.path_join host_folder (suffixed base_name i ext) = None
  /\ (forall j, (1 <= j < i)%nat ->
        is_Some (f !! Py.path_join host_folder (suffixed base_name j ext))).
Proof.
  intros i.
  destruct (first_free_spec (candidate_taken f host_folder base_name ext) (S (size f)) 1)
    as (Hr & Hall & Hend). fold i in Hr, Hall, Hend.
  assert (Hall' : forall j, (1 <= j < i)%nat ->
            is_Some (f !! Py.path_join host_folder (suffixed base_name j ext))).
  { intros j Hj. specialize (Hall j Hj). unfold candidate_taken in Hall.
    apply bool_decide_eq_true in Hall. exact Hall. }
  repeat split; [lia | | exact Hall'].
  destruct Hend as [Hfree | Hout].
  - unfold candidate_taken in Hfree. apply bool_decide_eq_false in Hfree.
    destruct (f !! _) eqn:E; [exfalso; apply Hfree; eauto | reflexivity].
  - exfalso.
    pose proof (taken_keys_bound f
      (fun j => Py.path_join host_folder (suffixed base_name j ext)) (S (size f))
      (candidate_path_inj host_folder base_name ext)) as Hbound.
    assert (S (size f) <= size f)%nat; [| lia].
    apply Hbound. intros j Hj. apply Hall'. lia.
Qed.

End ProbeFacts.

(** ** The downloader *)

Section WorldFacts.

Lemma logged_logged l1 l2 w : logged l2 (logged l1 w) = logged (l1 ++ l2) w.
Proof. unfold logged. simpl. rewrite app_assoc. reflexivity. Qed.

Lemma logged_nil w : logged [] w = w.
Proof. destruct w. unfold logged. simpl. rewrite app_nil_r. reflexivity. Qed.

Lemma with_fs_logged f l w : with_fs f (logged l w) = logged l (with_fs f w).
Proof. reflexivity. Qed.

Lemma with_fs_with_fs f g w : with_fs f (with_fs g w) = with_fs f w.
Proof. reflexivity. Qed.

Lemma with_fs_same w : with_fs (fs w) w = w.
Proof. destruct w. reflexivity. Qed.

Lemma emit_run e w : Os.emit e w = (Ok tt, logged [e] w).
Proof. reflexivity. Qed.

Lemma set_fs_run g w : Os.set_fs g w = (Ok tt, with_fs (g (fs w)) w).
Proof. reflexivity. Qed.

Lemma bind_run {A B} (m : M A) (k : A -> M B) w :
  (m ≫= k) w = match m w with
               | (Ok a, w') => k a w'
               | (Raise e, w') => (Raise e, w')
               end.
Proof. reflexivity. Qed.

Lemma grows_refl f : grows f f.
Proof. split; intros; assumption. Qed.

Lemma grows_trans f1 f2 f3 : grows f1 f2 -> grows f2 f3 -> grows f1 f3.
Proof. intros [K1 B1] [K2 B2]. split; intros; [apply K2, K1 | apply B1, B2]; assumption. Qed.

Lemma grows_insert_dir f key : f !! key = None -> grows f (<[key := Dir]> f).
Proof.
  intros Hnone. split.
  - intros p x Hp. rewrite lookup_insert_ne; [exact Hp | congruence].
  - intros p n. destruct (decide (key = p)) as [<- | Hne].
    + rewrite lookup_insert_eq. discriminate.
    + rewrite lookup_insert_ne by exact Hne. tauto.
Qed.

Lemma node_at_grows f f' path x :
  grows f f' -> Os.node_at f path = Some x -> Os.node_at f' path = Some x.
Proof.
  intros [Hkeep _]. unfold Os.node_at.
  destruct (String.eqb path ""); [discriminate |].
  destruct (Py.only_seps path); [tauto | apply Hkeep].
Qed.

Lemma node_at_file f f' path k :
  grows f f' -> Os.node_at f' path = Some (File k) -> Os.node_at f path = Some (File k).
Proof.
  intros [_ Hback]. unfold Os.node_at.
  destruct (String.eqb path ""); [discriminate |].
  destruct (Py.only_seps path); [tauto | apply Hback].
Qed.

(** *** Lengths: each call of [os.makedirs] is for a shorter name *)

Lemma rstrip_sep_length (s : string) : (String.length (Py.rstrip_sep s) <= String.length s)%nat.
Proof.
  induction s as [| c s IH]; [reflexivity |].
  cbn [Py.rstrip_sep]. destruct (_ && _); simpl; lia.
Qed.

Lemma entry_path_length (s : string) : (String.length (Os.entry_path s) <= String.length s)%nat.
Proof.
  unfold Os.entry_path. destruct (Py.only_seps s); [lia | apply rstrip_sep_length].
Qed.

Lemma substring_length_le (s : string) (n m : nat) :
  (String.length (String.substring n m s) <= m)%nat.
Proof.
  revert n m. induction s as [| c s IH]; intros n m.
  - destruct n, m; simpl; lia.
  - destruct n as [| n]; simpl.
    + destruct m as [| m]; simpl; [lia |]. specialize (IH 0%nat m). lia.
    + apply IH.
Qed.

Lemma substring_nonempty (s : string) (n m : nat) :
  String.substring n m s <> "" -> (n < String.length s)%nat.
Proof.
  revert n m. induction s as [| c s IH]; intros n m.
  - destruct n, m; simpl; congruence.
  - destruct n as [| n]; simpl; [lia |]. intros H. specialize (IH n m H). lia.
Qed.

Lemma path_split_shorter (p : string) :
  snd (Py.path_split p) <> "" ->
  (String.length (fst (Py.path_split p)) < String.length p)%nat.
Proof.
  unfold Py.path_split, Py.slice_to, Py.slice_from. cbn [fst snd].
  set (i := Z.to_nat (Py.rfind "/" p + 1)). intros Htail.
  apply substring_nonempty in Htail.
  pose proof (substring_length_le p 0 i) as Hhead.
  destruct (_ && _); [| lia].
  pose proof (rstrip_sep_length (String.substring 0 i p)). lia.
Qed.

(** *** [os.mkdir] and [os.makedirs] *)

Lemma mkdir_run name w r w' :
  Os.mkdir name w = (r, w') ->
  (r = Ok tt
   /\ fs w !! Os.entry_path name = None
   /\ w' = with_fs (<[Os.entry_path name := Dir]> (fs w)) w
   /\ Os.node_at (fs w') name = Some Dir)
  \/ (w' = w
      /\ exists e,
           r = Raise e
           /\ ((e = FileExistsError name /\ is_Some (Os.node_at (fs w) name))
               \/ (e = NotADirectoryError name
                   /\ exists k, Os.node_at (fs w) (fst (Py.path_split (Os.entry_path name)))
                                = Some (File k))
               \/ e = FileNotFoundError name)).
Proof.
  unfold Os.mkdir. destruct (String.eqb name "") eqn:Hempty.
  { intros [= <- <-]. right. split; [reflexivity |]. eexists. split; [reflexivity |].
    right. right. reflexivity. }
  destruct (Os.node_at (fs w) name) as [x |] eqn:Hat.
  { intros [= <- <-]. right. split; [reflexivity |]. eexists. split; [reflexivity |].
    left. split; [reflexivity | eauto]. }
  assert (Hkey : Py.only_seps name = false /\ fs w !! Os.entry_path name = None).
  { revert Hat. unfold Os.node_at, Os.entry_path. rewrite Hempty.
    destruct (Py.only_seps name); [discriminate | tauto]. }
  destruct Hkey as [Hseps Hfree]. cbv zeta.
  set (parent := fst (Py.path_split (Os.entry_path name))).
  assert (Hmade : forall w0,
             Os.set_fs (insert (Os.entry_path name) Dir) w = (r, w0) -> w0 = w' ->
             r = Ok tt
             /\ fs w !! Os.entry_path name = None
             /\ w' = with_fs (<[Os.entry_path name := Dir]> (fs w)) w
             /\ Os.node_at (fs w') name = Some Dir).
  { intros w0 [= <- <-] <-. split; [reflexivity |]. split; [exact Hfree |].
    split; [reflexivity |]. cbn [fs with_fs]. unfold Os.node_at.
    rewrite Hempty, Hseps. unfold Os.entry_path. rewrite Hseps. apply lookup_insert_eq. }
  destruct (String.eqb parent "").
  { intros H. left. exact (Hmade _ H eq_refl). }
  destruct (Os.node_at (fs w) parent) as [[k |] |] eqn:Hparent.
  - intros [= <- <-]. right. split; [reflexivity |]. eexists. split; [reflexivity |].
    right. left. split; [reflexivity | eauto].
  - intros H. left. exact (Hmade _ H eq_refl).
  - intros [= <- <-]. right. split; [reflexivity |]. eexists. split; [reflexivity |].
    right. right. reflexivity.
Qed.

(** The last step of [os.makedirs]: [os.mkdir], whose error is dropped when
    the directory is there. *)
Lemma mkdir_exist_ok name w r w' :
  Os.try_except (Os.mkdir name)
    (fun e => is_dir ← Os.isdir name; if is_dir : bool then mret tt else raise e) w
  = (r, w') ->
  out w' = out w /\ SKIPPED_MEETINGS w' = SKIPPED_MEETINGS w
  /\ grows (fs w) (fs w')
  /\ (r = Ok tt -> Os.node_at (fs w') name = Some Dir)
  /\ (forall path, r = Raise (FileExistsError path) -> is_Some (Os.node_at (fs w') name))
  /\ (forall e, r = Raise e -> mkdir_error e (fs w)).
Proof.
  unfold Os.try_except.
  destruct (Os.mkdir name w) as [r0 w0] eqn:Hmk.
  destruct (mkdir_run _ _ _ _ Hmk) as [(-> & Hfree & -> & Hdir) | (-> & e & -> & Hwhy)].
  - intros [= <- <-]. cbn [fs out SKIPPED_MEETINGS with_fs] in *.
    split; [reflexivity |]. split; [reflexivity |].
    split; [apply grows_insert_dir, Hfree |].
    split; [intros _; exact Hdir |]. split; discriminate.
  - rewrite bind_run. unfold Os.isdir.
    destruct (Os.node_at (fs w) name) as [[k |] |] eqn:Hat.
    + intros [= <- <-]. split; [reflexivity |]. split; [reflexivity |].
      split; [apply grows_refl |]. split; [discriminate |].
      split; [intros path _; rewrite Hat; eauto |].
      intros e' [= <-]. destruct Hwhy as [[-> _] | [[-> Hparent] | ->]].
      * exists name. left. split; [reflexivity | eauto].
      * exists name. right. left. split; [reflexivity | exact Hparent].
      * exists name. right. right. reflexivity.
    + intros [= <- <-]. split; [reflexivity |]. split; [reflexivity |].
      split; [apply grows_refl |]. split; [intros _; exact Hat |]. split; discriminate.
    + intros [= <- <-]. split; [reflexivity |]. split; [reflexivity |].
      split; [apply grows_refl |]. split; [discriminate |].
      split.
      * intros path [= ->]. destruct Hwhy as [[_ Hsome] | [[[=] _] | [=]]].
        rewrite Hat. exact Hsome.
      * intros e' [= <-]. destruct Hwhy as [[-> Hsome] | [[-> Hparent] | ->]].
        -- destruct Hsome as [x [=]].
        -- exists name. right. left. split; [reflexivity | exact Hparent].
        -- exists name. right. right. reflexivity.
Qed.

(** [os.makedirs] prints nothing, keeps what is there and adds directories
    only; when it returns, the directory is there; a [FileExistsError] is
    that of the last component; and with the length of the name for fuel its
    errors are errors of [os.mkdir]. *)
Lemma makedirs_from_spec fuel name w r w' :
  Os.makedirs_from fuel name w = (r, w') ->
  out w' = out w /\ SKIPPED_MEETINGS w' = SKIPPED_MEETINGS w
  /\ grows (fs w) (fs w')
  /\ (r = Ok tt -> made name (fs w'))
  /\ (forall path, r = Raise (FileExistsError path) -> is_Some (Os.node_at (fs w') name))
  /\ (forall e, r = Raise e -> (String.length name <= fuel)%nat -> mkdir_error e (fs w)).
Proof.
  revert name w r w'. induction fuel as [fuel IH] using lt_wf_ind. intros name w r w'.
  assert (Hunfold : Os.makedirs_from fuel name =
    let '(head, tail) := Py.path_split (Os.entry_path name) in
    (if negb (String.eqb head "") && negb (String.eqb tail "") then
       found ← Os.exists_at head;
       if found : bool then mret tt
       else
         match fuel with
         | S fuel' =>
             Os.try_except (Os.makedirs_from fuel' head)
               (fun e => match e with FileExistsError _ => mret tt | _ => raise e end)
         | O => raise (Exception "RecursionError")
         end
     else mret tt);;
    Os.try_except (Os.mkdir name)
      (fun e => is_dir ← Os.isdir name; if is_dir : bool then mret tt else raise e))
    by (destruct fuel; reflexivity).
  rewrite Hunfold. clear Hunfold. unfold made.
  destruct (Py.path_split (Os.entry_path name)) as [head tail] eqn:Hsplit. cbn [fst snd].
  assert (Hshort : tail <> "" -> (String.length head < String.length name)%nat).
  { intros Htail. pose proof (path_split_shorter (Os.entry_path name)) as H.
    rewrite Hsplit in H. cbn [fst snd] in H. specialize (H Htail).
    pose proof (entry_path_length name). lia. }
  match goal with |- (?b ≫= _) w = _ -> _ => set (above := b) end.
  rewrite bind_run.
  assert (Hblock : forall rb wb,
    above w = (rb, wb) ->
    out wb = out w /\ SKIPPED_MEETINGS wb = SKIPPED_MEETINGS w
    /\ grows (fs w) (fs wb)
    /\ (rb = Ok tt -> head <> "" -> tail <> "" -> is_Some (Os.node_at (fs wb) head))
    /\ (forall e, rb = Raise e ->
          (forall path, e <> FileExistsError path)
          /\ ((String.length name <= fuel)%nat -> mkdir_error e (fs w)))).
  { intros rb wb. unfold above. clear above.
    destruct (String.eqb_spec head "") as [Hhead | Hhead]; cbn [negb andb].
    { intros [= <- <-]. split; [reflexivity |]. split; [reflexivity |].
      split; [apply grows_refl |]. split; [intros _ H; contradiction | discriminate]. }
    destruct (String.eqb_spec tail "") as [Htail | Htail]; cbn [negb andb].
    { intros [= <- <-]. split; [reflexivity |]. split; [reflexivity |].
      split; [apply grows_refl |]. split; [intros _ _ H; contradiction | discriminate]. }
    rewrite bind_run. unfold Os.exists_at.
    destruct (decide (is_Some (Os.node_at (fs w) head))) as [Hfound | Hnot].
    { rewrite (bool_decide_eq_true_2 _ Hfound). intros [= <- <-].
      split; [reflexivity |]. split; [reflexivity |].
      split; [apply grows_refl |]. split; [intros _ _ _; exact Hfound | discriminate]. }
    rewrite (bool_decide_eq_false_2 _ Hnot).
    destruct fuel as [| fuel'].
    { intros [= <- <-]. split; [reflexivity |]. split; [reflexivity |].
      split; [apply grows_refl |]. split; [discriminate |].
      intros e [= <-]. split; [discriminate |].
      intros Hlen. specialize (Hshort Htail). lia. }
    unfold Os.try_except.
    destruct (Os.makedirs_from fuel' head w) as [ri wi] eqn:Hinner.
    destruct (IH fuel' (Nat.lt_succ_diag_r _) _ _ _ _ Hinner)
      as (Hout & Hsk & Hgrow & Hmade & Hexists & Herr).
    destruct ri as [[] | e].
    - intros [= <- <-]. split; [exact Hout |]. split; [exact Hsk |].
      split; [exact Hgrow |]. split; [| discriminate].
      intros _ _ _. destruct (Hmade eq_refl) as [Hdir _]. rewrite Hdir. eauto.
    - assert (Hother : (forall path, e <> FileExistsError path) ->
                       (Raise e, wi) = (rb, wb) ->
                       out wb = out w /\ SKIPPED_MEETINGS wb = SKIPPED_MEETINGS w
                       /\ grows (fs w) (fs wb)
                       /\ (rb = Ok tt -> head <> "" -> tail <> "" ->
                           is_Some (Os.node_at (fs wb) head))
                       /\ (forall e0, rb = Raise e0 ->
                             (forall path, e0 <> FileExistsError path)
                             /\ ((String.length name <= S fuel')%nat ->
                                 mkdir_error e0 (fs w)))).
      { intros Hne [= <- <-]. split; [exact Hout |]. split; [exact Hsk |].
        split; [exact Hgrow |]. split; [discriminate |].
        intros e0 [= <-]. split; [exact Hne |].
        intros Hlen. apply (Herr e eq_refl). specialize (Hshort Htail). lia. }
      destruct e;
        try (apply Hother; intros other; discriminate).
      intros [= <- <-]. split; [exact Hout |]. split; [exact Hsk |].
      split; [exact Hgrow |]. split; [| discriminate].
      intros _ _ _. exact (Hexists _ eq_refl). }
  destruct (above w) as [rb wb] eqn:Hb.
  destruct (Hblock _ _ eq_refl) as (Hout & Hsk & Hgrow & Hhead & Herr). clear Hblock.
  destruct rb as [[] | e].
  - intros Hlast. apply mkdir_exist_ok in Hlast.
    destruct Hlast as (Hout2 & Hsk2 & Hgrow2 & Hdir & Hexists & Herr2).
    split; [congruence |]. split; [congruence |].
    split; [exact (grows_trans _ _ _ Hgrow Hgrow2) |].
    split; [| split].
    + intros Hr. split; [exact (Hdir Hr) |].
      intros H1 H2. destruct (Hhead eq_refl H1 H2) as [x Hx].
      exists x. exact (node_at_grows _ _ _ _ Hgrow2 Hx).
    + exact Hexists.
    + intros e Hr _. destruct (Herr2 e Hr) as [path Hwhy]. exists path.
      destruct Hwhy as [[-> [k Hk]] | [[-> [k Hk]] | ->]].
      * left. split; [reflexivity |]. exists k. exact (node_at_file _ _ _ _ Hgrow Hk).
      * right. left. split; [reflexivity |]. exists k. exact (node_at_file _ _ _ _ Hgrow Hk).
      * right. right. reflexivity.
  - intros [= <- <-]. destruct (Herr e eq_refl) as [Hne Hwhy].
    split; [exact Hout |]. split; [exact Hsk |]. split; [exact Hgrow |].
    split; [discriminate |]. split.
    + intros path [= ->]. exfalso. exact (Hne path eq_refl).
    + intros e0 [= <-]. exact Hwhy.
Qed.

(** Where [os.makedirs] has been, it does nothing more. *)
Lemma makedirs_from_noop fuel name w :
  made name (fs w) -> Os.makedirs_from fuel name w = (Ok tt, w).
Proof.
  intros [Hdir Hhead].
  assert (Hunfold : Os.makedirs_from fuel name =
    let '(head, tail) := Py.path_split (Os.entry_path name) in
    (if negb (String.eqb head "") && negb (String.eqb tail "") then
       found ← Os.exists_at head;
       if found : bool then mret tt
       else
         match fuel with
         | S fuel' =>
             Os.try_except (Os.makedirs_from fuel' head)
               (fun e => match e with FileExistsError _ => mret tt | _ => raise e end)
         | O => raise (Exception "RecursionError")
         end
     else mret tt);;
    Os.try_except (Os.mkdir name)
      (fun e => is_dir ← Os.isdir name; if is_dir : bool then mret tt else raise e))
    by (destruct fuel; reflexivity).
  rewrite Hunfold. clear Hunfold.
  destruct (Py.path_split (Os.entry_path name)) as [head tail]. cbn [fst snd] in Hhead.
  assert (Hlast : Os.try_except (Os.mkdir name)
            (fun e => is_dir ← Os.isdir name; if is_dir : bool then mret tt else raise e) w
          = (Ok tt, w)).
  { unfold Os.try_except, Os.mkdir.
    assert (Hne : String.eqb name "" = false).
    { destruct (String.eqb_spec name "") as [-> | _]; [discriminate Hdir | reflexivity]. }
    rewrite Hne, Hdir. rewrite bind_run. unfold Os.isdir. rewrite Hdir. reflexivity. }
  rewrite bind_run.
  destruct (String.eqb_spec head "") as [H1 | H1]; cbn [negb andb]; [exact Hlast |].
  destruct (String.eqb_spec tail "") as [H2 | H2]; cbn [negb andb]; [exact Hlast |].
  rewrite bind_run. unfold Os.exists_at.
  rewrite (bool_decide_eq_true_2 _ (Hhead H1 H2)). exact Hlast.
Qed.

(** [os.makedirs] prints nothing, keeps every file, and adds no file. *)
Lemma makedirs_frame name w :
  exists r f,
    Os.makedirs name w = (r, with_fs f w)
    /\ (forall p n, f !! p = Some (File n) <-> fs w !! p = Some (File n)).
Proof.
  unfold Os.makedirs.
  destruct (Os.makedirs_from (String.length name) name w) as [r w'] eqn:Hrun.
  destruct (makedirs_from_spec _ _ _ _ _ Hrun) as (Hout & Hsk & [Hkeep Hback] & _).
  exists r, (fs w'). split.
  - f_equal. destruct w, w'. unfold with_fs. simpl in *. congruence.
  - intros p n. split; [apply Hback | apply Hkeep].
Qed.

End WorldFacts.

Section DownloaderFacts.
Local Open Scope Z_scope.
Variable CONFIG : Config.
Variable client : zoom_client.
Variable slugify : string -> string.
Variable dir_size : Z.

Local Abbreviation tolerance := (FILE_SIZE_MISMATCH_TOLERANCE CONFIG).
Local Abbreviation signed url := (url +:+ "?access_token=" +:+ access_token client).

(** [create_path] prints nothing, keeps every file, and adds no file. *)
Lemma create_path_frame host_folder file_name topic recording_name w :
  exists r f,
    create_path CONFIG host_folder file_name topic recording_name w = (r, with_fs f w)
    /\ (forall p n, f !! p = Some (File n) <-> fs w !! p = Some (File n)).
Proof.
  unfold create_path. rewrite bind_run.
  match goal with |- context [Os.makedirs ?l w] =>
    destruct (makedirs_frame l w) as (r & f & Hrun & Hfiles) end.
  rewrite Hrun. destruct r as [[] | e]; eexists _, f; split; try reflexivity; exact Hfiles.
Qed.

(** Lines 300-313, run from a state where nothing is at [file_path]. *)
Lemma fetch_run download_url file_name file_path file_size w :
  fs w !! file_path = None ->
  fetch CONFIG client download_url file_name file_path file_size w =
  let tmp := file_path +:+ ".tmp" in
  let w1 := logged [Printed ("Downloading: " +:+ file_name); Waited file_size;
                    Transfer (signed download_url) tmp] w in
  match fs w !! tmp with
  | Some Dir => (Raise (OSError tmp), w1)
  | _ =>
      match stream client (signed download_url) with
      | Broken n =>
          (Raise (Exception "transfer failed"), with_fs (<[tmp := File n]> (fs w)) w1)
      | Complete n =>
          if Z.abs (n - file_size) <=? tolerance
          then (Ok true,
                logged [Renamed tmp file_path]
                  (with_fs (<[file_path := File n]> (delete tmp (<[tmp := File n]> (fs w)))) w1))
          else (Raise (Exception "size mismatch"), with_fs (<[tmp := File n]> (fs w)) w1)
      end
  end.
Proof.
  intros Hfree. pose proof (tmp_path_neq file_path) as Hne.
  cbv [fetch wait_for_disk_space do_with_token download_with_progress Os.print
       Os.emit mbind M_bind bind mret M_ret ret raise logged with_fs
       Os.write_file Os.rename Os.set_fs]. simpl fs. simpl out.
  set (tmp := file_path +:+ ".tmp") in *.
  destruct (stream client _) as [n | n]; simpl fs;
    destruct (fs w !! tmp) as [[k |] |] eqn:Etmp; simpl; try reflexivity.
  all: repeat rewrite <- app_assoc; simpl app.
  all: destruct (Z.abs (n - file_size) <=? tolerance); simpl; try reflexivity.
  all: rewrite lookup_insert_eq, lookup_insert_ne, Hfree by exact Hne.
  all: repeat rewrite <- app_assoc; reflexivity.
Qed.


(** Lines 293-313, by what is at [file_path]. *)
Lemma store_run download_url file_name file_path file_size w :
  store CONFIG client dir_size download_url file_name file_path file_size w =
  match fs w !! file_path with
  | None => fetch CONFIG client download_url file_name file_path file_size w
  | Some x =>
      let existing_size := match x with File n => n | Dir => dir_size end in
      if Z.abs (existing_size - file_size) <=? tolerance
      then (Ok false, logged [Printed ("Skipping existing file: " +:+ file_name)] w)
      else match x with
           | File _ =>
               fetch CONFIG client download_url file_name file_path file_size
                 (with_fs (delete file_path (fs w))
                    (logged [Printed ("Deleting corrupt file: " +:+ file_name);
                             Removed file_path] w))
           | Dir =>
               (Raise (OSError file_path),
                logged [Printed ("Deleting corrupt file: " +:+ file_name)] w)
           end
  end.
Proof.
  unfold store. rewrite bind_run. unfold Os.path_exists at 1.
  destruct (fs w !! file_path) as [x |] eqn:E.
  - rewrite bool_decide_eq_true_2 by eauto.
    rewrite bind_run. unfold Os.getsize. rewrite E.
    destruct x as [n |]; simpl.
    + destruct (Z.abs (n - file_size) <=? tolerance); [reflexivity |].
      rewrite bind_run, bind_run. unfold Os.print. rewrite emit_run.
      unfold Os.remove. simpl fs. rewrite E.
      rewrite bind_run, set_fs_run, emit_run, with_fs_logged, logged_logged.
      reflexivity.
    + destruct (Z.abs (dir_size - file_size) <=? tolerance); [reflexivity |].
      rewrite bind_run, bind_run. unfold Os.print. rewrite emit_run.
      unfold Os.remove. simpl fs. rewrite E. reflexivity.
  - rewrite bool_decide_eq_false_2 by (intros [? ?]; discriminate).
    reflexivity.
Qed.

(** Lines 270-291: a file below the minimum size is reported and nothing
    else happens; for any other file the folders are created, no file is
    written or removed, and only the optional URL lines are printed. *)
Lemma resolve_destination_run download_url host_folder file_name file_size topic w :
  (file_size < MIN_FILE_SIZE CONFIG * 1024 * 1024
   /\ resolve_destination CONFIG download_url host_folder file_name file_size topic w
      = (Ok None, logged [too_small_line CONFIG file_name] w))
  \/ (MIN_FILE_SIZE CONFIG * 1024 * 1024 <= file_size
      /\ exists r f,
           resolve_destination CONFIG download_url host_folder file_name file_size topic w
           = (r, logged (verbose_lines CONFIG download_url) (with_fs f w))
           /\ r <> Ok None
           /\ (forall p n, f !! p = Some (File n) <-> fs w !! p = Some (File n))).
Proof.
  unfold resolve_destination.
  destruct (Z.ltb_spec file_size (MIN_FILE_SIZE CONFIG * 1024 * 1024)) as [Hsmall | Hbig].
  - left. split; [exact Hsmall | reflexivity].
  - right. split; [exact Hbig |].
    rewrite bind_run.
    assert (Hlines : (if VERBOSE_OUTPUT CONFIG
                      then Os.print "";; Os.print ("URL: " +:+ download_url)
                      else mret tt) w = (Ok tt, logged (verbose_lines CONFIG download_url) w)).
    { unfold verbose_lines. destruct (VERBOSE_OUTPUT CONFIG).
      - unfold Os.print. rewrite bind_run, !emit_run, logged_logged. reflexivity.
      - rewrite logged_nil. reflexivity. }
    rewrite Hlines. clear Hlines.
    set (w0 := logged (verbose_lines CONFIG download_url) w).
    rewrite bind_run.
    destruct (create_path_frame host_folder (Py.strip_unsafe file_name) topic
                (Py.strip_unsafe file_name) w0) as (r1 & f1 & Hrun1 & Hfiles1).
    rewrite Hrun1. destruct r1 as [file_path | e].
    2: { exists (Raise e), f1. repeat split; try discriminate; apply Hfiles1; assumption. }
    rewrite bind_run. unfold Os.path_exists at 1.
    destruct (bool_decide (is_Some (fs (with_fs f1 w0) !! file_path))).
    2: { eexists _, f1. repeat split; try discriminate; apply Hfiles1; assumption. }
    destruct (Py.splitext (Py.strip_unsafe file_name)) as [base_name ext].
    rewrite bind_run. unfold probe at 1. rewrite bind_run.
    match goal with |- context [create_path CONFIG ?h ?n ?t ?rn ?w'] =>
      destruct (create_path_frame h n t rn w') as (r2 & f2 & Hrun2 & Hfiles2) end.
    rewrite Hrun2. rewrite with_fs_with_fs.
    destruct r2 as [file_path2 | e].
    + eexists _, f2. split; [reflexivity |]. split; [discriminate |].
      intros p n. rewrite Hfiles2. apply Hfiles1.
    + eexists _, f2. split; [reflexivity |]. split; [discriminate |].
      intros p n. rewrite Hfiles2. apply Hfiles1.
Qed.

(** [download_recording_file] is [store] run on what [resolve_destination]
    found. *)
Lemma download_recording_file_run download_url host_folder file_name file_size topic w :
  download_recording_file CONFIG client dir_size download_url host_folder file_name
    file_size topic w =
  match resolve_destination CONFIG download_url host_folder file_name file_size topic w with
  | (Ok None, w1) => (Ok false, w1)
  | (Ok (Some (file_name', file_path)), w1) =>
      store CONFIG client dir_size download_url file_name' file_path file_size w1
  | (Raise e, w1) => (Raise e, w1)
  end.
Proof.
  unfold download_recording_file. rewrite bind_run.
  destruct (resolve_destination _ _ _ _ _ _ w) as [[[[n p] |] | e] w1]; reflexivity.
Qed.

Lemma count_app kind (l1 l2 : list event) :
  count kind (l1 ++ l2) = count kind l1 + count kind l2.
Proof. unfold count. rewrite List.filter_app, length_app. lia. Qed.

Lemma count_verbose_lines download_url :
  count is_skip (verbose_lines CONFIG download_url) = 0
  /\ count is_transfer (verbose_lines CONFIG download_url) = 0
  /\ count is_rename (verbose_lines CONFIG download_url) = 0.
Proof. unfold verbose_lines. destruct (VERBOSE_OUTPUT CONFIG); repeat split; reflexivity. Qed.

(** What [fetch] leaves behind: a file at [file_path] only when the transfer
    was complete and of the expected size within the tolerance, and in that
    case nothing at the temporary path. *)
Lemma fetch_final download_url file_name file_path file_size w r w' :
  fs w !! file_path = None ->
  fetch CONFIG client download_url file_name file_path file_size w = (r, w') ->
  (forall k, fs w' !! file_path = Some (File k) -> Z.abs (k - file_size) <= tolerance)
  /\ (r = Ok true ->
      exists n,
        stream client (signed download_url) = Complete n
        /\ Z.abs (n - file_size) <= tolerance
        /\ fs w' !! file_path = Some (File n)
        /\ fs w' !! (file_path +:+ ".tmp") = None
        /\ out w' = out w
                    ++ [Printed ("Downloading: " +:+ file_name); Waited file_size;
                        Transfer (signed download_url) (file_path +:+ ".tmp");
                        Renamed (file_path +:+ ".tmp") file_path]).
Proof.
  intros Hfree. pose proof (tmp_path_neq file_path) as Hne.
  rewrite fetch_run by exact Hfree. simpl.
  set (tmp := file_path +:+ ".tmp") in *.
  assert (Hkeep : forall n k, <[tmp := File n]> (fs w) !! file_path = Some (File k) ->
                              Z.abs (k - file_size) <= tolerance).
  { intros n k. rewrite lookup_insert_ne, Hfree by exact Hne. discriminate. }
  assert (Hmain :
    match stream client (signed download_url) with
    | Complete n =>
        if Z.abs (n - file_size) <=? tolerance
        then (Ok true,
              logged [Renamed tmp file_path]
                (with_fs (<[file_path := File n]> (delete tmp (<[tmp := File n]> (fs w))))
                   (logged [Printed ("Downloading: " +:+ file_name); Waited file_size;
                            Transfer (signed download_url) tmp] w)))
        else (Raise (Exception "size mismatch"),
              with_fs (<[tmp := File n]> (fs w))
                (logged [Printed ("Downloading: " +:+ file_name); Waited file_size;
                         Transfer (signed download_url) tmp] w))
    | Broken n =>
        (Raise (Exception "transfer failed"),
         with_fs (<[tmp := File n]> (fs w))
           (logged [Printed ("Downloading: " +:+ file_name); Waited file_size;
                    Transfer (signed download_url) tmp] w))
    end = (r, w') ->
    (forall k, fs w' !! file_path = Some (File k) -> Z.abs (k - file_size) <= tolerance)
    /\ (r = Ok true ->
        exists n,
          stream client (signed download_url) = Complete n
          /\ Z.abs (n - file_size) <= tolerance
          /\ fs w' !! file_path = Some (File n)
          /\ fs w' !! tmp = None
          /\ out w' = out w
                      ++ [Printed ("Downloading: " +:+ file_name); Waited file_size;
                          Transfer (signed download_url) tmp; Renamed tmp file_path])).
  { destruct (stream client _) as [n | n].
    - destruct (Z.leb_spec (Z.abs (n - file_size)) tolerance) as [Hok | Hbad];
        intros [= <- <-]; simpl.
      + split.
        * intros k. rewrite lookup_insert_eq. intros [= <-]. exact Hok.
        * intros _. exists n. repeat split; try assumption.
          -- apply lookup_insert_eq.
          -- rewrite lookup_insert_ne by congruence. apply lookup_delete_eq.
          -- rewrite <- app_assoc. reflexivity.
      + split; [apply Hkeep | discriminate].
    - intros [= <- <-]. simpl. split; [apply Hkeep | discriminate]. }
  destruct (fs w !! tmp) as [[k0 |] |]; try exact Hmain.
  intros [= <- <-]. simpl. split; [| discriminate].
  intros k. rewrite Hfree. discriminate.
Qed.

(** The same for [store], which may first remove what is at [file_path]. *)
Lemma store_final download_url file_name file_path file_size w r w' :
  store CONFIG client dir_size download_url file_name file_path file_size w = (r, w') ->
  (forall k, fs w' !! file_path = Some (File k) -> Z.abs (k - file_size) <= tolerance)
  /\ (r = Ok true ->
      exists n before,
        stream client (signed download_url) = Complete n
        /\ Z.abs (n - file_size) <= tolerance
        /\ fs w' !! file_path = Some (File n)
        /\ fs w' !! (file_path +:+ ".tmp") = None
        /\ out w' = out w ++ before
                    ++ [Printed ("Downloading: " +:+ file_name); Waited file_size;
                        Transfer (signed download_url) (file_path +:+ ".tmp");
                        Renamed (file_path +:+ ".tmp") file_path]).
Proof.
  rewrite store_run. destruct (fs w !! file_path) as [[n0 |] |] eqn:E; simpl.
  - destruct (Z.leb_spec (Z.abs (n0 - file_size)) tolerance) as [Hok | Hbad].
    + intros [= <- <-]. simpl. split; [| discriminate].
      intros k. rewrite E. intros [= <-]. exact Hok.
    + intros Hfetch. apply fetch_final in Hfetch; [| simpl; apply lookup_delete_eq].
      destruct Hfetch as [Hkeep Hdone]. split; [exact Hkeep |].
      intros Hr. destruct (Hdone Hr) as (n & Hs & Hn & Hat & Htmp & Hout).
      exists n, [Printed ("Deleting corrupt file: " +:+ file_name); Removed file_path].
      repeat split; try assumption.
      rewrite Hout. simpl. rewrite <- !app_assoc. reflexivity.
  - destruct (Z.abs (dir_size - file_size) <=? tolerance);
      intros [= <- <-]; simpl; (split; [| discriminate]);
      intros k; rewrite E; discriminate.
  - intros Hfetch. apply fetch_final in Hfetch; [| exact E].
    destruct Hfetch as [Hkeep Hdone]. split; [exact Hkeep |].
    intros Hr. destruct (Hdone Hr) as (n & Hs & Hn & Hat & Htmp & Hout).
    exists n, []. repeat split; assumption.
Qed.

(** C5.  Every successfully downloaded file is first transferred to the
    temporary sibling path of its destination, the transferred size is the
    expected size within the tolerance, and the temporary file is then renamed
    to the destination: after a successful download the destination holds the
    transferred file and nothing is left at the temporary path.  And however
    the downloader ends once the destination is resolved (answer or error),
    a file at the destination has the expected size within the tolerance. *)
Theorem download_through_temporary_path
  (download_url host_folder file_name : string) (size : Z) (topic : string)
  (w w' : World) (r : result bool) :
  download_recording_file CONFIG client dir_size download_url host_folder file_name
    size topic w = (r, w') ->
  (r = Ok true ->
     exists file_name' file_path w1 n before,
       resolve_destination CONFIG download_url host_folder file_name size topic w
         = (Ok (Some (file_name', file_path)), w1)
       /\ stream client (signed download_url) = Complete n
       /\ Z.abs (n - size) <= tolerance
       /\ out w' = out w1 ++ before
                   ++ [Printed ("Downloading: " +:+ file_name'); Waited size;
                       Transfer (signed download_url) (file_path +:+ ".tmp");
                       Renamed (file_path +:+ ".tmp") file_path]
       /\ fs w' !! file_path = Some (File n)
       /\ fs w' !! (file_path +:+ ".tmp") = None)
  /\ (forall file_name' file_path w1 k,
        resolve_destination CONFIG download_url host_folder file_name size topic w
          = (Ok (Some (file_name', file_path)), w1) ->
        fs w' !! file_path = Some (File k) ->
        Z.abs (k - size) <= tolerance).
Proof.
  rewrite download_recording_file_run.
  destruct (resolve_destination _ _ _ _ _ _ w) as [[[[name path] |] | e] w1] eqn:Hres.
  - intros Hstore. apply store_final in Hstore. destruct Hstore as [Hkeep Hdone]. split.
    + intros Hr. destruct (Hdone Hr) as (n & before & Hs & Hn & Hat & Htmp & Hout).
      exists name, path, w1, n, before. repeat split; assumption.
    + intros name' path' w1' k [= <- <- <-]. apply Hkeep.
  - intros [= <- <-]. split; [discriminate |]. intros ? ? ? ? [=].
  - intros [= <- <-]. split; [discriminate |]. intros ? ? ? ? [=].
Qed.

(** *** The flat layout: no grouping by topic or by recording *)

(** [create_path] makes the folder for the grouping flags and returns the
    file name joined to it. *)
Lemma create_path_run host_folder file_name topic recording_name w :
  create_path CONFIG host_folder file_name topic recording_name w =
  match Os.makedirs (destination_folder CONFIG host_folder topic recording_name) w with
  | (Ok _, w1) =>
      (Ok (Py.path_join (destination_folder CONFIG host_folder topic recording_name) file_name),
       w1)
  | (Raise e, w1) => (Raise e, w1)
  end.
Proof.
  unfold create_path, destination_folder. rewrite bind_run.
  destruct (Os.makedirs _ w) as [[[] | e] w1]; reflexivity.
Qed.

(** Once [create_path] has returned, a call for the same folder returns and
    changes nothing. *)
Lemma create_path_twice host_folder file_name1 file_name2 topic recording_name1
  recording_name2 w file_path w1 :
  destination_folder CONFIG host_folder topic recording_name1
  = destination_folder CONFIG host_folder topic recording_name2 ->
  create_path CONFIG host_folder file_name1 topic recording_name1 w = (Ok file_path, w1) ->
  create_path CONFIG host_folder file_name2 topic recording_name2 w1
  = (Ok (Py.path_join (destination_folder CONFIG host_folder topic recording_name2)
           file_name2), w1).
Proof.
  intros Hsame. rewrite !create_path_run, Hsame. unfold Os.makedirs.
  destruct (Os.makedirs_from _ _ w) as [[[] | e] w0] eqn:Hmk; [| discriminate].
  intros [= _ <-].
  destruct (makedirs_from_spec _ _ _ _ _ Hmk) as (_ & _ & _ & Hmade & _).
  rewrite (makedirs_from_noop _ _ _ (Hmade eq_refl)). reflexivity.
Qed.

Lemma destination_folder_flat host_folder topic recording_name :
  GROUP_BY_TOPIC CONFIG = false -> GROUP_BY_RECORDING CONFIG = false ->
  destination_folder CONFIG host_folder topic recording_name = host_folder.
Proof. intros Htopic Hrec. unfold destination_folder. rewrite Htopic, Hrec. reflexivity. Qed.

(** In the flat layout the downloader does what line 287 announces: the
    resolved destination is free, and when the first name is taken the new
    name carries the first index, from 1 on, whose name is free. *)
Lemma resolve_destination_flat download_url host_folder file_name size topic w
  file_name' file_path w1 :
  GROUP_BY_TOPIC CONFIG = false -> GROUP_BY_RECORDING CONFIG = false ->
  resolve_destination CONFIG download_url host_folder file_name size topic w
    = (Ok (Some (file_name', file_path)), w1) ->
  file_path = Py.path_join host_folder file_name'
  /\ fs w1 !! file_path = None
  /\ (file_name' = Py.strip_unsafe file_name
      \/ exists i : nat,
           let base_name := fst (Py.splitext (Py.strip_unsafe file_name)) in
           let ext := snd (Py.splitext (Py.strip_unsafe file_name)) in
           (1 <= i)%nat
           /\ file_name' = suffixed base_name i ext
           /\ is_Some (fs w1 !! Py.path_join host_folder (Py.strip_unsafe file_name))
           /\ forall j, (1 <= j < i)%nat ->
                is_Some (fs w1 !! Py.path_join host_folder (suffixed base_name j ext))).
Proof.
  intros Htopic Hrec. unfold resolve_destination.
  destruct (size <? MIN_FILE_SIZE CONFIG * 1024 * 1024); [discriminate |].
  rewrite bind_run.
  destruct ((if VERBOSE_OUTPUT CONFIG
             then Os.print "";; Os.print ("URL: " +:+ download_url)
             else mret tt) w) as [[[] | e] w0]; [| discriminate].
  set (name := Py.strip_unsafe file_name).
  rewrite bind_run.
  destruct (create_path CONFIG host_folder name topic name w0) as [[path1 | e] w2] eqn:Hc1;
    [| discriminate].
  pose proof Hc1 as Hpath1. rewrite create_path_run in Hpath1.
  rewrite (destination_folder_flat _ _ _ Htopic Hrec) in Hpath1.
  assert (Hp1 : path1 = Py.path_join host_folder name).
  { destruct (Os.makedirs host_folder w0) as [[[] | e] w3]; [| discriminate].
    injection Hpath1 as <- _. reflexivity. }
  clear Hpath1. subst path1.
  rewrite bind_run. unfold Os.path_exists.
  destruct (decide (is_Some (fs w2 !! Py.path_join host_folder name))) as [Htaken | Hfree].
  - rewrite (bool_decide_eq_true_2 _ Htaken).
    destruct (Py.splitext name) as [base_name ext]. simpl fst. simpl snd.
    rewrite bind_run. unfold probe at 1. rewrite bind_run.
    match goal with |- context [create_path CONFIG host_folder ?n topic ?n w2] =>
      rewrite (create_path_twice host_folder name n topic name n w0
                 (Py.path_join host_folder name) w2);
        [| rewrite !destination_folder_flat by assumption; reflexivity | exact Hc1]
    end.
    rewrite (destination_folder_flat _ _ _ Htopic Hrec).
    intros [= <- <- <-].
    destruct (first_free_stops (fs w2) host_folder base_name ext) as (Hone & Hnone & Hall).
    split; [reflexivity |]. split; [exact Hnone |].
    right. eexists. split; [exact Hone |]. split; [reflexivity |].
    split; [exact Htaken | exact Hall].
  - rewrite (bool_decide_eq_false_2 _ Hfree). intros [= <- <- <-].
    split; [reflexivity |]. split; [| left; reflexivity].
    destruct (fs w2 !! Py.path_join host_folder name) eqn:E;
      [exfalso; apply Hfree; eauto | reflexivity].
Qed.

(** *** What a call prints and does, counted *)

Lemma fetch_events download_url file_name file_path file_size w r w' :
  fs w !! file_path = None ->
  fetch CONFIG client download_url file_name file_path file_size w = (r, w') ->
  exists events, out w' = out w ++ events /\ r <> Ok false /\ answered r events.
Proof.
  intros Hfree. rewrite fetch_run by exact Hfree. simpl.
  set (tmp := file_path +:+ ".tmp").
  destruct (fs w !! tmp) as [[k |] |];
    try (intros [= <- <-]; eexists; split; [reflexivity |]; split; [discriminate | exact I]).
  all: destruct (stream client _) as [n | n];
    try (intros [= <- <-]; eexists; split; [reflexivity |]; split; [discriminate | exact I]).
  all: destruct (Z.abs (n - file_size) <=? tolerance);
    try (intros [= <- <-]; eexists; split; [reflexivity |]; split; [discriminate | exact I]).
  all: intros [= <- <-]; eexists; simpl; rewrite <- app_assoc;
    (split; [reflexivity |]); (split; [discriminate |]); split; reflexivity.
Qed.

Lemma store_events download_url file_name file_path file_size w r w' :
  store CONFIG client dir_size download_url file_name file_path file_size w = (r, w') ->
  exists events, out w' = out w ++ events /\ answered r events.
Proof.
  rewrite store_run. destruct (fs w !! file_path) as [[n0 |] |] eqn:E; simpl.
  - destruct (Z.abs (n0 - file_size) <=? tolerance).
    + intros [= <- <-]. eexists. split; [reflexivity |]. repeat split; reflexivity.
    + intros Hfetch. apply fetch_events in Hfetch; [| simpl; apply lookup_delete_eq].
      destruct Hfetch as (events & Hout & Hnot & Hans).
      exists ([Printed ("Deleting corrupt file: " +:+ file_name); Removed file_path]
              ++ events).
      split; [rewrite Hout; simpl; rewrite <- app_assoc; reflexivity |].
      destruct r as [[|] | e]; [| congruence | exact I].
      destruct Hans as [Hs Hr]. split; rewrite count_app; [rewrite Hs | rewrite Hr];
        reflexivity.
  - destruct (Z.abs (dir_size - file_size) <=? tolerance); intros [= <- <-].
    + eexists. split; [reflexivity |]. repeat split; reflexivity.
    + eexists. split; [reflexivity | exact I].
  - intros Hfetch. apply fetch_events in Hfetch; [| exact E].
    destruct Hfetch as (events & Hout & _ & Hans). exists events. split; assumption.
Qed.

Lemma download_recording_file_events download_url host_folder file_name size topic w r w' :
  download_recording_file CONFIG client dir_size download_url host_folder file_name
    size topic w = (r, w') ->
  exists events, out w' = out w ++ events /\ answered r events.
Proof.
  rewrite download_recording_file_run.
  destruct (resolve_destination_run download_url host_folder file_name size topic w)
    as [[_ Hrun] | (_ & r0 & f & Hrun & Hsome & _)]; rewrite Hrun.
  - intros [= <- <-]. eexists. split; [reflexivity |]. repeat split; reflexivity.
  - destruct (count_verbose_lines download_url) as (Hs & Ht & Hr).
    destruct r0 as [[[name path] |] | e]; [| congruence |].
    + intros Hstore. apply store_events in Hstore.
      destruct Hstore as (events & Hout & Hans).
      exists (verbose_lines CONFIG download_url ++ events).
      split; [rewrite Hout; simpl; rewrite <- app_assoc; reflexivity |].
      destruct r as [[|] | e]; simpl in *; rewrite ?count_app, ?Hs, ?Ht, ?Hr;
        try exact I; destruct Hans as (? & ?); try destruct H0 as (? & ?);
        repeat split; lia.
    + intros [= <- <-]. eexists. split; [reflexivity | exact I].
Qed.


Lemma in_step_refl c w : in_step c w c w.
Proof. exists []. rewrite app_nil_r. unfold count. simpl. repeat split; lia. Qed.

Lemma in_step_trans c1 w1 c2 w2 c3 w3 :
  in_step c1 w1 c2 w2 -> in_step c2 w2 c3 w3 -> in_step c1 w1 c3 w3.
Proof.
  intros (e1 & Ho1 & Hs1 & Hf1) (e2 & Ho2 & Hs2 & Hf2). exists (e1 ++ e2).
  rewrite Ho2, Ho1, <- app_assoc, !count_app. repeat split; lia.
Qed.

Lemma for_each_in_step {A} (body : A -> Counts -> M Counts) :
  (forall x c w c' w', body x c w = (Ok c', w') -> in_step c w c' w') ->
  forall l c w c' w', for_each body l c w = (Ok c', w') -> in_step c w c' w'.
Proof.
  intros Hbody l. induction l as [| x l IH]; intros c w c' w'.
  - intros [= <- <-]. apply in_step_refl.
  - simpl. unfold bind. destruct (body x c w) as [[c1 | e] w1] eqn:Hx; [| discriminate].
    intros Hrest. eapply in_step_trans; [exact (Hbody _ _ _ _ _ Hx) | exact (IH _ _ _ _ Hrest)].
Qed.

(** The three ways a recording file is passed over without the downloader
    being called, and the call and its tally otherwise. *)
Lemma recording_file_body_run meeting host_folder recording_file c w :
  recording_file_body CONFIG client slugify dir_size meeting host_folder recording_file c w =
  match file_size recording_file with
  | None => (Ok c, w)
  | Some size =>
      if type_selected CONFIG recording_file then
        match extension recording_file with
        | Raise e => (Raise e, w)
        | Ok ext =>
            let '(topic, file_name) := naming CONFIG slugify meeting recording_file ext in
            match download_recording_file CONFIG client dir_size
                    (download_url recording_file) host_folder file_name size topic w with
            | (Ok downloaded, w') => (Ok (tally downloaded size c), w')
            | (Raise e, w') => (Raise e, w')
            end
        end
      else (Ok c, w)
  end.
Proof.
  unfold recording_file_body. destruct (file_size recording_file) as [size |]; [| reflexivity].
  destruct (type_selected CONFIG recording_file); [| reflexivity]. simpl.
  rewrite bind_run. unfold lift.
  destruct (extension recording_file) as [ext | e]; [| reflexivity].
  destruct (naming CONFIG slugify meeting recording_file ext) as [topic file_name].
  rewrite bind_run.
  destruct (download_recording_file _ _ _ _ _ _ _ _ w) as [[d | e] w']; reflexivity.
Qed.

Lemma recording_file_body_in_step meeting host_folder recording_file c w c' w' :
  recording_file_body CONFIG client slugify dir_size meeting host_folder recording_file c w
    = (Ok c', w') ->
  in_step c w c' w'.
Proof.
  rewrite recording_file_body_run.
  destruct (file_size recording_file) as [size |];
    [| intros [= <- <-]; apply in_step_refl].
  destruct (type_selected CONFIG recording_file);
    [| intros [= <- <-]; apply in_step_refl].
  destruct (extension recording_file) as [ext | e]; [| discriminate].
  destruct (naming CONFIG slugify meeting recording_file ext) as [topic file_name].
  destruct (download_recording_file _ _ _ _ _ _ _ _ w) as [[d | e] w1] eqn:Hcall;
    [| discriminate].
  intros [= <- <-]. apply download_recording_file_events in Hcall.
  destruct Hcall as (events & Hout & Hans). exists events. split; [exact Hout |].
  destruct c as [[fc ts] sk]. destruct d; simpl in *.
  - destruct Hans as [-> ->]. unfold skipped_count_of, file_count_of. simpl. lia.
  - destruct Hans as (-> & -> & _). unfold skipped_count_of, file_count_of. simpl. lia.
Qed.

Lemma meeting_body_in_step host_folder meeting c w c' w' :
  meeting_body CONFIG client slugify dir_size host_folder meeting c w = (Ok c', w') ->
  in_step c w c' w'.
Proof.
  unfold meeting_body. destruct (topic_selected CONFIG slugify meeting); simpl.
  - apply for_each_in_step. intros x. apply recording_file_body_in_step.
  - intros [= <- <-]. apply in_step_refl.
Qed.

(** C6 (amended).  Topic filtering includes a meeting exactly when the
    configured topic set is empty, or contains the meeting's literal topic
    string, or contains the slugified form of the meeting's topic; a meeting
    that is not included changes neither the totals nor the state.  It is
    the meeting's topic that is slugified, not the configured entries: with
    the topic filter set to the slug weekly-sync, a meeting with topic
    Weekly Sync is included and a meeting with topic Other is excluded. *)
Theorem topic_filter_literal_or_slug (meeting : Meeting) :
  (topic_selected CONFIG slugify meeting = true
   <-> TOPICS CONFIG = []
       \/ topic meeting ∈ TOPICS CONFIG
       \/ slugify (topic meeting) ∈ TOPICS CONFIG)
  /\ (topic_selected CONFIG slugify meeting = false ->
      forall host_folder c w,
        meeting_body CONFIG client slugify dir_size host_folder meeting c w = (Ok c, w))
  /\ (let weekly := Models.config ["weekly-sync"] [] false false 0 0 in
      topic_selected weekly Models.slugify (Models.meeting_of "Weekly Sync" []) = true
      /\ topic_selected weekly Models.slugify (Models.meeting_of "Other" []) = false).
Proof.
  split; [| split].
  - unfold topic_selected, Py.member.
    destruct (decide (TOPICS CONFIG = [])) as [Hnil | Hsome].
    + rewrite (bool_decide_eq_true_2 _ Hnil). simpl. tauto.
    + rewrite (bool_decide_eq_false_2 _ Hsome). simpl.
      rewrite negb_andb, !negb_involutive, orb_true_iff, !bool_decide_eq_true. tauto.
  - intros Hout host_folder c w. unfold meeting_body. rewrite Hout. reflexivity.
  - vm_compute. split; reflexivity.
Qed.

(** C8 (amended).  For every configured minimum size, a recording file whose
    size is below that many megabytes is declined by the downloader, which
    only prints the report: nothing is written to disk and no transfer is
    started.  In the loop over the files of a meeting such a file adds
    nothing to the number and the total size of the downloaded files,
    whatever becomes of it.  It adds one to the skipped count when it is
    passed to the downloader, that is when it passes the file type filter
    (and its meeting the topic filter) and has a file extension or a file
    name.  A file of a type that is filtered out is not counted at all, a
    file that passes the filter with neither an extension nor a file name
    raises the [KeyError] of line 242 before the downloader is called, and
    the files of a meeting that the topic filter excludes are not looked
    at. *)
Theorem small_file_declined
  (download_url host_folder file_name : string) (size : Z) (topic : string) (w : World) :
  size < MIN_FILE_SIZE CONFIG * 1024 * 1024 ->
  download_recording_file CONFIG client dir_size download_url host_folder file_name
    size topic w = (Ok false, logged [too_small_line CONFIG file_name] w)
  /\ (forall c, tally false size c
                = (file_count_of c, total_size_of c, skipped_count_of c + 1))
  /\ (forall meeting recording_file c,
        file_size recording_file = Some size ->
        (forall r w',
            recording_file_body CONFIG client slugify dir_size meeting host_folder
              recording_file c w = (r, w') ->
            fs w' = fs w
            /\ (exists events, out w' = out w ++ events /\ count is_transfer events = 0)
            /\ (forall c', r = Ok c' ->
                  file_count_of c' = file_count_of c /\ total_size_of c' = total_size_of c))
        /\ (type_selected CONFIG recording_file = true ->
            forall ext, extension recording_file = Ok ext ->
            recording_file_body CONFIG client slugify dir_size meeting host_folder
              recording_file c w
            = (Ok (file_count_of c, total_size_of c, skipped_count_of c + 1),
               logged [too_small_line CONFIG
                         (snd (naming CONFIG slugify meeting recording_file ext))] w))
        /\ (type_selected CONFIG recording_file = false ->
            recording_file_body CONFIG client slugify dir_size meeting host_folder
              recording_file c w = (Ok c, w))
        /\ (type_selected CONFIG recording_file = true ->
            forall e, extension recording_file = Raise e ->
            recording_file_body CONFIG client slugify dir_size meeting host_folder
              recording_file c w = (Raise e, w)))
  /\ (forall meeting c,
        topic_selected CONFIG slugify meeting = false ->
        meeting_body CONFIG client slugify dir_size host_folder meeting c w = (Ok c, w)).
Proof.
  intros Hsmall.
  assert (Hcall : forall url host name topic' w0,
    download_recording_file CONFIG client dir_size url host name size topic' w0
    = (Ok false, logged [too_small_line CONFIG name] w0)).
  { intros url host name topic' w0. rewrite download_recording_file_run.
    destruct (resolve_destination_run url host name size topic' w0)
      as [[_ Hrun] | (Hbig & _)]; [rewrite Hrun; reflexivity | lia]. }
  split; [apply Hcall |]. split; [intros [[fc ts] sk]; reflexivity |].
  split; [| intros meeting c Hsel; unfold meeting_body; rewrite Hsel; reflexivity].
  intros meeting recording_file c Hsize.
  rewrite recording_file_body_run, Hsize.
  split; [| split; [| split]].
  - intros r w'. destruct (type_selected CONFIG recording_file).
    + destruct (extension recording_file) as [ext | e].
      * destruct (naming CONFIG slugify meeting recording_file ext) as [topic' name].
        rewrite Hcall. intros [= <- <-]. split; [reflexivity |].
        split; [eexists; split; reflexivity |].
        intros c' [= <-]. destruct c as [[fc ts] sk]. split; reflexivity.
      * intros [= <- <-]. split; [reflexivity |].
        split; [exists []; rewrite app_nil_r; split; reflexivity |]. discriminate.
    + intros [= <- <-]. split; [reflexivity |].
      split; [exists []; rewrite app_nil_r; split; reflexivity |].
      intros c' [= <-]. split; reflexivity.
  - intros -> ext ->.
    destruct (naming CONFIG slugify meeting recording_file ext) as [topic' name].
    rewrite Hcall. destruct c as [[fc ts] sk]. reflexivity.
  - intros ->. reflexivity.
  - intros -> e ->. reflexivity.
Qed.

(** Why the downloader answers False. *)
Lemma declined_iff download_url host_folder file_name size topic w :
  (exists w', download_recording_file CONFIG client dir_size download_url host_folder
                file_name size topic w = (Ok false, w'))
  <-> size < MIN_FILE_SIZE CONFIG * 1024 * 1024
      \/ exists file_name' file_path w1 x,
           resolve_destination CONFIG download_url host_folder file_name size topic w
             = (Ok (Some (file_name', file_path)), w1)
           /\ fs w1 !! file_path = Some x
           /\ Z.abs (match x with File n => n | Dir => dir_size end - size) <= tolerance.
Proof.
  rewrite download_recording_file_run.
  destruct (resolve_destination_run download_url host_folder file_name size topic w)
    as [[Hsmall Hrun] | (Hbig & r0 & f & Hrun & Hsome & _)]; rewrite Hrun.
  - split; [intros _; left; exact Hsmall | intros _; eexists; reflexivity].
  - destruct r0 as [[[name path] |] | e]; [| congruence |].
    + rewrite store_run. split.
      * intros [w' Hrun']. right.
        destruct (fs _ !! path) as [x |] eqn:E.
        -- exists name, path, (logged (verbose_lines CONFIG download_url) (with_fs f w)), x.
           split; [reflexivity |]. split; [exact E |].
           simpl in Hrun'. apply Z.leb_le.
           destruct (Z.abs _ <=? tolerance); [reflexivity |].
           destruct x as [n |]; [| discriminate].
           apply fetch_events in Hrun'; [| simpl; apply lookup_delete_eq].
           destruct Hrun' as (? & _ & Hnot & _). congruence.
        -- apply fetch_events in Hrun'; [| exact E].
           destruct Hrun' as (? & _ & Hnot & _). congruence.
      * intros [Hsmall | (name' & path' & w1 & x & [= <- <- <-] & E & Hok)]; [lia |].
        rewrite E. simpl. apply Z.leb_le in Hok. rewrite Hok. eexists. reflexivity.
    + split; [intros [w' [=]] |].
      intros [Hsmall | (? & ? & ? & ? & [=] & _)]. lia.
Qed.


(** C10.  The skipped count of [download_recordings_from_meetings] counts
    exactly the recording files that were passed to the downloader and
    declined by it, and the downloader declines a file exactly when its size
    is below the minimum or when what is at its resolved destination has the
    expected size within the tolerance.  A recording file without a file
    size, a file that fails the file type filter and every file of a meeting
    that the topic filter excludes leave the totals and the state as they
    are: they are counted neither as downloaded nor as skipped.  In a run
    that returns, the skipped count is the number of reports of a declined
    file that were printed, and the file count is the number of files
    renamed into place. *)
Theorem skipped_count_is_declined_files (host_folder : string) :
  (forall meeting recording_file c w,
      file_size recording_file = None ->
      recording_file_body CONFIG client slugify dir_size meeting host_folder
        recording_file c w = (Ok c, w))
  /\ (forall meeting recording_file c w,
      type_selected CONFIG recording_file = false ->
      recording_file_body CONFIG client slugify dir_size meeting host_folder
        recording_file c w = (Ok c, w))
  /\ (forall meeting c w,
      topic_selected CONFIG slugify meeting = false ->
      meeting_body CONFIG client slugify dir_size host_folder meeting c w = (Ok c, w))
  /\ (forall meeting recording_file size ext c w,
      file_size recording_file = Some size ->
      type_selected CONFIG recording_file = true ->
      extension recording_file = Ok ext ->
      let '(topic, file_name) := naming CONFIG slugify meeting recording_file ext in
      match download_recording_file CONFIG client dir_size
              (download_url recording_file) host_folder file_name size topic w with
      | (Ok downloaded, w') =>
          recording_file_body CONFIG client slugify dir_size meeting host_folder
            recording_file c w
          = (Ok (if downloaded
                 then (file_count_of c + 1, total_size_of c + size, skipped_count_of c)
                 else (file_count_of c, total_size_of c, skipped_count_of c + 1)), w')
      | (Raise e, w') =>
          recording_file_body CONFIG client slugify dir_size meeting host_folder
            recording_file c w = (Raise e, w')
      end)
  /\ (forall download_url file_name size topic w,
      (exists w', download_recording_file CONFIG client dir_size download_url host_folder
                    file_name size topic w = (Ok false, w'))
      <-> size < MIN_FILE_SIZE CONFIG * 1024 * 1024
          \/ exists file_name' file_path w1 x,
               resolve_destination CONFIG download_url host_folder file_name size topic w
                 = (Ok (Some (file_name', file_path)), w1)
               /\ fs w1 !! file_path = Some x
               /\ Z.abs (match x with File n => n | Dir => dir_size end - size)
                  <= tolerance)
  /\ (forall meetings w file_count total_size skipped_count w',
      download_recordings_from_meetings CONFIG client slugify dir_size meetings host_folder w
        = (Ok (file_count, total_size, skipped_count), w') ->
      exists events,
        out w' = out w ++ events
        /\ skipped_count = count is_skip events
        /\ file_count = count is_rename events).
Proof.
  split; [| split; [| split; [| split; [| split]]]].
  - intros meeting rf c w H. rewrite recording_file_body_run, H. reflexivity.
  - intros meeting rf c w H. rewrite recording_file_body_run, H.
    destruct (file_size rf); reflexivity.
  - intros meeting c w H. unfold meeting_body. rewrite H. reflexivity.
  - intros meeting rf size ext c w Hsize Htype Hext.
    rewrite recording_file_body_run, Hsize, Htype, Hext.
    destruct (naming CONFIG slugify meeting rf ext) as [topic' name].
    destruct (download_recording_file _ _ _ _ _ _ _ _ w) as [[[|] | e] w'];
      destruct c as [[fc ts] sk]; reflexivity.
  - intros. apply declined_iff.
  - intros meetings w fc ts sk w' Hrun.
    unfold download_recordings_from_meetings in Hrun.
    apply (for_each_in_step _ (meeting_body_in_step host_folder)) in Hrun.
    destruct Hrun as (events & Hout & Hs & Hf). exists events.
    unfold skipped_count_of, file_count_of in *. simpl in *. repeat split; [exact Hout | lia | lia].
Qed.

End DownloaderFacts.

(** ** The log parser *)

Section SilenceFacts.
Context {F : Type}.
Variable float : string -> option F.
Variable gt : F -> F -> bool.

Local Abbreviation Segment := (CutSegment F).

Lemma paired_mono done line seg :
  paired float gt done seg -> paired float gt (done ++ [line]) seg.
Proof.
  intros (Hname & Hgt & i & j & l1 & l2 & Hij & Hi & Hj & Hs & He).
  split; [exact Hname |]. split; [exact Hgt |].
  exists i, j, l1, l2.
  split; [exact Hij |].
  split; [apply lookup_app_l_Some; exact Hi |].
  split; [apply lookup_app_l_Some; exact Hj |].
  split; assumption.
Qed.

Lemma pending_mono done line start :
  pending float done start -> pending float (done ++ [line]) start.
Proof.
  destruct start as [v |]; [| intros _; exact I].
  intros (i & l & Hi & Hs). exists i, l. split; [apply lookup_app_l_Some |]; assumption.
Qed.

Lemma lookup_last_line (done : list string) line :
  (done ++ [line]) !! length done = Some line.
Proof. rewrite lookup_app_r by lia. rewrite Nat.sub_diag. reflexivity. Qed.

(** One turn of the loop keeps the invariant. *)
Lemma parse_line_inv done line st st' :
  parse_inv float gt done st -> parse_line float gt line st = Ok st' ->
  parse_inv float gt (done ++ [line]) st'.
Proof.
  destruct st as [[segs start] end0]. intros [Hsegs Hstart].
  assert (Hsegs' : forall seg, seg ∈ segs -> paired float gt (done ++ [line]) seg)
    by (intros seg Hin; apply paired_mono, Hsegs, Hin).
  assert (Hstart' := pending_mono done line start Hstart).
  unfold parse_line.
  destruct (Py.contains "[silencedetect @" line) eqn:Htag;
    [| intros [= <-]; split; assumption].
  destruct (Py.contains "silence_start" line) eqn:Hs.
  - destruct (Py.item1 (Py.split ":" line)) as [text |] eqn:Htext; [| discriminate].
    destruct (float (Py.strip text)) as [v |] eqn:Hv; [| discriminate].
    intros [= <-]. split; [exact Hsegs' |].
    exists (length done), line. split; [apply lookup_last_line |].
    split; [exact Htag |]. split; [exact Hs |]. exists text. split; assumption.
  - destruct (Py.contains "silence_end" line) eqn:He;
      [| intros [= <-]; split; assumption].
    destruct (Py.item1 (Py.split ":" line)) as [text |] eqn:Htext; [| discriminate].
    destruct (float (Py.strip (hd EmptyString (Py.split "|" text)))) as [e |] eqn:Hv;
      [| discriminate].
    destruct start as [s |]; [| intros [= <-]; split; [exact Hsegs' | exact I]].
    destruct (gt e s) eqn:Hgt; [| intros [= <-]; split; assumption].
    intros [= <-]. split; [| exact I].
    intros seg Hin. apply elem_of_app in Hin. destruct Hin as [Hin | Hin];
      [apply Hsegs', Hin |].
    apply list_elem_of_singleton in Hin. subst seg.
    destruct Hstart as (i & l & Hi & Hl).
    split; [reflexivity |]. split; [exact Hgt |].
    exists i, (length done), l, line.
    pose proof (lookup_lt_Some _ _ _ Hi) as Hlt.
    split; [exact Hlt |].
    split; [apply lookup_app_l_Some, Hi |].
    split; [apply lookup_last_line |].
    split; [exact Hl |].
    split; [exact Htag |]. split; [exact Hs |]. split; [exact He |].
    exists text. split; assumption.
Qed.

(** A line without the tag of the silence detector changes nothing. *)
Lemma parse_line_untagged line st :
  Py.contains "[silencedetect @" line = false -> parse_line float gt line st = Ok st.
Proof.
  intros Htag. unfold parse_line. destruct st as [[segs start] end0].
  rewrite Htag. reflexivity.
Qed.

Lemma parse_lines_inv lines done st st' :
  parse_inv float gt done st -> parse_lines float gt lines st = Ok st' ->
  parse_inv float gt (done ++ lines) st'.
Proof.
  revert done st. induction lines as [| line rest IH]; intros done st Hinv.
  - intros [= <-]. rewrite app_nil_r. exact Hinv.
  - simpl. destruct (parse_line float gt line st) as [st1 | e] eqn:Hline; [| discriminate].
    intros Hrest. replace (done ++ line :: rest) with ((done ++ [line]) ++ rest)
      by (rewrite <- app_assoc; reflexivity).
    apply (IH _ st1); [| exact Hrest].
    exact (parse_line_inv done line st st1 Hinv Hline).
Qed.

End SilenceFacts.

(** C9, as the specification states it, fails: the two lines of the
    scenario as it writes them, without the tag of the silence detector, are
    not read, with or without their line ends, and give no cut segment. *)
Lemma untagged_markers_are_not_read :
  cut_segments_of Models.float_of_decimal Models.float_gt
    ["silence_start: 1.0"; "silence_end: 4.5 | silence_duration: 3.5"]
  = Ok []
  /\ cut_segments_of Models.float_of_decimal Models.float_gt
       ["silence_start: 1.0" +:+ Models.newline;
        "silence_end: 4.5 | silence_duration: 3.5" +:+ Models.newline]
     = Ok [].
Proof. vm_compute. split; reflexivity. Qed.

(** C9 (amended).  The parser reads a marker only from a line with the tag
    of the silence detector, and it emits a cut segment only when such a line
    with a silence_end marker follows such a line with a silence_start marker
    and the end is greater than the start: every cut segment of a log has the
    empty name, an end greater than its start, a start read from a tagged
    start line and an end read from a later tagged end line.  The log of two
    tagged lines that report a silence_start at 1.0 and then a silence_end at
    4.5 with its duration 3.5 gives exactly one cut segment, from 1.0 to 4.5,
    with the empty name. *)
Theorem cut_segments_are_paired {F : Type} (float : string -> option F)
  (gt : F -> F -> bool) (lines : list string) (cut_segments : list (CutSegment F)) :
  cut_segments_of float gt lines = Ok cut_segments ->
  (forall seg, seg ∈ cut_segments -> paired float gt lines seg)
  /\ cut_segments_of Models.float_of_decimal Models.float_gt Models.silence_log
     = Ok [{| start := 1.0%float; end_ := 4.5%float; name := "" |}].
Proof.
  intros Hrun. split; [| vm_compute; reflexivity].
  unfold cut_segments_of in Hrun.
  destruct (parse_lines float gt lines ([], None, None)) as [[[segs s] e] | err] eqn:Hparse;
    [| discriminate].
  injection Hrun as <-.
  apply (parse_lines_inv float gt lines [] ([], None, None)) in Hparse.
  - exact (proj1 Hparse).
  - split; [| exact I]. intros seg Hin. apply elem_of_nil in Hin. contradiction.
Qed.

(** The log of the scenario: its one cut segment pairs line 0 with line 1. *)
Lemma cut_segments_are_paired_witness :
  (forall seg,
      seg ∈ [{| start := 1.0%float; end_ := 4.5%float; name := "" |}] ->
      paired Models.float_of_decimal Models.float_gt Models.silence_log seg)
  /\ cut_segments_of Models.float_of_decimal Models.float_gt Models.silence_log
     = Ok [{| start := 1.0%float; end_ := 4.5%float; name := "" |}].
Proof.
  apply (cut_segments_are_paired Models.float_of_decimal Models.float_gt Models.silence_log).
  vm_compute. reflexivity.
Defined.

(** ** Concrete runs *)

Section Runs.
Import Models.
Local Open Scope Z_scope.


(** A first download into an empty output folder: the file ends at its
    destination with the transferred size, and nothing is left at the
    temporary path. *)
Lemma download_through_temporary_path_witness :
  let run := download_recording_file plain_config (serving_client 100) 4096
               "https://zoom.us/rec/file1" "out" "Standup.mp4" 100 "Standup" empty_world in
  fst run = Ok true
  /\ exists file_path n,
       Z.abs (n - 100) <= 0
       /\ fs (snd run) !! file_path = Some (File n)
       /\ fs (snd run) !! (file_path +:+ ".tmp") = None.
Proof.
  intros run.
  assert (Hrun : download_recording_file plain_config (serving_client 100) 4096
                   "https://zoom.us/rec/file1" "out" "Standup.mp4" 100 "Standup" empty_world
                 = (Ok true, snd run)) by (vm_compute; reflexivity).
  split; [vm_compute; reflexivity |].
  destruct (download_through_temporary_path plain_config (serving_client 100) 4096
              _ _ _ _ _ _ _ _ Hrun) as [Hdone _].
  destruct (Hdone eq_refl) as (name & path & w1 & n & before & _ & _ & Hn & _ & Hat & Htmp).
  exists path, n. repeat split; assumption.
Defined.

(** C6, as the specification states it, fails: the configured entries are
    not slugified, so with the topic filter set to Weekly Sync a meeting
    with the topic weekly-sync is excluded. *)
Lemma topic_filter_entry_is_not_slugified :
  let weekly := config ["Weekly Sync"] [] false false 0 0 in
  slugify "weekly-sync" = "weekly-sync"
  /\ topic_selected weekly slugify (meeting_of "weekly-sync" []) = false
  /\ topic_selected weekly slugify (meeting_of "Weekly Sync" []) = true
  /\ topic_selected weekly slugify (meeting_of "Other" []) = false.
Proof. vm_compute. repeat split; reflexivity. Qed.

(** A file of 100 bytes under a minimum size of 1 MB. *)
Lemma small_file_declined_witness :
  let one_mb := config [] [] false false 1 0 in
  download_recording_file one_mb (serving_client 100) 4096
    "https://zoom.us/rec/file1" "out" "Standup.mp4" 100 "Standup" empty_world
  = (Ok false, logged [too_small_line one_mb "Standup.mp4"] empty_world).
Proof.
  intros one_mb.
  apply (small_file_declined one_mb (serving_client 100) slugify 4096
           "https://zoom.us/rec/file1" "out" "Standup.mp4" 100 "Standup" empty_world).
  vm_compute. reflexivity.
Defined.

(** C8, as the specification states it, fails: with the file type filter set
    to MP4 and a minimum size of 1 MB, a chat file of 100 bytes is passed
    over before the downloader is called, and the skipped count stays 0.  An
    MP4 file of 100 bytes with neither an extension nor a name is not counted
    either: the run ends with the [KeyError] of line 242. *)
Lemma small_file_of_filtered_type_not_counted :
  let mp4_only := config [] ["MP4"] false false 1 0 in
  100 < MIN_FILE_SIZE mp4_only * 1024 * 1024
  /\ download_recordings_from_meetings mp4_only (serving_client 100) slugify 4096
       [meeting_of "Standup" [recording "file1" "CHAT" 100]] "out" empty_world
     = (Ok (0, 0, 0), empty_world)
  /\ file_size nameless_recording = Some 100
  /\ download_recordings_from_meetings mp4_only (serving_client 100) slugify 4096
       [meeting_of "Standup" [nameless_recording]] "out" empty_world
     = (Raise (KeyError "file_name"), empty_world).
Proof. vm_compute. repeat split; reflexivity. Qed.


(** C3 at a failing input.  With the files grouped by topic, the probing
    loop tests the candidate names in the host folder while the files are
    stored in the topic folder.  The second file of the name Standup.mp4 gets
    the name Standup_1.mp4; the third gets Standup_1.mp4 again, because
    out/Standup_1.mp4 is free, although out/Standup/Standup_1.mp4 is taken:
    the third file is reported as existing and is not stored.  Without the
    grouping the three files are stored under three names. *)
Lemma probe_tests_host_folder_not_destination :
  let w2 := snd (standup_run by_topic_config 2) in
  fst (standup_run by_topic_config 2) = Ok (2, 200, 0)
  /\ map fst (listing w2)
     = ["out/Standup/Standup_1.mp4"; "out/Standup/Standup.mp4"; "out/Standup"; "out"]
  /\ fst (resolve_destination by_topic_config "https://zoom.us/rec/file3" "out"
            "Standup.mp4" 100 "Standup" w2)
     = Ok (Some ("Standup_1.mp4", "out/Standup/Standup_1.mp4"))
  /\ fst (standup_run by_topic_config 3) = Ok (2, 200, 1)
  /\ last (out (snd (standup_run by_topic_config 3)))
     = Some (Printed "Skipping existing file: Standup_1.mp4")
  /\ fst (standup_run plain_config 3) = Ok (3, 300, 0)
  /\ map fst (listing (snd (standup_run plain_config 3)))
     = ["out/Standup_1.mp4"; "out/Standup_2.mp4"; "out/Standup.mp4"; "out"].
Proof. vm_compute. repeat split; reflexivity. Qed.

(** The flat layout, one file stored: the same file again resolves to the
    free name Standup_1.mp4. *)
Lemma resolve_destination_flat_witness :
  let w := snd (standup_run plain_config 1) in
  fst (resolve_destination plain_config "https://zoom.us/rec/file1" "out" "Standup.mp4"
         100 "Standup" w)
  = Ok (Some ("Standup_1.mp4", "out/Standup_1.mp4"))
  /\ fs (snd (resolve_destination plain_config "https://zoom.us/rec/file1" "out"
                "Standup.mp4" 100 "Standup" w)) !! "out/Standup_1.mp4" = None.
Proof.
  intros w. split; [vm_compute; reflexivity |].
  assert (Hres : resolve_destination plain_config "https://zoom.us/rec/file1" "out"
                   "Standup.mp4" 100 "Standup" w
                 = (Ok (Some ("Standup_1.mp4", "out/Standup_1.mp4")),
                    snd (resolve_destination plain_config "https://zoom.us/rec/file1" "out"
                           "Standup.mp4" 100 "Standup" w)))
    by (vm_compute; reflexivity).
  exact (proj1 (proj2 (resolve_destination_flat plain_config _ _ _ _ _ _ _ _ _
                         eq_refl eq_refl Hres))).
Defined.


End Runs.

(** * More properties *)

(** ** The range of [main] and the queries of [get_meeting_uuids] *)

Section RangeFacts.
Local Open Scope Z_scope.

Lemma scan_windows_count (s e : Dates.date) ws :
  Dates.scan_windows s e = Some ws ->
  Z.of_nat (length ws) = if decide (s <= e) then (e - s) / 30 + 1 else 0.
Proof.
  revert ws. pattern s, e. apply scan_windows_ind; clear s e.
  - intros s e H ws Hws. rewrite (scan_windows_done _ _ _ H Hws).
    destruct (decide (s <= e)); [lia | reflexivity].
  - intros s e Hle IH ws Hws.
    destruct (scan_windows_step _ _ _ Hle Hws) as (rest & -> & Hrest).
    destruct (decide (s <= e)); [| lia].
    simpl length. rewrite Nat2Z.inj_succ, (IH _ Hrest). unfold Dates.delta.
    destruct (decide (Z.min (s + 29) e + 1 <= e)) as [Hmore | Hlast].
    + replace (Z.min (s + 29) e) with (s + 29) by lia.
      replace (e - s) with ((e - (s + 29 + 1)) + 1 * 30) by lia.
      rewrite Z.div_add by lia. lia.
    + assert (0 <= e - s < 30) by lia.
      rewrite (Z.div_small (e - s) 30) by lia. lia.
Qed.

(** X2.  A range from [start_date] to [end_date] that starts on 1000-01-01
    at the earliest and ends on 9999-12-02 at the latest is queried in
    [(end_date - start_date) / 30 + 1] windows, the listing of the user from
    the first to the last day of each, when the start is not after the end.
    The total the progress bar is given (line 180) is this number only when
    the difference of the two dates is not a multiple of 30 days; when it is,
    as for a range of one day, the total is one less than the number of
    queries.  When the start is after the end nothing is queried and the
    result is empty.  A range that ends on 9999-12-31 always ends in an
    [OverflowError]. *)
Theorem windows_count_and_estimate (client : zoom_client) (user_email : string)
  (start_date end_date : Dates.date) (w : World) :
  let listing (window : Dates.date * Dates.date) :=
    paginate client
      ("https://api.zoom.us/v2/users/" +:+ user_email +:+ "/recordings?from="
       +:+ Dates.date_to_str (fst window) +:+ "&to=" +:+ Dates.date_to_str (snd window)) in
  let chunk window :=
    rev (concat (map (map (fun m : string * option string =>
                             (fst m, default "Unknown Topic" (snd m))))
                     (listing window))) in
  (Dates.ymd2ord 1000 1 1 <= start_date -> start_date <= end_date ->
   end_date + 29 <= Dates.max_ordinal ->
   exists ws,
     get_meeting_uuids client user_email start_date end_date w
     = (Ok (concat (map chunk ws)), logged [Printed "Scanning for recorded meetings:"] w)
     /\ (forall window, In window ws ->
           start_date <= fst window /\ fst window <= snd window /\ snd window <= end_date)
     /\ Z.of_nat (length ws) = (end_date - start_date) / 30 + 1
     /\ Z.of_nat (length ws)
        = estimated_iterations start_date end_date
          + (if (end_date - start_date) mod 30 =? 0 then 1 else 0))
  /\ (end_date < start_date ->
      get_meeting_uuids client user_email start_date end_date w
      = (Ok [], logged [Printed "Scanning for recorded meetings:"] w))
  /\ (start_date <= end_date -> Dates.max_ordinal <= end_date ->
      get_meeting_uuids client user_email start_date end_date w
      = (Raise OverflowError, logged [Printed "Scanning for recorded meetings:"] w)).
Proof.
  intros listing chunk. split; [| split].
  - rewrite year_1000. intros Hstart Hle Hend.
    assert (Hday : 1 <= start_date) by lia.
    destruct (scan_windows_returns start_date end_date Hday Hend) as [ws Hws].
    pose proof (scan_windows_count _ _ _ Hws) as Hcount.
    destruct (decide (start_date <= end_date)); [| lia].
    exists ws. split; [| split; [| split]].
    + rewrite get_meeting_uuids_run, Hws. reflexivity.
    + intros window Hin. pose proof (scan_windows_bounds _ _ _ _ Hws Hin). lia.
    + exact Hcount.
    + rewrite Hcount. unfold estimated_iterations.
      destruct (Z.eqb_spec ((end_date - start_date) mod 30) 0) as [Hz | Hnz].
      * pose proof (Z.div_mod (end_date - start_date) 30 ltac:(lia)) as Hdm.
        rewrite Hz in Hdm.
        replace (- (end_date - start_date)) with ((- ((end_date - start_date) / 30)) * 30)
          by lia.
        rewrite Z.div_mul by lia. lia.
      * pose proof (Z.div_mod (end_date - start_date) 30 ltac:(lia)) as Hdm.
        pose proof (Z.mod_pos_bound (end_date - start_date) 30 ltac:(lia)) as Hb.
        assert (Hq : (- (end_date - start_date)) / 30 = - ((end_date - start_date) / 30) - 1).
        { symmetry. apply (Z.div_unique _ 30 _ (30 - (end_date - start_date) mod 30)); lia. }
        rewrite Hq. lia.
  - intros Hlt. rewrite get_meeting_uuids_run, scan_windows_empty by lia. reflexivity.
  - intros Hle Hmax. rewrite get_meeting_uuids_run, scan_windows_overflow by assumption.
    reflexivity.
Qed.

(** January 2024, 31 days: two queries where the progress bar is told one;
    and December 9999, where the second window cannot be reached. *)
Lemma windows_count_and_estimate_witness :
  let start_date := Dates.ymd2ord 2024 1 1 in
  let end_date := Dates.ymd2ord 2024 1 31 in
  (exists ws : list (Dates.date * Dates.date),
      get_meeting_uuids standup_client "ann@example.org" start_date end_date
        Models.empty_world
      = (Ok [("uuid1", "Standup"); ("uuid1", "Standup")],
         logged [Printed "Scanning for recorded meetings:"] Models.empty_world)
      /\ length ws = 2%nat
      /\ estimated_iterations start_date end_date = 1)
  /\ get_meeting_uuids standup_client "ann@example.org"
       (Dates.ymd2ord 9999 12 1) (Dates.ymd2ord 9999 12 31) Models.empty_world
     = (Raise OverflowError,
        logged [Printed "Scanning for recorded meetings:"] Models.empty_world).
Proof.
  intros start_date end_date.
  assert (Hfirst : Dates.ymd2ord 1000 1 1 <= start_date) by (vm_compute; discriminate).
  assert (Hle : start_date <= end_date) by (vm_compute; discriminate).
  assert (Hlast : end_date + 29 <= Dates.max_ordinal) by (vm_compute; discriminate).
  assert (Hle' : Dates.ymd2ord 9999 12 1 <= Dates.ymd2ord 9999 12 31)
    by (vm_compute; discriminate).
  assert (Hmax : Dates.max_ordinal <= Dates.ymd2ord 9999 12 31)
    by (vm_compute; discriminate).
  split.
  - destruct (proj1 (windows_count_and_estimate standup_client "ann@example.org"
                       start_date end_date Models.empty_world) Hfirst Hle Hlast)
      as (ws & Hrun & _ & Hcount & _).
    exists ws. split; [| split].
    + rewrite Hrun. f_equal. f_equal.
      destruct ws as [| w1 [| w2 [| w3 ws]]]; try (vm_compute in Hcount; discriminate).
      reflexivity.
    + apply Nat2Z.inj. rewrite Hcount. reflexivity.
    + reflexivity.
  - exact (proj2 (proj2 (windows_count_and_estimate standup_client "ann@example.org"
                           (Dates.ymd2ord 9999 12 1) (Dates.ymd2ord 9999 12 31)
                           Models.empty_world)) Hle' Hmax).
Defined.

Lemma days_in_month_bounds (year month : Z) :
  1 <= month <= 12 -> 28 <= Dates.days_in_month year month <= 31.
Proof.
  intros H. unfold Dates.days_in_month.
  assert (month = 1 \/ month = 2 \/ month = 3 \/ month = 4 \/ month = 5 \/ month = 6
          \/ month = 7 \/ month = 8 \/ month = 9 \/ month = 10 \/ month = 11 \/ month = 12)
    as Hm by lia.
  destruct Hm as [-> | [-> | [-> | [-> | [-> | [-> | [-> | [-> | [-> | [-> | [-> | ->]]]]]]]]]]];
    simpl; try lia.
  destruct (Dates.is_leap year); simpl; lia.
Qed.

Lemma days_before_next_year (year : Z) :
  Dates.days_before_year (year + 1) = Dates.days_before_year year + 365 + (if Dates.is_leap year then 1 else 0).
Proof.
  unfold Dates.days_before_year, Dates.is_leap.
  replace (year + 1 - 1) with year by lia.
  destruct (Z.eqb_spec (year mod 4) 0), (Z.eqb_spec (year mod 100) 0),
    (Z.eqb_spec (year mod 400) 0); cbn [negb orb andb];
    Z.div_mod_to_equations; lia.
Qed.

(** The day after the last day of a month is the first day of the next. *)
Lemma last_day_of_month_succ (year month : Z) :
  1 <= month <= 12 ->
  Dates.ymd2ord year month (Dates.days_in_month year month) + 1
  = Dates.ymd2ord (fst (next_month year month)) (snd (next_month year month)) 1.
Proof.
  intros H. unfold next_month, Dates.ymd2ord.
  assert (month = 1 \/ month = 2 \/ month = 3 \/ month = 4 \/ month = 5 \/ month = 6
          \/ month = 7 \/ month = 8 \/ month = 9 \/ month = 10 \/ month = 11 \/ month = 12)
    as Hm by lia.
  destruct Hm as [-> | [-> | [-> | [-> | [-> | [-> | [-> | [-> | [-> | [-> | [-> | ->]]]]]]]]]]];
    simpl fst; simpl snd; unfold Dates.days_in_month, Dates.days_before_month; simpl;
    rewrite ?days_before_next_year; destruct (Dates.is_leap year); simpl; lia.
Qed.

Lemma days_before_year_nonneg (year : Z) : 1 <= year -> 0 <= Dates.days_before_year year.
Proof. intros H. unfold Dates.days_before_year. Z.div_mod_to_equations. lia. Qed.

(** X3.  When neither a start day nor an end day is configured (and the
    exact date mode is off), the range [main] asks for consists of whole
    months: it starts on the first day of the start month and ends on the
    last day of the end month, the day before the first day of the month
    that follows, leap years included.  [main] then hands on this range with
    the end date moved by the Friday rule, when the end date with two more
    days is a day of [datetime]; when it is not, that is for a range that
    ends in December 9999, a start on a Friday with the flag enabled ends
    [main] with an [OverflowError]. *)
Theorem requested_range_whole_months (CONFIG : Config) (D : DateSettings) (year month day : Z) :
  USE_EXACT_DATE D = false ->
  unset (START_DAY D) -> unset (END_DAY D) ->
  1 <= START_YEAR D <= 9999 -> 1 <= START_MONTH D <= 12 ->
  1 <= END_YEAR D <= 9999 -> 1 <= END_MONTH D <= 12 ->
  exists last_day,
    let first_day := Dates.ymd2ord (START_YEAR D) (START_MONTH D) 1 in
    let friday := CHECK_FRIDAY_WEEKENDS CONFIG && (Dates.weekday first_day =? 4) in
    requested_range D year month day = Ok (first_day, last_day)
    /\ last_day = Dates.ymd2ord (END_YEAR D) (END_MONTH D)
                    (Dates.days_in_month (END_YEAR D) (END_MONTH D))
    /\ last_day + 1
       = Dates.ymd2ord (fst (next_month (END_YEAR D) (END_MONTH D)))
                       (snd (next_month (END_YEAR D) (END_MONTH D))) 1
    /\ (last_day + 2 <= Dates.max_ordinal ->
        main_range CONFIG D year month day
        = Ok (first_day, if friday then last_day + 2 else last_day))
    /\ (Dates.max_ordinal < last_day + 2 ->
        main_range CONFIG D year month day
        = if friday then Raise OverflowError else Ok (first_day, last_day)).
Proof.
  intros Hexact Hstart Hend Hsy Hsm Hey Hem.
  pose proof (days_in_month_bounds (START_YEAR D) (START_MONTH D) Hsm) as Hds.
  pose proof (days_in_month_bounds (END_YEAR D) (END_MONTH D) Hem) as Hde.
  assert (Hfrom : datetime (START_YEAR D) (START_MONTH D) (day_or (START_DAY D) 1)
                  = Ok (Dates.ymd2ord (START_YEAR D) (START_MONTH D) 1)).
  { assert (Hday : day_or (START_DAY D) 1 = 1) by (destruct Hstart as [-> | ->]; reflexivity).
    rewrite Hday. unfold datetime.
    rewrite !(proj2 (Z.leb_le _ _)) by lia. reflexivity. }
  assert (Hdays : match END_DAY D with
                  | Some d => if d =? 0 then monthrange_days (END_YEAR D) (END_MONTH D)
                              else Ok d
                  | None => monthrange_days (END_YEAR D) (END_MONTH D)
                  end = Ok (Dates.days_in_month (END_YEAR D) (END_MONTH D))).
  { unfold monthrange_days. destruct Hend as [-> | ->]; simpl;
      rewrite !(proj2 (Z.leb_le _ _)) by lia; reflexivity. }
  assert (Hto : datetime (END_YEAR D) (END_MONTH D)
                  (Dates.days_in_month (END_YEAR D) (END_MONTH D))
                = Ok (Dates.ymd2ord (END_YEAR D) (END_MONTH D)
                        (Dates.days_in_month (END_YEAR D) (END_MONTH D)))).
  { unfold datetime. rewrite !(proj2 (Z.leb_le _ _)) by lia. reflexivity. }
  assert (Hrange : requested_range D year month day
                   = Ok (Dates.ymd2ord (START_YEAR D) (START_MONTH D) 1,
                         Dates.ymd2ord (END_YEAR D) (END_MONTH D)
                           (Dates.days_in_month (END_YEAR D) (END_MONTH D)))).
  { unfold requested_range. rewrite Hexact, Hfrom, Hdays, Hto. reflexivity. }
  set (last_day := Dates.ymd2ord (END_YEAR D) (END_MONTH D)
                     (Dates.days_in_month (END_YEAR D) (END_MONTH D))) in *.
  assert (Hpos : 1 <= last_day).
  { unfold last_day, Dates.ymd2ord.
    pose proof (days_before_year_nonneg (END_YEAR D) ltac:(lia)).
    assert (0 <= Dates.days_before_month (END_YEAR D) (END_MONTH D)); [| lia].
    unfold Dates.days_before_month.
    assert (Hm : END_MONTH D = 1 \/ END_MONTH D = 2 \/ END_MONTH D = 3 \/ END_MONTH D = 4
                 \/ END_MONTH D = 5 \/ END_MONTH D = 6 \/ END_MONTH D = 7 \/ END_MONTH D = 8
                 \/ END_MONTH D = 9 \/ END_MONTH D = 10 \/ END_MONTH D = 11
                 \/ END_MONTH D = 12) by lia.
    destruct Hm as [-> | [-> | [-> | [-> | [-> | [-> | [-> | [-> | [-> | [-> | [-> | ->]]]]]]]]]]];
      simpl; destruct (Dates.is_leap (END_YEAR D)); simpl; lia. }
  exists last_day. cbv zeta.
  split; [exact Hrange |]. split; [reflexivity |].
  split; [apply last_day_of_month_succ; exact Hem |].
  unfold main_range. rewrite Hrange. unfold Dates.main_to_date, Dates.add_days, Dates.in_range.
  split; intros Hbound;
    destruct (CHECK_FRIDAY_WEEKENDS CONFIG && (Dates.weekday _ =? 4)); try reflexivity.
  - rewrite (proj2 (Z.leb_le 1 (last_day + 2))), (proj2 (Z.leb_le (last_day + 2) _)) by lia.
    reflexivity.
  - rewrite (proj2 (Z.leb_gt (last_day + 2) Dates.max_ordinal)) by lia.
    rewrite andb_false_r. reflexivity.
Qed.

(** March 2024, which starts on a Friday: from 2024-03-01 to 2024-03-31, the
    day before 2024-04-01, handed on as 2024-03-01 to 2024-04-02. *)
Lemma requested_range_whole_months_witness :
  exists last_day,
    requested_range (month_settings 2024 3 2024 3) 0 0 0
    = Ok (Dates.ymd2ord 2024 3 1, last_day)
    /\ Dates.date_to_str last_day = "2024-03-31"
    /\ last_day + 1 = Dates.ymd2ord 2024 4 1
    /\ main_range Models.plain_config (month_settings 2024 3 2024 3) 0 0 0
       = Ok (Dates.ymd2ord 2024 3 1, last_day + 2).
Proof.
  destruct (requested_range_whole_months Models.plain_config (month_settings 2024 3 2024 3)
              0 0 0 eq_refl (or_introl eq_refl) (or_intror eq_refl))
    as (last_day & Hrange & Hlast & Hnext & Hmain & _); simpl; try lia.
  exists last_day. split; [exact Hrange |].
  split; [rewrite Hlast; vm_compute; reflexivity |]. split; [exact Hnext |].
  rewrite Hmain; [reflexivity |]. rewrite Hlast. vm_compute. discriminate.
Defined.

End RangeFacts.

(** ** The meeting fetcher, once more *)

Section FetcherAccounts.
Variable client : zoom_client.
Variable double_encode : string -> string.

Lemma until_fatal_lengths (os : list outcome) :
  let '(before, fatal) := until_fatal os in
  (length (fetched before) + length (reported before) = length before)%nat
  /\ (length before <= length os)%nat
  /\ (fatal = None -> length before = length os).
Proof.
  induction os as [| o rest IH]; simpl.
  - repeat split; lia.
  - destruct (until_fatal rest) as [before fatal].
    destruct IH as (Hsum & Hle & Hall).
    destruct o as [m | item | e]; simpl; repeat split; try lia;
      try (intros Hnone; rewrite (Hall Hnone); reflexivity); try discriminate.
Qed.

(** X4.  [get_meetings] prints one line, its heading, when there is a
    reference to fetch, and nothing when there is none; it leaves the file
    system alone; and the skipped-meetings list only grows at its end, also
    when the enumeration is aborted by an error.  When it returns, every
    reference is accounted for exactly once: the number of records returned
    and the number of entries added to the list add up to the number of
    references. *)
Theorem get_meetings_accounts_for_every_reference
  (meeting_data : list (string * string)) (w w' : World) (r : result (list Meeting)) :
  get_meetings client double_encode meeting_data w = (r, w') ->
  fs w' = fs w
  /\ out w' = out w ++ match meeting_data with
                       | [] => []
                       | _ :: _ => [Printed "Scanning for recordings:"]
                       end
  /\ exists items,
       SKIPPED_MEETINGS w' = SKIPPED_MEETINGS w ++ items
       /\ (length items <= length meeting_data)%nat
       /\ forall meetings, r = Ok meetings ->
            (length meetings + length items = length meeting_data)%nat.
Proof.
  rewrite get_meetings_run, get_meetings_loop.
  pose proof (until_fatal_lengths (map (outcome_of client double_encode) meeting_data)) as H.
  destruct (until_fatal _) as [before fatal]. destruct H as (Hsum & Hle & Hall).
  rewrite length_map in Hle, Hall.
  intros [= <- <-]. cbn [fs out SKIPPED_MEETINGS report].
  split; [destruct meeting_data; reflexivity |].
  split; [destruct meeting_data; [symmetry; apply app_nil_r | reflexivity] |].
  exists (reported before). split; [destruct meeting_data; reflexivity |]. split; [lia |].
  intros meetings Hr. destruct fatal as [e |]; [discriminate |].
  injection Hr as <-. rewrite <- (Hall eq_refl). lia.
Qed.

(** What a run of [get_meetings] adds to the state, whatever its outcome. *)
Lemma get_meetings_loop_frame (meeting_data : list (string * string)) w r w' :
  get_meetings client double_encode meeting_data w = (r, w') ->
  fs w' = fs w
  /\ (exists lines,
        out w' = out w ++ lines
        /\ count is_skip lines = 0%Z /\ count is_transfer lines = 0%Z
        /\ count is_rename lines = 0%Z /\ waited_total lines = 0%Z)
  /\ exists items, SKIPPED_MEETINGS w' = SKIPPED_MEETINGS w ++ items.
Proof.
  rewrite get_meetings_run, get_meetings_loop.
  destruct (until_fatal _) as [before fatal]. intros [= <- <-].
  cbn [fs out SKIPPED_MEETINGS report].
  split; [destruct meeting_data; reflexivity |]. split.
  - destruct meeting_data.
    + exists []. rewrite app_nil_r. repeat split; reflexivity.
    + eexists. split; [reflexivity |]. repeat split; reflexivity.
  - eexists. destruct meeting_data; reflexivity.
Qed.

End FetcherAccounts.

(** Two references, both still processing: the heading is printed, and the
    entries added are at most two, after the ones that were there. *)
Lemma get_meetings_accounts_for_every_reference_witness :
  out (snd (get_meetings (Models.failing_client "code 3301") Models.double_encode
              [("uuid1", "Standup"); ("uuid2", "Review")] Models.empty_world))
  = out Models.empty_world ++ [Printed "Scanning for recordings:"]
  /\ exists items,
       SKIPPED_MEETINGS
         (snd (get_meetings (Models.failing_client "code 3301") Models.double_encode
                 [("uuid1", "Standup"); ("uuid2", "Review")] Models.empty_world))
       = SKIPPED_MEETINGS Models.empty_world ++ items
       /\ (length items <= 2)%nat.
Proof.
  destruct (get_meetings_accounts_for_every_reference
              (Models.failing_client "code 3301") Models.double_encode
              [("uuid1", "Standup"); ("uuid2", "Review")] Models.empty_world
              _ _ (surjective_pairing _))
    as (_ & Hout & items & Hitems & Hlen & _).
  split; [exact Hout |]. exists items. split; [exact Hitems | exact Hlen].
Defined.

(** ** The downloader, once more *)

Section DownloaderAccounts.
Local Open Scope Z_scope.
Variable CONFIG : Config.
Variable client : zoom_client.
Variable slugify : string -> string.
Variable dir_size : Z.

Local Abbreviation tolerance' := (FILE_SIZE_MISMATCH_TOLERANCE CONFIG).
Local Abbreviation signed' url := (url +:+ "?access_token=" +:+ access_token client).

Lemma waited_total_app (l1 l2 : list event) :
  waited_total (l1 ++ l2) = waited_total l1 + waited_total l2.
Proof.
  induction l1 as [| e l1 IH]; simpl; [lia |].
  destruct e; rewrite ?IH; lia.
Qed.

Lemma fetch_settled download_url file_name file_path file_size w r w' :
  fs w !! file_path = None ->
  fetch CONFIG client download_url file_name file_path file_size w = (r, w') ->
  exists events,
    out w' = out w ++ events /\ SKIPPED_MEETINGS w' = SKIPPED_MEETINGS w
    /\ r <> Ok false /\ count is_skip events = 0
    /\ (r = Ok true ->
        count is_transfer events = 1 /\ count is_rename events = 1
        /\ waited_total events = file_size).
Proof.
  intros Hfree. rewrite fetch_run by exact Hfree. simpl.
  set (tmp := file_path +:+ ".tmp").
  assert (Hfail : forall e f,
    (Raise e, with_fs f (logged [Printed ("Downloading: " +:+ file_name); Waited file_size;
                                 Transfer (signed' download_url) tmp] w)) = (r, w') ->
    exists events,
      out w' = out w ++ events /\ SKIPPED_MEETINGS w' = SKIPPED_MEETINGS w
      /\ r <> Ok false /\ count is_skip events = 0
      /\ (r = Ok true ->
          count is_transfer events = 1 /\ count is_rename events = 1
          /\ waited_total events = file_size)).
  { intros e f [= <- <-]. eexists. split; [reflexivity |]. split; [reflexivity |].
    split; [discriminate |]. split; [reflexivity | discriminate]. }
  assert (Hmain :
    match stream client (signed' download_url) with
    | Complete n =>
        if Z.abs (n - file_size) <=? tolerance'
        then (Ok true,
              logged [Renamed tmp file_path]
                (with_fs (<[file_path := File n]> (delete tmp (<[tmp := File n]> (fs w))))
                   (logged [Printed ("Downloading: " +:+ file_name); Waited file_size;
                            Transfer (signed' download_url) tmp] w)))
        else (Raise (Exception "size mismatch"),
              with_fs (<[tmp := File n]> (fs w))
                (logged [Printed ("Downloading: " +:+ file_name); Waited file_size;
                         Transfer (signed' download_url) tmp] w))
    | Broken n =>
        (Raise (Exception "transfer failed"),
         with_fs (<[tmp := File n]> (fs w))
           (logged [Printed ("Downloading: " +:+ file_name); Waited file_size;
                    Transfer (signed' download_url) tmp] w))
    end = (r, w') ->
    exists events,
      out w' = out w ++ events /\ SKIPPED_MEETINGS w' = SKIPPED_MEETINGS w
      /\ r <> Ok false /\ count is_skip events = 0
      /\ (r = Ok true ->
          count is_transfer events = 1 /\ count is_rename events = 1
          /\ waited_total events = file_size)).
  { destruct (stream client _) as [n | n]; [| apply Hfail].
    destruct (Z.abs (n - file_size) <=? tolerance'); [| apply Hfail].
    intros [= <- <-]. eexists. simpl. rewrite <- app_assoc.
    split; [reflexivity |]. split; [reflexivity |]. split; [discriminate |].
    split; [reflexivity |]. intros _. repeat split; simpl; lia. }
  destruct (fs w !! tmp) as [[k |] |]; try exact Hmain.
  intros H. apply (Hfail (OSError tmp) (fs w)). rewrite with_fs_logged, with_fs_same.
  exact H.
Qed.

Lemma store_settled download_url file_name file_path file_size w r w' :
  store CONFIG client dir_size download_url file_name file_path file_size w = (r, w') ->
  exists events,
    out w' = out w ++ events /\ SKIPPED_MEETINGS w' = SKIPPED_MEETINGS w
    /\ settled r file_size events.
Proof.
  rewrite store_run. destruct (fs w !! file_path) as [[n0 |] |] eqn:E; simpl.
  - destruct (Z.abs (n0 - file_size) <=? tolerance').
    + intros [= <- <-]. eexists. split; [reflexivity |]. split; [reflexivity |].
      repeat split; reflexivity.
    + intros Hfetch. apply fetch_settled in Hfetch; [| simpl; apply lookup_delete_eq].
      destruct Hfetch as (events & Hout & Hsk & Hnot & Hskip & Hdone).
      exists ([Printed ("Deleting corrupt file: " +:+ file_name); Removed file_path]
              ++ events).
      split; [rewrite Hout; simpl; rewrite <- app_assoc; reflexivity |].
      split; [exact Hsk |].
      destruct r as [[|] | e]; [| congruence | exact I].
      destruct (Hdone eq_refl) as (Ht & Hr & Hw). unfold settled.
      rewrite !count_app, waited_total_app, Ht, Hr, Hskip, Hw. repeat split; reflexivity.
  - destruct (Z.abs (dir_size - file_size) <=? tolerance'); intros [= <- <-].
    + eexists. split; [reflexivity |]. split; [reflexivity |]. repeat split; reflexivity.
    + eexists. split; [reflexivity |]. split; [reflexivity | exact I].
  - intros Hfetch. apply fetch_settled in Hfetch; [| exact E].
    destruct Hfetch as (events & Hout & Hsk & Hnot & Hskip & Hdone).
    exists events. split; [exact Hout |]. split; [exact Hsk |].
    destruct r as [[|] | e]; [| congruence | exact I].
    destruct (Hdone eq_refl) as (Ht & Hr & Hw). repeat split; assumption.
Qed.

Lemma download_recording_file_settled download_url host_folder file_name size topic w r w' :
  download_recording_file CONFIG client dir_size download_url host_folder file_name
    size topic w = (r, w') ->
  exists events,
    out w' = out w ++ events /\ SKIPPED_MEETINGS w' = SKIPPED_MEETINGS w
    /\ settled r size events.
Proof.
  rewrite download_recording_file_run.
  destruct (resolve_destination_run CONFIG download_url host_folder file_name size topic w)
    as [[_ Hrun] | (_ & r0 & f & Hrun & Hsome & _)]; rewrite Hrun.
  - intros [= <- <-]. eexists. split; [reflexivity |]. split; [reflexivity |].
    repeat split; reflexivity.
  - destruct (count_verbose_lines CONFIG download_url) as (Hs & Ht & Hr).
    assert (Hw : waited_total (verbose_lines CONFIG download_url) = 0)
      by (unfold verbose_lines; destruct (VERBOSE_OUTPUT CONFIG); reflexivity).
    destruct r0 as [[[name path] |] | e]; [| congruence |].
    + intros Hstore. apply store_settled in Hstore.
      destruct Hstore as (events & Hout & Hsk & Hans).
      exists (verbose_lines CONFIG download_url ++ events).
      split; [rewrite Hout; simpl; rewrite <- app_assoc; reflexivity |].
      split; [exact Hsk |].
      destruct r as [[|] | e]; simpl in *; [| | exact I];
        rewrite !count_app, waited_total_app, Hs, Ht, Hr, Hw;
        destruct Hans as (-> & -> & -> & ->); repeat split; lia.
    + intros [= <- <-]. eexists. split; [reflexivity |]. split; [reflexivity | exact I].
Qed.

Lemma accounted_refl c w : accounted c w c w.
Proof.
  exists [], []. rewrite !app_nil_r. unfold count. simpl. repeat split; lia.
Qed.

Lemma accounted_trans c1 w1 c2 w2 c3 w3 :
  accounted c1 w1 c2 w2 -> accounted c2 w2 c3 w3 -> accounted c1 w1 c3 w3.
Proof.
  intros (e1 & i1 & Ho1 & Hk1 & Hf1 & Ht1 & Hs1 & Hz1)
         (e2 & i2 & Ho2 & Hk2 & Hf2 & Ht2 & Hs2 & Hz2).
  exists (e1 ++ e2), (i1 ++ i2).
  rewrite Ho2, Ho1, Hk2, Hk1, <- !app_assoc, !count_app, waited_total_app.
  repeat split; lia.
Qed.

Lemma for_each_accounted {A} (body : A -> Counts -> M Counts) :
  (forall x c w c' w', body x c w = (Ok c', w') -> accounted c w c' w') ->
  forall l c w c' w', for_each body l c w = (Ok c', w') -> accounted c w c' w'.
Proof.
  intros Hbody l. induction l as [| x l IH]; intros c w c' w'.
  - intros [= <- <-]. apply accounted_refl.
  - simpl. unfold bind. destruct (body x c w) as [[c1 | e] w1] eqn:Hx; [| discriminate].
    intros Hrest.
    eapply accounted_trans; [exact (Hbody _ _ _ _ _ Hx) | exact (IH _ _ _ _ Hrest)].
Qed.

Lemma recording_file_body_accounted meeting host_folder recording_file c w c' w' :
  recording_file_body CONFIG client slugify dir_size meeting host_folder recording_file c w
    = (Ok c', w') ->
  accounted c w c' w'.
Proof.
  rewrite recording_file_body_run.
  destruct (file_size recording_file) as [size |];
    [| intros [= <- <-]; apply accounted_refl].
  destruct (type_selected CONFIG recording_file);
    [| intros [= <- <-]; apply accounted_refl].
  destruct (extension recording_file) as [ext | e]; [| discriminate].
  destruct (naming CONFIG slugify meeting recording_file ext) as [topic file_name].
  destruct (download_recording_file _ _ _ _ _ _ _ _ w) as [[d | e] w1] eqn:Hcall;
    [| discriminate].
  intros [= <- <-]. apply download_recording_file_settled in Hcall.
  destruct Hcall as (events & Hout & Hsk & Hans). exists events, [].
  rewrite app_nil_r. split; [exact Hout |]. split; [exact Hsk |].
  destruct c as [[fc ts] sk]. unfold file_count_of, total_size_of, skipped_count_of.
  destruct d; simpl in *; destruct Hans as (-> & -> & -> & ->); repeat split; lia.
Qed.

Lemma download_recordings_from_meetings_accounted meetings host_folder w c' w' :
  download_recordings_from_meetings CONFIG client slugify dir_size meetings host_folder w
    = (Ok c', w') ->
  accounted (0, 0, 0) w c' w'.
Proof.
  apply for_each_accounted. intros meeting c w0 c0 w0'.
  unfold meeting_body. destruct (topic_selected CONFIG slugify meeting); simpl.
  - apply for_each_accounted. intros x. apply recording_file_body_accounted.
  - intros [= <- <-]. apply accounted_refl.
Qed.

(** X5.  In a run of [download_recordings] that returns, the three totals
    account for everything the run did, over all users: the file count is
    the number of files renamed into place and also the number of transfers
    started (no transfer is left unfinished, since a failed one ends the run),
    the total size is the sum of the sizes the run waited disk space for, one
    per transfer, and the skipped count is the number of reports of a
    declined file that were printed.  The skipped-meetings list only grows
    at its end. *)
Theorem download_recordings_accounts (double_encode : string -> string)
  (users : list (string * string)) (from_date to_date : Dates.date)
  (w w' : World) (file_count total_size skipped_count : Z) :
  download_recordings CONFIG client slugify dir_size double_encode users from_date to_date w
    = (Ok (file_count, total_size, skipped_count), w') ->
  exists events items,
    out w' = out w ++ events
    /\ SKIPPED_MEETINGS w' = SKIPPED_MEETINGS w ++ items
    /\ file_count = count is_rename events
    /\ count is_transfer events = file_count
    /\ total_size = waited_total events
    /\ skipped_count = count is_skip events.
Proof.
  intros Hrun. unfold download_recordings in Hrun.
  apply for_each_accounted in Hrun.
  - destruct Hrun as (events & items & Hout & Hsk & Hf & Ht & Hs & Hz).
    exists events, items.
    unfold file_count_of, total_size_of, skipped_count_of in *. simpl in *.
    repeat split; try assumption; lia.
  - clear. intros [user_email user_name] c w0 c0 w0'. unfold user_body.
    match goal with |- (Os.print ?line ≫= _) w0 = _ -> _ => set (heading := line) end.
    set (rule := "######################################################################").
    rewrite bind_run. unfold Os.print at 1. rewrite emit_run.
    rewrite bind_run, get_meeting_uuids_run.
    destruct (Dates.scan_windows from_date to_date) as [ws |]; [| discriminate].
    rewrite bind_run.
    destruct (get_meetings client double_encode _ _) as [[meetings | e] w1] eqn:Hget;
      [| discriminate].
    apply get_meetings_loop_frame in Hget.
    destruct Hget as (Hfs & (lines & Hout1 & Hl1 & Hl2 & Hl3 & Hl4) & items & Hitems).
    rewrite bind_run.
    destruct (download_recordings_from_meetings _ _ _ _ meetings _ w1)
      as [[[[ufc uts] usk] | e] w2] eqn:Hdl; [| discriminate].
    apply download_recordings_from_meetings_accounted in Hdl.
    destruct Hdl as (events & items2 & Hout2 & Hsk2 & Hf & Ht & Hs & Hz).
    rewrite !bind_run. unfold Os.print. rewrite !emit_run.
    destruct c as [[fc ts] sk]. intros [= <- <-].
    exists ([Printed heading; Printed "Scanning for recorded meetings:"] ++ lines ++ events
            ++ [Printed rule; Printed ""]), (items ++ items2).
    unfold file_count_of, total_size_of, skipped_count_of in *.
    cbn [fs out SKIPPED_MEETINGS logged fst snd] in *.
    rewrite Hout2, Hout1, Hsk2, Hitems, <- !app_assoc.
    rewrite !count_app, !waited_total_app, Hl1, Hl2, Hl3, Hl4.
    assert (Hhead : count is_skip [Printed heading; Printed "Scanning for recorded meetings:"] = 0
                    /\ count is_transfer
                         [Printed heading; Printed "Scanning for recorded meetings:"] = 0
                    /\ count is_rename
                         [Printed heading; Printed "Scanning for recorded meetings:"] = 0
                    /\ waited_total
                         [Printed heading; Printed "Scanning for recorded meetings:"] = 0)
      by (repeat split; reflexivity).
    assert (Hfoot : count is_skip [Printed rule; Printed ""] = 0
                    /\ count is_transfer [Printed rule; Printed ""] = 0
                    /\ count is_rename [Printed rule; Printed ""] = 0
                    /\ waited_total [Printed rule; Printed ""] = 0)
      by (repeat split; reflexivity).
    destruct Hhead as (-> & -> & -> & ->). destruct Hfoot as (-> & -> & -> & ->).
    split; [reflexivity |]. split; [reflexivity |]. repeat split; lia.
Qed.

(** *** What a call leaves alone *)

Lemma makedirs_keeps name w r w1 :
  Os.makedirs name w = (r, w1) ->
  forall p x, fs w !! p = Some x -> fs w1 !! p = Some x.
Proof.
  unfold Os.makedirs. intros Hrun.
  destruct (makedirs_from_spec _ _ _ _ _ Hrun) as (_ & _ & [Hkeep _] & _). exact Hkeep.
Qed.

Lemma create_path_keeps host_folder file_name topic recording_name w r w1 :
  create_path CONFIG host_folder file_name topic recording_name w = (r, w1) ->
  forall p x, fs w !! p = Some x -> fs w1 !! p = Some x.
Proof.
  unfold create_path. rewrite bind_run.
  destruct (Os.makedirs _ w) as [[[] | e] w0] eqn:Hmk; intros [= <- <-];
    exact (makedirs_keeps _ _ _ _ Hmk).
Qed.

Lemma create_path_returns host_folder file_name topic recording_name w file_path w1 :
  create_path CONFIG host_folder file_name topic recording_name w = (Ok file_path, w1) ->
  file_path = Py.path_join (destination_folder CONFIG host_folder topic recording_name)
                file_name.
Proof.
  unfold create_path. rewrite bind_run.
  destruct (Os.makedirs _ w) as [[[] | e] w0]; [| discriminate].
  intros [= <- <-]. reflexivity.
Qed.

(** The name and the path [resolve_destination] returns, and what it keeps. *)
Lemma resolve_destination_returns download_url host_folder file_name size topic w r w1 :
  resolve_destination CONFIG download_url host_folder file_name size topic w = (r, w1) ->
  (forall p x, fs w !! p = Some x -> fs w1 !! p = Some x)
  /\ forall file_name' file_path,
       r = Ok (Some (file_name', file_path)) ->
       file_path = Py.path_join (destination_folder CONFIG host_folder topic file_name')
                     file_name'
       /\ (file_name' = Py.strip_unsafe file_name
           \/ exists i : nat,
                file_name' = suffixed (fst (Py.splitext (Py.strip_unsafe file_name))) i
                               (snd (Py.splitext (Py.strip_unsafe file_name)))).
Proof.
  unfold resolve_destination.
  destruct (size <? MIN_FILE_SIZE CONFIG * 1024 * 1024).
  { intros [= <- <-]. split; [intros p x H; exact H | discriminate]. }
  rewrite bind_run.
  assert (Hlines : (if VERBOSE_OUTPUT CONFIG
                    then Os.print "";; Os.print ("URL: " +:+ download_url)
                    else mret tt) w = (Ok tt, logged (verbose_lines CONFIG download_url) w)).
  { unfold verbose_lines. destruct (VERBOSE_OUTPUT CONFIG).
    - unfold Os.print. rewrite bind_run, !emit_run, logged_logged. reflexivity.
    - rewrite logged_nil. reflexivity. }
  rewrite Hlines. clear Hlines.
  set (w0 := logged (verbose_lines CONFIG download_url) w).
  set (name := Py.strip_unsafe file_name).
  rewrite bind_run.
  destruct (create_path CONFIG host_folder name topic name w0) as [[path1 | e] w2] eqn:Hc1.
  2: { intros [= <- <-]. split; [| discriminate].
       intros p x H. exact (create_path_keeps _ _ _ _ _ _ _ Hc1 p x H). }
  pose proof (create_path_keeps _ _ _ _ _ _ _ Hc1) as Hkeep1.
  apply create_path_returns in Hc1.
  rewrite bind_run. unfold Os.path_exists at 1.
  destruct (bool_decide (is_Some (fs w2 !! path1))).
  - destruct (Py.splitext name) as [base_name ext]. simpl fst. simpl snd.
    rewrite bind_run. unfold probe at 1. rewrite bind_run.
    match goal with |- context [create_path CONFIG ?h ?n ?t ?rn ?w'] =>
      destruct (create_path CONFIG h n t rn w') as [[path2 | e] w3] eqn:Hc2 end.
    + pose proof (create_path_keeps _ _ _ _ _ _ _ Hc2) as Hkeep2.
      apply create_path_returns in Hc2.
      intros [= <- <-]. split; [intros p x H; apply Hkeep2, Hkeep1, H |].
      intros name' path' [= <- <-]. split; [exact Hc2 |]. right. eexists. reflexivity.
    + intros [= <- <-]. split; [| discriminate].
      intros p x H. apply (create_path_keeps _ _ _ _ _ _ _ Hc2), Hkeep1, H.
  - intros [= <- <-]. split; [intros p x H; apply Hkeep1, H |].
    intros name' path' [= <- <-]. split; [exact Hc1 | left; reflexivity].
Qed.

Lemma fetch_frame download_url file_name file_path file_size w r w' :
  fs w !! file_path = None ->
  fetch CONFIG client download_url file_name file_path file_size w = (r, w') ->
  forall p, p <> file_path -> p <> file_path +:+ ".tmp" -> fs w' !! p = fs w !! p.
Proof.
  intros Hfree. rewrite fetch_run by exact Hfree. simpl.
  set (tmp := file_path +:+ ".tmp").
  intros Hrun p Hp Htmp.
  destruct (fs w !! tmp) as [[k |] |];
    try (injection Hrun as <- <-; reflexivity);
    destruct (stream client _) as [n | n];
    try destruct (Z.abs (n - file_size) <=? tolerance');
    injection Hrun as <- <-; simpl;
    rewrite ?lookup_insert_ne, ?lookup_delete_ne, ?lookup_insert_ne by congruence;
    reflexivity.
Qed.

Lemma store_frame download_url file_name file_path file_size w r w' :
  store CONFIG client dir_size download_url file_name file_path file_size w = (r, w') ->
  forall p, p <> file_path -> p <> file_path +:+ ".tmp" -> fs w' !! p = fs w !! p.
Proof.
  rewrite store_run. destruct (fs w !! file_path) as [[n0 |] |] eqn:E; simpl.
  - destruct (Z.abs (n0 - file_size) <=? tolerance').
    + intros [= <- <-] p _ _. reflexivity.
    + intros Hfetch p Hp Htmp.
      rewrite (fetch_frame _ _ _ _ _ _ _ (lookup_delete_eq _ _) Hfetch p Hp Htmp).
      simpl. apply lookup_delete_ne. congruence.
  - destruct (Z.abs (dir_size - file_size) <=? tolerance');
      intros [= <- <-] p _ _; reflexivity.
  - intros Hfetch. exact (fetch_frame _ _ _ _ _ _ _ E Hfetch).
Qed.

(** X6.  A call of [download_recording_file] writes and removes at two paths
    at most, the resolved destination and its temporary sibling: everything
    else that was in the file system is still there, unchanged, whatever the
    outcome, and the only new entries elsewhere are directories.  When no
    destination is resolved (a file below the minimum size, or an error
    while the folders are created) this holds of every path. *)
Theorem download_recording_file_touches_only_destination
  (download_url host_folder file_name : string) (size : Z) (topic : string)
  (w w' : World) (r : result bool) :
  download_recording_file CONFIG client dir_size download_url host_folder file_name
    size topic w = (r, w') ->
  forall p,
    ~ In p (touched (fst (resolve_destination CONFIG download_url host_folder file_name
                            size topic w))) ->
    (forall x, fs w !! p = Some x -> fs w' !! p = Some x)
    /\ (forall k, fs w' !! p = Some (File k) -> fs w !! p = Some (File k)).
Proof.
  rewrite download_recording_file_run.
  destruct (resolve_destination CONFIG download_url host_folder file_name size topic w)
    as [r0 w1] eqn:Hres.
  destruct (resolve_destination_returns _ _ _ _ _ _ _ _ Hres) as [Hkeep _].
  assert (Hfiles : forall p k, fs w1 !! p = Some (File k) -> fs w !! p = Some (File k)).
  { destruct (resolve_destination_run CONFIG download_url host_folder file_name size topic w)
      as [[_ Hrun] | (_ & r1 & f & Hrun & _ & Hiff)]; rewrite Hrun in Hres;
      injection Hres as <- <-; simpl; [intros p k H; exact H |].
    intros p k. apply Hiff. }
  simpl fst. destruct r0 as [[[name path] |] | e].
  - intros Hstore p Hp. simpl in Hp.
    assert (Hsame : fs w' !! p = fs w1 !! p).
    { apply (store_frame _ _ _ _ _ _ _ Hstore).
      - intros ->. apply Hp. left. reflexivity.
      - intros ->. apply Hp. right. left. reflexivity. }
    rewrite Hsame. split; [apply Hkeep | apply Hfiles].
  - intros [= <- <-] p _. split; [apply Hkeep | apply Hfiles].
  - intros [= <- <-] p _. split; [apply Hkeep | apply Hfiles].
Qed.

(** *** The folders of [create_path] *)


(** *** A missing key *)

(** X8.  A recording file that has a size and passes the file type filter
    but has neither an extension (the key is missing or empty) nor a file name
    is not skipped: reading its file name raises [KeyError].  The exception
    ends the loop over the files of the meeting at this file, after the files
    before it were handled, and with it the whole run of
    [download_recordings_from_meetings]; the totals are lost. *)
Theorem missing_extension_and_name_aborts
  (meeting : Meeting) (host_folder : string) (recording_file : RecordingFile) (size : Z) :
  file_size recording_file = Some size ->
  type_selected CONFIG recording_file = true ->
  file_extension recording_file = None \/ file_extension recording_file = Some "" ->
  file_name recording_file = None ->
  (forall c w,
      recording_file_body CONFIG client slugify dir_size meeting host_folder
        recording_file c w = (Raise (KeyError "file_name"), w))
  /\ (forall before after w c1 w1,
        topic_selected CONFIG slugify meeting = true ->
        recording_files meeting = before ++ recording_file :: after ->
        for_each (recording_file_body CONFIG client slugify dir_size meeting host_folder)
          before (0, 0, 0) w = (Ok c1, w1) ->
        forall meetings,
          download_recordings_from_meetings CONFIG client slugify dir_size
            (meeting :: meetings) host_folder w
          = (Raise (KeyError "file_name"), w1)).
Proof.
  intros Hsize Htype Hext Hname.
  assert (Hbody : forall c w,
    recording_file_body CONFIG client slugify dir_size meeting host_folder
      recording_file c w = (Raise (KeyError "file_name"), w)).
  { intros c w. rewrite recording_file_body_run, Hsize, Htype.
    unfold extension. rewrite Hname. destruct Hext as [-> | ->]; reflexivity. }
  split; [exact Hbody |].
  assert (Hloop : forall before l (c0 c1 : Counts) w0 w1,
    for_each (recording_file_body CONFIG client slugify dir_size meeting host_folder)
      before c0 w0 = (Ok c1, w1) ->
    for_each (recording_file_body CONFIG client slugify dir_size meeting host_folder)
      (before ++ recording_file :: l) c0 w0 = (Raise (KeyError "file_name"), w1)).
  { intros before l. induction before as [| x rest IH]; intros c0 c1 w0 w1.
    - intros [= <- <-]. simpl. unfold bind. rewrite Hbody. reflexivity.
    - simpl. unfold bind.
      destruct (recording_file_body _ _ _ _ _ _ x c0 w0) as [[c2 | e] w2]; [| discriminate].
      apply IH. }
  intros before after w c1 w1 Htopic Hfiles Hbefore meetings.
  unfold download_recordings_from_meetings.
  rewrite for_each_cons. unfold meeting_body. rewrite Htopic, Hfiles.
  cbn [negb]. cbv iota. rewrite <- app_assoc, <- app_comm_cons.
  rewrite (Hloop _ _ _ _ _ _ Hbefore). reflexivity.
Qed.

(** *** The names of the stored files *)

Lemma safe_app (a b : string) : safe (a +:+ b) <-> safe a /\ safe b.
Proof.
  unfold safe. rewrite list_ascii_of_string_app. split.
  - intros H. split; intros c Hc; apply H, in_or_app; [left | right]; exact Hc.
  - intros [Ha Hb] c Hc. apply in_app_or in Hc. destruct Hc; [apply Ha | apply Hb]; assumption.
Qed.

Lemma safe_strip_unsafe (s : string) : safe (Py.strip_unsafe s).
Proof.
  induction s as [| c s IH]; [intros c [] |].
  simpl. destruct (Py.unsafe_char c) eqn:E; [exact IH |].
  intros c' [<- | Hin]; [exact E | exact (IH _ Hin)].
Qed.

Lemma safe_substring (s : string) (n m : nat) : safe s -> safe (String.substring n m s).
Proof.
  revert n m. induction s as [| c s IH]; intros n m Hs.
  - destruct n, m; simpl; intros c [].
  - assert (Hs' : safe s) by (intros c' Hc'; apply Hs; right; exact Hc').
    destruct n as [| n]; simpl.
    + destruct m as [| m]; [intros c' [] |].
      intros c' [<- | Hin]; [apply Hs; left; reflexivity | exact (IH 0%nat m Hs' _ Hin)].
    + apply IH, Hs'.
Qed.

Lemma safe_splitext (p : string) :
  safe p -> safe (fst (Py.splitext p)) /\ safe (snd (Py.splitext p)).
Proof.
  intros Hp. unfold Py.splitext. destruct (_ && _); simpl.
  - split; apply safe_substring, Hp.
  - split; [exact Hp | intros c []].
Qed.

Lemma safe_pretty_N_go (x : N) (s : string) : safe s -> safe (pretty_N_go x s).
Proof.
  revert s. induction (N.lt_wf_0 x) as [x _ IH]. intros s Hs.
  destruct (decide (0 < x)%N) as [Hpos | Hzero].
  - rewrite pretty_N_go_step by exact Hpos. apply IH; [apply N.div_lt; lia |].
    intros c [<- | Hin]; [| exact (Hs _ Hin)].
    unfold pretty_N_char. repeat case_match; reflexivity.
  - replace x with 0%N by lia. rewrite pretty_N_go_0. exact Hs.
Qed.

Lemma safe_str_nat (i : nat) : safe (Py.str_nat i).
Proof.
  unfold Py.str_nat, pretty, pretty_nat, pretty, pretty_N.
  destruct (decide (N.of_nat i = 0%N)); [intros c [<- | []]; reflexivity |].
  apply safe_pretty_N_go. intros c [].
Qed.

(** X9.  The name under which a file is stored has none of the characters
    backslash, slash, star, question mark, colon, double quote, angle
    brackets and bar, with or without a suffix, whatever the topic or the
    file name of the recording held: it is one path component.  The file is
    stored at this name joined to the folder for the grouping flags, which
    for the grouping by recording is named after the final, possibly
    suffixed, name. *)
Theorem resolved_name_is_safe
  (download_url host_folder file_name : string) (size : Z) (topic : string)
  (w w1 : World) (file_name' file_path : string) :
  resolve_destination CONFIG download_url host_folder file_name size topic w
    = (Ok (Some (file_name', file_path)), w1) ->
  safe file_name'
  /\ Py.contains "/" file_name' = false
  /\ file_path
     = Py.path_join (destination_folder CONFIG host_folder topic file_name') file_name'.
Proof.
  intros Hres.
  destruct (resolve_destination_returns _ _ _ _ _ _ _ _ Hres) as [_ Hname].
  destruct (Hname _ _ eq_refl) as [Hpath Hform].
  assert (Hsafe : safe file_name').
  { destruct Hform as [-> | [i ->]]; [apply safe_strip_unsafe |].
    unfold suffixed.
    destruct (safe_splitext _ (safe_strip_unsafe file_name)) as [Hbase Hext].
    apply safe_app. split; [exact Hbase |].
    apply (safe_app "_"). split; [intros c [<- | []]; reflexivity |].
    apply safe_app. split; [apply safe_str_nat | exact Hext]. }
  split; [exact Hsafe |]. split; [| exact Hpath].
  clear -Hsafe. induction file_name' as [| c s IH]; [reflexivity |].
  assert (Hc : Py.unsafe_char c = false) by (apply Hsafe; left; reflexivity).
  assert (Hs : safe s) by (intros c' Hc'; apply Hsafe; right; exact Hc').
  cbn [Py.contains]. rewrite (IH Hs), prefix_sep_cons.
  destruct (Ascii.eqb_spec c "/") as [-> | _]; [discriminate Hc | reflexivity].
Qed.

End DownloaderAccounts.

Section MoreRuns.
Import Models.
Local Open Scope Z_scope.

(** One user, one day, one meeting of two files of the same name: two files
    are stored, 200 bytes in all, and none is skipped. *)
Lemma download_recordings_accounts_witness :
  exists events items,
    out (snd (download_recordings plain_config standup_client slugify 4096 double_encode
                [("ann@example.org", "")] (Dates.ymd2ord 2024 3 1) (Dates.ymd2ord 2024 3 1)
                empty_world))
    = out empty_world ++ events
    /\ SKIPPED_MEETINGS
         (snd (download_recordings plain_config standup_client slugify 4096 double_encode
                 [("ann@example.org", "")] (Dates.ymd2ord 2024 3 1) (Dates.ymd2ord 2024 3 1)
                 empty_world))
       = SKIPPED_MEETINGS empty_world ++ items
    /\ 2 = count is_rename events
    /\ count is_transfer events = 2
    /\ 200 = waited_total events
    /\ 0 = count is_skip events.
Proof.
  apply (download_recordings_accounts plain_config standup_client slugify 4096 double_encode
           [("ann@example.org", "")] (Dates.ymd2ord 2024 3 1) (Dates.ymd2ord 2024 3 1)
           empty_world).
  vm_compute. reflexivity.
Defined.

(** The third file of the meeting, with the files grouped by topic: the call
    leaves the first file where it is. *)
Lemma download_recording_file_touches_only_destination_witness :
  let w := snd (standup_run by_topic_config 2) in
  fs (snd (download_recording_file by_topic_config (serving_client 100) 4096
             "https://zoom.us/rec/file3" "out" "Standup.mp4" 100 "Standup" w))
    !! "out/Standup/Standup.mp4"
  = Some (File 100).
Proof.
  intros w.
  apply (download_recording_file_touches_only_destination by_topic_config
           (serving_client 100) 4096 "https://zoom.us/rec/file3" "out" "Standup.mp4" 100
           "Standup" w _ _ (surjective_pairing _) "out/Standup/Standup.mp4").
  - vm_compute. intros [H | [H | []]]; discriminate H.
  - vm_compute. reflexivity.
Defined.


(** A meeting whose only file has neither extension nor name. *)
Lemma missing_extension_and_name_aborts_witness :
  download_recordings_from_meetings plain_config (serving_client 100) slugify 4096
    [meeting_of "Standup" [nameless_recording]] "out" empty_world
  = (Raise (KeyError "file_name"), empty_world).
Proof.
  exact (proj2 (missing_extension_and_name_aborts plain_config (serving_client 100) slugify
                  4096 (meeting_of "Standup" [nameless_recording]) "out" nameless_recording
                  100 eq_refl eq_refl (or_introl eq_refl) eq_refl)
               [] [] empty_world (0, 0, 0) empty_world eq_refl eq_refl eq_refl []).
Defined.

(** A name with a slash and a colon, in an empty output folder. *)
Lemma resolved_name_is_safe_witness :
  fst (resolve_destination plain_config "https://zoom.us/rec/file1" "out"
         "../Stand:up.mp4" 100 "Standup" empty_world)
  = Ok (Some ("..Standup.mp4", "out/..Standup.mp4"))
  /\ Py.contains "/" "..Standup.mp4" = false.
Proof.
  split; [vm_compute; reflexivity |].
  assert (Hres : resolve_destination plain_config "https://zoom.us/rec/file1" "out"
                   "../Stand:up.mp4" 100 "Standup" empty_world
                 = (Ok (Some ("..Standup.mp4", "out/..Standup.mp4")),
                    snd (resolve_destination plain_config "https://zoom.us/rec/file1" "out"
                           "../Stand:up.mp4" 100 "Standup" empty_world)))
    by (vm_compute; reflexivity).
  exact (proj1 (proj2 (resolved_name_is_safe plain_config _ _ _ _ _ _ _ _ _ Hres))).
Defined.

End MoreRuns.

(** ** The log parser, once more *)

Section SilenceMore.
Context {F : Type}.
Variable float : string -> option F.
Variable gt : F -> F -> bool.

Lemma parse_lines_tagged_only (lines : list string) (st : ParseState F) :
  parse_lines float gt lines st = parse_lines float gt (List.filter tagged lines) st.
Proof.
  revert st. induction lines as [| line rest IH]; intros st; [reflexivity |].
  simpl. destruct (tagged line) eqn:Htag.
  - simpl. destruct (parse_line float gt line st); [apply IH | reflexivity].
  - rewrite (parse_line_untagged float gt line st Htag). apply IH.
Qed.

(** What one marker line does to the variables of the loop. *)
Lemma parse_line_counts line segs start end0 segs' start' end' :
  parse_line float gt line (segs, start, end0) = Ok (segs', start', end') ->
  let pending s := match s with Some _ => 1%nat | None => 0%nat end in
  (length segs' + pending start' <= length segs + pending start
                                    + (if is_start_marker line then 1 else 0))%nat
  /\ (length segs' <= length segs + (if is_end_marker line then 1 else 0))%nat.
Proof.
  unfold parse_line, is_start_marker, is_end_marker, tagged.
  destruct (Py.contains "[silencedetect @" line); simpl;
    [| intros [= <- <- <-]; lia].
  destruct (Py.contains "silence_start" line); simpl.
  - destruct (Py.item1 _) as [text |]; [| discriminate].
    destruct (float _) as [v |]; [| discriminate].
    intros [= <- <- <-]. destruct start; simpl; lia.
  - destruct (Py.contains "silence_end" line); simpl; [| intros [= <- <- <-]; lia].
    destruct (Py.item1 _) as [text |]; [| discriminate].
    destruct (float _) as [e |]; [| discriminate].
    destruct start as [s |]; [| intros [= <- <- <-]; simpl; lia].
    destruct (gt e s); intros [= <- <- <-]; rewrite ?length_app; simpl; lia.
Qed.

Lemma parse_lines_counts lines segs start end0 segs' start' end' :
  parse_lines float gt lines (segs, start, end0) = Ok (segs', start', end') ->
  let pending s := match s with Some _ => 1%nat | None => 0%nat end in
  (length segs' + pending start'
   <= length segs + pending start + length (List.filter is_start_marker lines))%nat
  /\ (length segs' <= length segs + length (List.filter is_end_marker lines))%nat.
Proof.
  revert segs start end0. induction lines as [| line rest IH]; intros segs start end0.
  - intros [= <- <- <-]. simpl. lia.
  - cbn [parse_lines]. destruct (parse_line float gt line (segs, start, end0))
      as [[[segs1 start1] end1] | e] eqn:Hline; [| discriminate].
    intros Hrest. apply parse_line_counts in Hline. apply IH in Hrest.
    cbn [List.filter]. cbv zeta in *.
    destruct (is_start_marker line), (is_end_marker line); cbn [length]; lia.
Qed.

(** X10.  The cut segments of a log depend on its tagged lines only: the
    lines without the tag of the silence detector can be dropped, or any
    such lines added, without changing the result or the error. *)
Theorem cut_segments_of_tagged_lines (lines : list string) :
  cut_segments_of float gt lines = cut_segments_of float gt (List.filter tagged lines)
  /\ ((forall line, In line lines -> tagged line = false) ->
      cut_segments_of float gt lines = Ok [])
  /\ (forall more,
        (forall line, In line more -> tagged line = false) ->
        cut_segments_of float gt (more ++ lines) = cut_segments_of float gt lines
        /\ cut_segments_of float gt (lines ++ more) = cut_segments_of float gt lines).
Proof.
  assert (Hnone : forall l, (forall line, In line l -> tagged line = false) ->
                            List.filter tagged l = []).
  { induction l as [| line rest IH]; intros H; [reflexivity |].
    simpl. rewrite (H line (or_introl eq_refl)). apply IH.
    intros l Hl. apply H. right. exact Hl. }
  unfold cut_segments_of. split; [rewrite parse_lines_tagged_only; reflexivity |]. split.
  - intros H. rewrite parse_lines_tagged_only, (Hnone _ H). reflexivity.
  - intros more H. split.
    + rewrite (parse_lines_tagged_only (more ++ lines)), (parse_lines_tagged_only lines),
        List.filter_app, (Hnone _ H). reflexivity.
    + rewrite (parse_lines_tagged_only (lines ++ more)), (parse_lines_tagged_only lines),
        List.filter_app, (Hnone _ H), app_nil_r. reflexivity.
Qed.

(** X11.  Every start marker and every end marker of a log gives at most
    one cut segment: a log has no more cut segments than lines with a start
    marker, and no more than lines with an end marker. *)
Theorem cut_segments_bounded_by_markers (lines : list string)
  (cut_segments : list (CutSegment F)) :
  cut_segments_of float gt lines = Ok cut_segments ->
  (length cut_segments <= length (List.filter is_start_marker lines))%nat
  /\ (length cut_segments <= length (List.filter is_end_marker lines))%nat.
Proof.
  unfold cut_segments_of.
  destruct (parse_lines float gt lines ([], None, None)) as [[[segs s] e] | err] eqn:Hparse;
    [| discriminate].
  intros [= <-]. apply parse_lines_counts in Hparse. cbv zeta in Hparse. simpl in Hparse.
  destruct s; lia.
Qed.

Lemma parse_line_returns_iff (line : string) (st : ParseState F) :
  (exists st', parse_line float gt line st = Ok st') <-> readable float line.
Proof.
  destruct st as [[segs start] end0].
  unfold readable, is_start_marker, is_end_marker, tagged, parse_line, start_line, end_line.
  destruct (Py.contains "[silencedetect @" line); simpl;
    [| split; [intros _; split; discriminate | intros _; eexists; reflexivity]].
  destruct (Py.contains "silence_start" line); simpl.
  - split.
    + intros [st' Hrun]. split; [| discriminate]. intros _.
      destruct (Py.item1 _) as [text |]; [| discriminate].
      destruct (float (Py.strip text)) as [v |] eqn:Hv; [| discriminate].
      exists v. repeat split. exists text. split; [reflexivity | exact Hv].
    + intros [Hstart _]. destruct (Hstart eq_refl) as (v & _ & _ & text & -> & ->).
      eexists. reflexivity.
  - destruct (Py.contains "silence_end" line); simpl;
      [| split; [intros _; split; discriminate | intros _; eexists; reflexivity]].
    split.
    + intros [st' Hrun]. split; [discriminate |]. intros _.
      destruct (Py.item1 _) as [text |]; [| discriminate].
      destruct (float (Py.strip (hd EmptyString (Py.split "|" text)))) as [v |] eqn:Hv;
        [| discriminate].
      exists v. repeat split. exists text. split; [reflexivity | exact Hv].
    + intros [_ Hend]. destruct (Hend eq_refl) as (v & _ & _ & _ & text & -> & ->).
      destruct start as [s |]; [destruct (gt v s) |]; eexists; reflexivity.
Qed.

Lemma parse_lines_returns_iff (lines : list string) (st : ParseState F) :
  (exists st', parse_lines float gt lines st = Ok st')
  <-> forall line, In line lines -> readable float line.
Proof.
  revert st. induction lines as [| line rest IH]; intros st.
  - split; [intros _ l [] | intros _; eexists; reflexivity].
  - cbn [parse_lines]. split.
    + intros [st' Hrun] l [Heq | Hin].
      * subst l. apply (parse_line_returns_iff line st).
        destruct (parse_line float gt line st) as [st1 | e];
          [eexists; reflexivity | discriminate].
      * destruct (parse_line float gt line st) as [st1 | e]; [| discriminate].
        apply (proj1 (IH st1)); [eexists; exact Hrun | exact Hin].
    + intros Hall.
      destruct (proj2 (parse_line_returns_iff line st) (Hall line (or_introl eq_refl)))
        as [st1 ->].
      apply IH. intros l Hl. apply Hall. right. exact Hl.
Qed.

(** X12.  The parser returns the cut segments of a log exactly when every
    marker line of the log is readable, that is has a colon and, after it, a
    text that [float] reads (up to the bar, for an end marker); one marker
    line that is not makes the whole log fail with the error of that line. *)
Theorem cut_segments_of_returns_iff (lines : list string) :
  (exists cut_segments, cut_segments_of float gt lines = Ok cut_segments)
  <-> forall line, In line lines -> readable float line.
Proof.
  rewrite <- (parse_lines_returns_iff lines ([], None, None)). unfold cut_segments_of.
  split.
  - intros [segs Hrun].
    destruct (parse_lines float gt lines ([], None, None)) as [st | e];
      [eexists; reflexivity | discriminate].
  - intros [[[segs s] e] ->]. eexists. reflexivity.
Qed.

End SilenceMore.

(** The log of the scenario has one start marker, one end marker and one cut
    segment. *)
Lemma cut_segments_bounded_by_markers_witness :
  (1 <= length (List.filter is_start_marker Models.silence_log))%nat
  /\ (1 <= length (List.filter is_end_marker Models.silence_log))%nat.
Proof.
  apply (cut_segments_bounded_by_markers Models.float_of_decimal Models.float_gt
           Models.silence_log [{| start := 1.0%float; end_ := 4.5%float; name := "" |}]).
  vm_compute. reflexivity.
Defined.

(** ** The silence detection of [process_videos] *)

Section VideosFacts.
Context {F : Type}.
Variable CONFIG : Config.
Variable SETTINGS : SilenceSettings.
Variables (float : string -> option F) (gt : F -> F -> bool).
Variable check_output : string -> result (string * F).
Variables (zero : F) (add : F -> F -> F) (str : F -> string).
Variable llc_size : string -> list (CutSegment F) -> Z.

Local Abbreviation log_file' := (log_file CONFIG).
Local Abbreviation output_file' := (output_file CONFIG).
Local Abbreviation input_file' := (input_file CONFIG).
Local Abbreviation process_video' :=
  (process_video CONFIG SETTINGS float gt check_output add str llc_size).
Local Abbreviation process_videos' :=
  (process_videos CONFIG SETTINGS float gt check_output zero add str llc_size).

Lemma last_char_app (a b : string) : b <> "" -> last_char (a +:+ b) = last_char b.
Proof.
  intros Hb. induction a as [| c a IH]; [reflexivity |].
  rewrite <- IH. change (String c a +:+ b) with (String c (a +:+ b)).
  destruct (a +:+ b) eqn:E; [| reflexivity].
  destruct a; [simpl in E; contradiction | discriminate].
Qed.

Lemma last_char_path_join (a b : string) :
  b <> "" -> last_char (Py.path_join a b) = last_char b.
Proof.
  intros Hb. unfold Py.path_join. destruct (String.prefix "/" b); [reflexivity |].
  destruct (_ || _).
  - apply last_char_app, Hb.
  - rewrite last_char_app; [apply last_char_app, Hb |].
    destruct b; [contradiction | discriminate].
Qed.

Lemma last_char_lower (s : string) :
  last_char (Py.lower s) = option_map Py.lower_char (last_char s).
Proof.
  induction s as [| c s IH]; [reflexivity |].
  cbn [Py.lower last_char]. destruct s as [| c' s]; [reflexivity |]. exact IH.
Qed.

Lemma endswith_app (suffix s : string) :
  endswith suffix s = true -> exists pre, s = pre +:+ suffix.
Proof.
  induction s as [| c s IH]; cbn [endswith]; intros H; apply orb_true_iff in H.
  - destruct H as [H | H]; [| discriminate]. apply String.eqb_eq in H. exists "".
    symmetry. exact H.
  - destruct H as [H | H].
    + apply String.eqb_eq in H. exists "". symmetry. exact H.
    + destruct (IH H) as [pre ->]. exists (String c pre). reflexivity.
Qed.

(** The name of a video ends in none of the letters a log or a project
    ends in. *)
Lemma is_video_last_char (filename : string) :
  is_video filename = true ->
  exists c, last_char filename = Some c /\ c <> "t"%char /\ c <> "c"%char.
Proof.
  unfold is_video. cbn [existsb]. rewrite !orb_true_iff.
  assert (Hend : forall ext x,
             last_char ext = Some x -> ext <> "" ->
             x <> "t"%char -> x <> "c"%char ->
             endswith ext (Py.lower filename) = true ->
             exists c, last_char filename = Some c /\ c <> "t"%char /\ c <> "c"%char).
  { intros ext x Hx Hext Ht Hc H. destruct (endswith_app _ _ H) as [pre Hpre].
    pose proof (last_char_lower filename) as Hl.
    rewrite Hpre, (last_char_app pre ext Hext), Hx in Hl.
    destruct (last_char filename) as [c |]; [| discriminate].
    exists c. injection Hl as Hl. split; [reflexivity |].
    split; intros ->; vm_compute in Hl; subst x; congruence. }
  intros [H | [H | [H | [H | [H | H]]]]]; [| | | | | discriminate H];
    (eapply Hend; [| | | | exact H]; [reflexivity | discriminate ..]).
Qed.

Lemma log_file_last_char (filename : string) :
  last_char (log_file' filename) = Some "t"%char.
Proof.
  unfold log_file. rewrite last_char_path_join.
  - rewrite last_char_app; [reflexivity | discriminate].
  - destruct (fst (Py.splitext filename)); discriminate.
Qed.

Lemma output_file_last_char (filename : string) :
  last_char (output_file' filename) = Some "c"%char.
Proof.
  unfold output_file. rewrite last_char_path_join.
  - rewrite last_char_app; [reflexivity | discriminate].
  - destruct (fst (Py.splitext filename)); discriminate.
Qed.

Lemma log_file_not_output_file (a b : string) : log_file' a <> output_file' b.
Proof.
  intros H. pose proof (log_file_last_char a) as Ha.
  rewrite H, output_file_last_char in Ha. discriminate.
Qed.

Lemma input_file_not_written (video filename : string) :
  is_video video = true ->
  input_file' video <> log_file' filename /\ input_file' video <> output_file' filename.
Proof.
  intros Hv. destruct (is_video_last_char _ Hv) as (c & Hc & Ht & Hcc).
  assert (Hne : video <> "") by (intros ->; discriminate).
  assert (Hin : last_char (input_file' video) = Some c).
  { unfold input_file. rewrite last_char_path_join by exact Hne. exact Hc. }
  split; intros H; rewrite H in Hin.
  - rewrite log_file_last_char in Hin. congruence.
  - rewrite output_file_last_char in Hin. congruence.
Qed.

Lemma process_video_returns filename total w total' w' :
  process_video' filename total w = (Ok total', w') ->
  (is_video filename = true ->
   fs w' !! log_file' filename = None
   /\ exists n, fs w' !! output_file' filename = Some (File n))
  /\ (forall path,
        (is_video filename = true ->
         path <> log_file' filename /\ path <> output_file' filename) ->
        fs w' !! path = fs w !! path).
Proof.
  unfold process_video. destruct (is_video filename).
  - cbv [mbind M_bind bind lift Os.print Os.emit Os.write_file Os.remove Os.set_fs mret
         M_ret ret].
    destruct (check_output _) as [[output t] | e]; [| discriminate].
    cbn [fs out SKIPPED_MEETINGS fst snd].
    destruct (fs w !! log_file' filename) as [[n0 |] |] eqn:Hlog; [| discriminate |].
    all: destruct (cut_segments_of _ _ _) as [cut_segments | e]; [| discriminate].
    all: cbn [fs out SKIPPED_MEETINGS fst snd].
    all: rewrite lookup_insert_ne by apply log_file_not_output_file.
    all: destruct (fs w !! output_file' filename) as [[n1 |] |] eqn:Hout; [| discriminate |].
    all: cbn [fs out SKIPPED_MEETINGS fst snd].
    all: rewrite lookup_insert_ne
      by (intros Heq; symmetry in Heq; revert Heq; apply log_file_not_output_file).
    all: rewrite lookup_insert_eq.
    all: cbn [fs out SKIPPED_MEETINGS fst snd].
    all: intros [= <- <-]; cbn [fs].
    all: split; [intros _; split; [apply lookup_delete_eq |] |].
    all: try (eexists; rewrite lookup_delete_ne
                by (intros Heq; revert Heq; apply log_file_not_output_file);
              apply lookup_insert_eq).
    all: intros path Hpath; destruct (Hpath eq_refl) as [Hl Ho].
    all: rewrite lookup_delete_ne by congruence.
    all: rewrite !lookup_insert_ne by congruence.
    all: reflexivity.
  - intros [= <- <-]. split; [discriminate | reflexivity].
Qed.


Lemma in_videos filename filenames :
  In filename (List.filter is_video filenames)
  <-> In filename filenames /\ is_video filename = true.
Proof. apply filter_In. Qed.

Lemma process_video_loop filenames total w total' w' :
  for_each process_video' filenames total w = (Ok total', w') ->
  (forall filename,
      In filename filenames -> is_video filename = true ->
      fs w' !! log_file' filename = None
      /\ exists n, fs w' !! output_file' filename = Some (File n))
  /\ (forall path,
        (forall filename,
            In filename filenames -> is_video filename = true ->
            path <> log_file' filename /\ path <> output_file' filename) ->
        fs w' !! path = fs w !! path).
Proof.
  revert total w. induction filenames as [| x rest IH]; intros total w.
  - intros [= <- <-]. split; [intros filename [] | reflexivity].
  - cbn [for_each]. unfold bind.
    destruct (process_video' x total w) as [[total1 | e] w1] eqn:Hbody; [| discriminate].
    intros Hrest. destruct (IH _ _ Hrest) as [IHa IHb].
    destruct (process_video_returns _ _ _ _ _ Hbody) as [Ha Hb].
    assert (Hframe : forall path,
               (forall filename,
                   In filename (x :: rest) -> is_video filename = true ->
                   path <> log_file' filename /\ path <> output_file' filename) ->
               fs w' !! path = fs w !! path).
    { intros path Hpath. rewrite IHb, Hb; [reflexivity | |].
      - intros Hx. apply Hpath; [left; reflexivity | exact Hx].
      - intros filename Hin Hv. apply Hpath; [right; exact Hin | exact Hv]. }
    split; [| exact Hframe].
    intros filename Hin Hv. split.
    + destruct (in_dec String.string_dec (log_file' filename)
                  (List.map log_file' (List.filter is_video rest))) as [Hlater | Hnot].
      * apply in_map_iff in Hlater. destruct Hlater as (f & Hf & Hfin).
        apply in_videos in Hfin. destruct Hfin as [Hfin Hfv].
        rewrite <- Hf. apply (IHa f Hfin Hfv).
      * destruct Hin as [<- | Hin].
        -- rewrite IHb; [apply (Ha Hv) |].
           intros f Hfin Hfv. split; [| apply log_file_not_output_file].
           intros Heq. apply Hnot. rewrite Heq. apply in_map, in_videos. split; assumption.
        -- exfalso. apply Hnot. apply in_map, in_videos. split; assumption.
    + destruct (in_dec String.string_dec (output_file' filename)
                  (List.map output_file' (List.filter is_video rest))) as [Hlater | Hnot].
      * apply in_map_iff in Hlater. destruct Hlater as (f & Hf & Hfin).
        apply in_videos in Hfin. destruct Hfin as [Hfin Hfv].
        rewrite <- Hf. apply (IHa f Hfin Hfv).
      * destruct Hin as [<- | Hin].
        -- destruct (Ha Hv) as [_ [n Hn]]. exists n. rewrite IHb; [exact Hn |].
           intros f Hfin Hfv. split.
           ++ intros Heq. symmetry in Heq. revert Heq. apply log_file_not_output_file.
           ++ intros Heq. apply Hnot. rewrite Heq. apply in_map, in_videos. split; assumption.
        -- exfalso. apply Hnot. apply in_map, in_videos. split; assumption.
Qed.

Lemma process_videos_run w :
  process_videos' w
  = match fs w !! OUTPUT_PATH CONFIG with
    | Some Dir =>
        let w0 := logged [Printed ("Processing videos in " +:+ OUTPUT_PATH CONFIG +:+ "...")] w in
        match for_each process_video' (listing (OUTPUT_PATH CONFIG) (fs w)) zero w0 with
        | (Ok total_time_spent, w1) =>
            (Ok tt,
             logged [Printed ("Finished processing videos in " +:+ OUTPUT_PATH CONFIG +:+ ".");
                     Printed ("Total time spent on processing videos: "
                              +:+ str total_time_spent +:+ " seconds")] w1)
        | (Raise e, w1) => (Raise e, w1)
        end
    | _ =>
        (Raise (OSError (OUTPUT_PATH CONFIG)),
         logged [Printed ("Processing videos in " +:+ OUTPUT_PATH CONFIG +:+ "...")] w)
    end.
Proof.
  unfold process_videos.
  cbv [mbind M_bind bind lift Os.print Os.emit listdir mret M_ret ret logged].
  cbn [fs out SKIPPED_MEETINGS].
  destruct (fs w !! OUTPUT_PATH CONFIG) as [[n |] |]; try reflexivity.
  destruct (for_each _ _ _ _) as [[total | e] w1]; [| reflexivity].
  cbn [fs out SKIPPED_MEETINGS]. rewrite <- app_assoc. reflexivity.
Qed.

(** X13.  When [process_videos] returns, every video of the output folder
    has its project file beside it and no file is left at its log path,
    whatever was there before; the video itself and every path that is not
    the log or the project path of a video of the folder are as before. *)
Theorem process_videos_leaves_projects_and_no_logs (w w' : World) :
  process_videos' w = (Ok tt, w') ->
  (forall filename,
      In filename (List.filter is_video (listing (OUTPUT_PATH CONFIG) (fs w))) ->
      fs w' !! log_file' filename = None
      /\ (exists n, fs w' !! output_file' filename = Some (File n))
      /\ fs w' !! input_file' filename = fs w !! input_file' filename)
  /\ (forall path,
        (forall filename,
            In filename (List.filter is_video (listing (OUTPUT_PATH CONFIG) (fs w))) ->
            path <> log_file' filename /\ path <> output_file' filename) ->
        fs w' !! path = fs w !! path).
Proof.
  rewrite process_videos_run.
  destruct (fs w !! OUTPUT_PATH CONFIG) as [[n |] |]; try discriminate.
  cbv zeta.
  destruct (for_each _ _ _ _) as [[total | e] w1] eqn:Hloop; [| discriminate].
  intros [= <-]. cbn [fs logged].
  destruct (process_video_loop _ _ _ _ _ Hloop) as [Ha Hb]. cbn [fs logged] in Hb.
  assert (Hframe : forall path,
             (forall filename,
                 In filename (List.filter is_video (listing (OUTPUT_PATH CONFIG) (fs w))) ->
                 path <> log_file' filename /\ path <> output_file' filename) ->
             fs w1 !! path = fs w !! path).
  { intros path Hpath. apply Hb. intros filename Hin Hv. apply Hpath, in_videos.
    split; assumption. }
  split; [| exact Hframe].
  intros filename Hin. pose proof Hin as Hin'. apply in_videos in Hin'.
  destruct Hin' as [Hl Hv].
  destruct (Ha filename Hl Hv) as [Hlog Hout]. split; [exact Hlog |]. split; [exact Hout |].
  apply Hframe. intros f _. apply input_file_not_written, Hv.
Qed.

Lemma process_video_frame filename total w r w' :
  process_video' filename total w = (r, w') ->
  forall path,
    path <> log_file' filename -> path <> output_file' filename ->
    fs w' !! path = fs w !! path.
Proof.
  unfold process_video. destruct (is_video filename).
  - cbv [mbind M_bind bind lift Os.print Os.emit Os.write_file Os.remove Os.set_fs mret
         M_ret ret].
    destruct (check_output _) as [[output t] | e];
      [| intros [= <- <-] path _ _; reflexivity].
    cbn [fs out SKIPPED_MEETINGS fst snd].
    destruct (fs w !! log_file' filename) as [[n0 |] |] eqn:Hlog;
      [| intros [= <- <-] path _ _; reflexivity |].
    all: destruct (cut_segments_of _ _ _) as [cut_segments | e];
      [| intros [= <- <-] path Hl _; cbn [fs]; apply lookup_insert_ne; congruence].
    all: cbn [fs out SKIPPED_MEETINGS fst snd].
    all: rewrite lookup_insert_ne by apply log_file_not_output_file.
    all: destruct (fs w !! output_file' filename) as [[n1 |] |] eqn:Hout;
      [| intros [= <- <-] path Hl _; cbn [fs]; apply lookup_insert_ne; congruence |].
    all: cbn [fs out SKIPPED_MEETINGS fst snd].
    all: rewrite lookup_insert_ne
      by (intros Heq; symmetry in Heq; revert Heq; apply log_file_not_output_file).
    all: rewrite lookup_insert_eq.
    all: cbn [fs out SKIPPED_MEETINGS fst snd].
    all: intros [= <- <-] path Hl Ho; cbn [fs].
    all: rewrite lookup_delete_ne by congruence.
    all: rewrite !lookup_insert_ne by congruence.
    all: reflexivity.
  - intros [= <- <-] path _ _. reflexivity.
Qed.

Lemma process_video_loop_frame filenames total w r w' :
  for_each process_video' filenames total w = (r, w') ->
  forall path,
    (forall filename,
        In filename filenames ->
        path <> log_file' filename /\ path <> output_file' filename) ->
    fs w' !! path = fs w !! path.
Proof.
  revert total w. induction filenames as [| x rest IH]; intros total w.
  - intros [= <- <-] path _. reflexivity.
  - cbn [for_each]. unfold bind.
    destruct (process_video' x total w) as [[total1 | e] w1] eqn:Hbody.
    + intros Hrest path Hpath. rewrite (IH _ _ Hrest).
      * apply (process_video_frame _ _ _ _ _ Hbody); apply Hpath; left; reflexivity.
      * intros filename Hin. apply Hpath. right. exact Hin.
    + intros [= <- <-] path Hpath.
      apply (process_video_frame _ _ _ _ _ Hbody); apply Hpath; left; reflexivity.
Qed.

Lemma contains_sep_cons (c : ascii) (s : string) :
  Py.contains "/" (String c s) = Ascii.eqb c "/" || Py.contains "/" s.
Proof. cbn [Py.contains]. rewrite prefix_sep_cons. reflexivity. Qed.

Lemma contains_sep_app (a b : string) :
  Py.contains "/" (a +:+ b) = Py.contains "/" a || Py.contains "/" b.
Proof.
  induction a as [| c a IH]; [reflexivity |].
  change (String c a +:+ b) with (String c (a +:+ b)).
  rewrite !contains_sep_cons, IH. apply orb_assoc.
Qed.

Lemma contains_sep_substring (s : string) (n m : nat) :
  Py.contains "/" s = false -> Py.contains "/" (String.substring n m s) = false.
Proof.
  revert n m. induction s as [| c s IH]; intros n m Hs.
  - destruct n, m; reflexivity.
  - rewrite contains_sep_cons in Hs. apply orb_false_iff in Hs. destruct Hs as [Hc Hs].
    destruct n as [| n]; cbn [String.substring].
    + destruct m as [| m]; [reflexivity |].
      rewrite contains_sep_cons, Hc. apply (IH 0%nat m Hs).
    + apply IH, Hs.
Qed.

Lemma contains_sep_stem (name : string) :
  Py.contains "/" name = false -> Py.contains "/" (fst (Py.splitext name)) = false.
Proof.
  intros Hname. unfold Py.splitext. destruct (_ && _); cbn [fst]; [| exact Hname].
  apply contains_sep_substring, Hname.
Qed.

Lemma string_app_assoc (a b c : string) : (a +:+ b) +:+ c = a +:+ (b +:+ c).
Proof.
  induction a as [| x a IH]; [reflexivity |].
  change (String x ((a +:+ b) +:+ c) = String x (a +:+ (b +:+ c))).
  rewrite IH. reflexivity.
Qed.

Lemma string_app_nil_r (a : string) : a +:+ "" = a.
Proof.
  induction a as [| x a IH]; [reflexivity |].
  change (String x (a +:+ "") = String x a). rewrite IH. reflexivity.
Qed.

Lemma path_join_entry (folder name : string) :
  Py.contains "/" name = false ->
  Py.path_join folder name = Py.path_join folder "" +:+ name.
Proof.
  intros Hname. unfold Py.path_join.
  assert (Hp : String.prefix "/" name = false).
  { destruct name as [| c s]; [reflexivity |].
    rewrite contains_sep_cons in Hname. apply orb_false_iff in Hname.
    rewrite prefix_sep_cons. apply Hname. }
  rewrite Hp. change (String.prefix "/" "") with false. cbv iota.
  destruct (_ || _).
  - rewrite string_app_nil_r. reflexivity.
  - rewrite <- !string_app_assoc, string_app_nil_r. reflexivity.
Qed.

Lemma remove_prefix_app (p s : string) : remove_prefix p (p +:+ s) = Some s.
Proof.
  induction p as [| c p IH]; [destruct s; reflexivity |].
  change (String c p +:+ s) with (String c (p +:+ s)).
  cbn [remove_prefix]. rewrite Ascii.eqb_refl. exact IH.
Qed.

Lemma remove_prefix_some (p s name : string) :
  remove_prefix p s = Some name -> s = p +:+ name.
Proof.
  revert s. induction p as [| c p IH]; intros s.
  - destruct s; intros [= <-]; reflexivity.
  - destruct s as [| d s]; cbn [remove_prefix]; [discriminate |].
    destruct (Ascii.eqb_spec c d) as [<- | Hne]; [| discriminate].
    intros H. rewrite (IH _ H). reflexivity.
Qed.

(** A name with no separator is the entry of its folder at the joined
    path, and an entry is such a name. *)
Lemma entry_of_join (folder name : string) :
  name <> "" -> Py.contains "/" name = false ->
  entry_of folder (Py.path_join folder name) = Some name.
Proof.
  intros Hne Hname. unfold entry_of.
  rewrite (path_join_entry folder name Hname), remove_prefix_app, Hname.
  destruct name; [contradiction | reflexivity].
Qed.

Lemma entry_of_some (folder path name : string) :
  entry_of folder path = Some name ->
  name <> "" /\ Py.contains "/" name = false /\ path = Py.path_join folder name.
Proof.
  unfold entry_of.
  destruct (remove_prefix _ path) as [rest |] eqn:Hrest; [| discriminate].
  destruct (String.eqb_spec rest "") as [-> | Hne]; [discriminate |]. cbn [orb].
  destruct (Py.contains "/" rest) eqn:Hsep; [discriminate |].
  intros [= <-]. split; [exact Hne |]. split; [exact Hsep |].
  rewrite (path_join_entry folder rest Hsep). apply remove_prefix_some, Hrest.
Qed.

(** [os.listdir] lists the names with no separator under which the folder
    has an entry. *)
Lemma listing_entries (folder : string) (files : gmap string node) (name : string) :
  In name (listing folder files)
  <-> name <> "" /\ Py.contains "/" name = false
      /\ is_Some (files !! Py.path_join folder name).
Proof.
  unfold listing. rewrite <- list_elem_of_In, list_elem_of_omap. split.
  - intros (path & Hpath & Hentry).
    apply list_elem_of_In, in_map_iff in Hpath. destruct Hpath as ([p x] & Hp & Hin).
    cbn [fst] in Hp. subst p.
    apply list_elem_of_In, elem_of_map_to_list in Hin.
    destruct (entry_of_some _ _ _ Hentry) as (Hne & Hsep & ->).
    split; [exact Hne |]. split; [exact Hsep |]. exists x. exact Hin.
  - intros (Hne & Hsep & [x Hx]). exists (Py.path_join folder name).
    split; [| apply entry_of_join; assumption].
    apply list_elem_of_In, in_map_iff. exists (Py.path_join folder name, x).
    split; [reflexivity |]. apply list_elem_of_In, elem_of_map_to_list. exact Hx.
Qed.

(** X14.  [process_videos] looks only at the entries of the output folder
    itself: whatever its outcome, a path that is not an entry of the output
    folder, such as a video in a folder of a user, a topic or a recording
    below it, is as before, so such a video gets no project file. *)
Theorem process_videos_stays_in_output_folder (w : World) (r : result unit) (w' : World)
  (path : string) :
  process_videos' w = (r, w') ->
  entry_of (OUTPUT_PATH CONFIG) path = None ->
  fs w' !! path = fs w !! path.
Proof.
  rewrite process_videos_run. intros Hrun Hpath.
  assert (Hloop : forall total r1 w1,
             for_each process_video' (listing (OUTPUT_PATH CONFIG) (fs w)) total
               (logged [Printed ("Processing videos in " +:+ OUTPUT_PATH CONFIG +:+ "...")] w)
             = (r1, w1) ->
             fs w1 !! path = fs w !! path).
  { intros total r1 w1 Hfor.
    rewrite (process_video_loop_frame _ _ _ _ _ Hfor path); [reflexivity |].
    intros filename Hin. apply listing_entries in Hin. destruct Hin as (Hne & Hsep & _).
    pose proof (contains_sep_stem _ Hsep) as Hstem.
    split; intros ->.
    - unfold log_file in Hpath. rewrite entry_of_join in Hpath; [discriminate | |].
      + destruct (fst (Py.splitext filename)); discriminate.
      + rewrite contains_sep_app, Hstem. reflexivity.
    - unfold output_file in Hpath. rewrite entry_of_join in Hpath; [discriminate | |].
      + destruct (fst (Py.splitext filename)); discriminate.
      + rewrite contains_sep_app, Hstem. reflexivity. }
  destruct (fs w !! OUTPUT_PATH CONFIG) as [[n |] |];
    try (injection Hrun as <- <-; reflexivity).
  cbv zeta in Hrun.
  destruct (for_each _ _ _ _) as [[total | e] w1] eqn:Hfor.
  - injection Hrun as <- <-. cbn [fs logged]. exact (Hloop _ _ _ Hfor).
  - injection Hrun as <- <-. exact (Hloop _ _ _ Hfor).
Qed.

(** X15.  The log of a video is written before it is read and is removed
    only after the project file is written: when a marker line of the output
    of the detector is not readable, the run stops with an error, the log
    file stays in the output folder with the whole output in it, and no
    project file is written. *)
Theorem unreadable_log_is_left_behind (filename : string) (total : F) (w : World)
  (output : string) (time_spent : F) (line : string) :
  is_video filename = true ->
  check_output (command CONFIG SETTINGS filename) = Ok (output, time_spent) ->
  fs w !! log_file' filename <> Some Dir ->
  In line (file_lines output) ->
  ~ readable float line ->
  exists e w',
    process_video' filename total w = (Raise e, w')
    /\ fs w' = <[log_file' filename := File (Z.of_nat (String.length output))]> (fs w).
Proof.
  intros Hv Hrun Hlog Hline Hbad. unfold process_video. rewrite Hv.
  cbv [mbind M_bind bind lift Os.print Os.emit Os.write_file Os.remove Os.set_fs mret
       M_ret ret].
  rewrite Hrun. cbn [fs out SKIPPED_MEETINGS fst snd].
  assert (Hparse : exists e, cut_segments_of float gt (file_lines output) = Raise e).
  { unfold cut_segments_of.
    destruct (parse_lines float gt (file_lines output) ([], None, None)) as [st | e] eqn:E;
      [| exists e; reflexivity].
    exfalso. apply Hbad.
    apply (proj1 (parse_lines_returns_iff float gt (file_lines output) ([], None, None)));
      [exists st; exact E | exact Hline]. }
  destruct Hparse as [e ->].
  destruct (fs w !! log_file' filename) as [[n0 |] |]; [| contradiction |];
    eexists; eexists; (split; [reflexivity | reflexivity]).
Qed.

End VideosFacts.

Section VideoRuns.
Import Models.
Local Open Scope Z_scope.

(** The video of the output folder gets its project file, the text file of
    the same name is gone, and the video is as before. *)
Lemma process_videos_leaves_projects_and_no_logs_witness :
  fs (snd (detection_run silence_output)) !! "out/Standup.txt" = None
  /\ (exists n, fs (snd (detection_run silence_output)) !! "out/Standup-proj.llc"
                = Some (File n))
  /\ fs (snd (detection_run silence_output)) !! "out/Standup.mp4"
     = fs video_world !! "out/Standup.mp4".
Proof.
  refine (proj1 (process_videos_leaves_projects_and_no_logs plain_config detector_settings
                   float_of_decimal float_gt (detector silence_output) 0%float PrimFloat.add
                   (fun _ => "2.5")
                   (fun _ cut_segments => 64 + 48 * Z.of_nat (length cut_segments))
                   video_world (snd (detection_run silence_output)) _)
            "Standup.mp4" _).
  - vm_compute. reflexivity.
  - vm_compute. left. reflexivity.
Defined.

(** The video in the folder of its topic is not an entry of the output
    folder. *)
Lemma process_videos_stays_in_output_folder_witness :
  fs (snd (detection_run silence_output)) !! "out/Standup/Standup.mp4"
  = fs video_world !! "out/Standup/Standup.mp4".
Proof.
  refine (process_videos_stays_in_output_folder plain_config detector_settings
            float_of_decimal float_gt (detector silence_output) 0%float PrimFloat.add
            (fun _ => "2.5")
            (fun _ cut_segments => 64 + 48 * Z.of_nat (length cut_segments))
            video_world (fst (detection_run silence_output))
            (snd (detection_run silence_output)) "out/Standup/Standup.mp4" _ _).
  - vm_compute. reflexivity.
  - vm_compute. reflexivity.
Defined.

(** An output cut short after the start marker has no colon: the log of 46
    bytes stays. *)
Lemma unreadable_log_is_left_behind_witness :
  exists e w',
    process_video plain_config detector_settings float_of_decimal float_gt
      (detector cut_short_output) PrimFloat.add (fun _ => "2.5")
      (fun _ cut_segments => 64 + 48 * Z.of_nat (length cut_segments))
      "Standup.mp4" 0%float video_world = (Raise e, w')
    /\ fs w' = <["out/Standup.txt" := File 46]> (fs video_world).
Proof.
  refine (unreadable_log_is_left_behind plain_config detector_settings float_of_decimal
            float_gt (detector cut_short_output) PrimFloat.add (fun _ => "2.5")
            (fun _ cut_segments => 64 + 48 * Z.of_nat (length cut_segments))
            "Standup.mp4" 0%float video_world cut_short_output 2.5%float cut_short_output
            _ _ _ _ _).
  - vm_compute. reflexivity.
  - vm_compute. reflexivity.
  - vm_compute. discriminate.
  - vm_compute. left. reflexivity.
  - intros [Hstart _]. destruct (Hstart eq_refl) as (v & _ & _ & text & Htext & _).
    vm_compute in Htext. discriminate.
Defined.

End VideoRuns.
